(** * ComfyUI-Launcher: the git updater [lib/update_comfyui.py]

    A shallow embedding of the updater script and the properties its
    specification states about it.

    The script drives a git repository through pygit2.  The script's own
    functions ([pull], [find_latest_stable_tag], [main]) are embedded
    statement by statement; pygit2 is an external library and is modelled
    by a small repository state machine ([Module Git]) whose
    environment-determined outcomes (what a stash attempt does, what a
    fetch brings, what the merge analysis and the merge produce, whether
    a checkout is stopped) are supplied by an oracle record.  Text is
    UTF-8, and [int()] reads the decimal digits and the whitespace of
    every script, as given by the Unicode database of the interpreter.

    A backend call raises where pygit2 documents an exception that
    depends on the repository: a missing reference, a missing object, an
    unborn HEAD, a branch name already taken, no configured user, a
    conflicted index; a stash or a fetch raises when the oracle says so,
    and so does a checkout that a file of the working directory stops.
    Otherwise the call has the effect described next to its definition
    (input-output failures of the library are not represented).  Tags
    are lightweight or annotated; a fetch also writes the tags the
    library follows.  The
    output is the list of the lines printed, one per [print]; the list of
    the backend calls made is kept beside it. *)

From Stdlib Require Import ZArith NArith String Ascii List Lia Bool.
From stdpp Require Import base option list gmap strings sorting pretty.

Local Open Scope string_scope.
Local Open Scope Z_scope.

(** ** Python built-ins used by the script *)

Module Py.

(** [s.startswith(prefix)] *)
Fixpoint startswith (s prefix : string) {struct prefix} : bool :=
  match prefix, s with
  | EmptyString, _ => true
  | String c p, String d s' => Ascii.eqb c d && startswith s' p
  | String _ _, EmptyString => false
  end.

(** [s[n:]] *)
Fixpoint slice_from (n : nat) (s : string) : string :=
  match n, s with
  | O, _ => s
  | S n', String _ s' => slice_from n' s'
  | S _, EmptyString => EmptyString
  end.

(** [s.split(sep)] for a one-character separator: always at least one
    component, empty components are kept. *)
Fixpoint split (sep : ascii) (s : string) : list string :=
  match s with
  | EmptyString => [EmptyString]
  | String c s' =>
      if Ascii.eqb c sep then EmptyString :: split sep s'
      else match split sep s' with
           | h :: t => String c h :: t
           | [] => [String c EmptyString]
           end
  end.

(** [s.rstrip(chars)]: drop the longest suffix made of characters of
    [chars]. *)
Fixpoint mem_char (c : ascii) (chars : string) : bool :=
  match chars with
  | EmptyString => false
  | String d r => Ascii.eqb c d || mem_char c r
  end.

Fixpoint rstrip (chars : string) (s : string) : string :=
  match s with
  | EmptyString => EmptyString
  | String c s' =>
      match rstrip chars s' with
      | EmptyString => if mem_char c chars then EmptyString else String c EmptyString
      | r => String c r
      end
  end.

(** [s.replace(old, "")] for a non-empty [old]: every non-overlapping
    occurrence, scanning from the left, is removed. *)
Fixpoint remove_all_fuel (fuel : nat) (old s : string) : string :=
  match fuel with
  | O => s
  | S fuel' =>
      if startswith s old
      then remove_all_fuel fuel' old (slice_from (String.length old) s)
      else match s with
           | EmptyString => EmptyString
           | String c s' => String c (remove_all_fuel fuel' old s')
           end
  end.

Definition remove_all (old s : string) : string :=
  remove_all_fuel (S (String.length s)) old s.

(** The characters [int()] skips around a literal (C [isspace]). *)
Definition is_space (c : ascii) : bool :=
  let n := nat_of_ascii c in
  Nat.eqb n 32 || (Nat.leb 9 n && Nat.leb n 13).

Definition digit_of (c : ascii) : option Z :=
  let n := Z.of_nat (nat_of_ascii c) in
  if (48 <=? n) && (n <=? 57) then Some (n - 48) else None.

Fixpoint lstrip_space (s : string) : string :=
  match s with
  | String c s' => if is_space c then lstrip_space s' else s
  | EmptyString => EmptyString
  end.

Fixpoint all_space (s : string) : bool :=
  match s with
  | String c s' => is_space c && all_space s'
  | EmptyString => true
  end.

(** The digit part of a decimal literal: digits, with single underscores
    allowed between two digits.  [prev_digit] says that the character
    just read was a digit; the result is the value, the number of digits
    and the unread rest. *)
Fixpoint int_digits (s : string) (prev_digit : bool) (acc : Z) (n : nat)
  : option (Z * nat * string) :=
  match s with
  | String c s' =>
      match digit_of c with
      | Some d => int_digits s' true (10 * acc + d) (S n)
      | None =>
          if Ascii.eqb c "_"%char
          then (if prev_digit then int_digits s' false acc n else None)
          else (if prev_digit then Some (acc, n, s) else None)
      end
  | EmptyString => if prev_digit then Some (acc, n, EmptyString) else None
  end.

(** [sys.int_info.str_digits_check_threshold]: literals of at most this
    many digits are never refused for their length. *)
Definition str_digits_check_threshold : nat := 640.

(** [PyLong_FromString] in base 10, on the ASCII text [int()] hands it:
    blanks, a sign, digits with single underscores between them, blanks;
    [None] is [ValueError].  [max_str_digits] is
    [sys.get_int_max_str_digits()] (4300 by default since CPython 3.11,
    0 switches the limit off). *)
Definition int_ascii (max_str_digits : nat) (s : string) : option Z :=
  let s1 := lstrip_space s in
  let '(neg, s2) :=
    match s1 with
    | String "-"%char r => (true, r)
    | String "+"%char r => (false, r)
    | _ => (false, s1)
    end in
  match int_digits s2 false 0 0 with
  | Some (v, n, rest) =>
      if negb (all_space rest) then None
      else if Nat.ltb str_digits_check_threshold n
              && Nat.ltb 0 max_str_digits && Nat.ltb max_str_digits n then None
      else Some (if neg then - v else v)
  | None => None
  end.

(** What the Unicode database of the interpreter says of a code point
    that is not ASCII: its decimal digit value ([Py_UNICODE_TODECIMAL])
    and whether it is whitespace ([Py_UNICODE_ISSPACE]).  The database
    grows with the version of the interpreter. *)
Record Unicode := {
  to_decimal : N -> option Z;
  is_whitespace : N -> bool
}.

(** A [str] is kept as its UTF-8 encoding, so that prefixes, splitting
    at an ASCII character, removal of an ASCII substring and the order
    of two strings are those of the bytes.  [code_points] gives the code
    points back; [None] on bytes that encode no [str]. *)
Definition continuation (c : ascii) : option N :=
  let b := N_of_ascii c in
  if ((128 <=? b) && (b <? 192))%N then Some (b - 128)%N else None.

Fixpoint code_points (s : string) : option (list N) :=
  match s with
  | EmptyString => Some []
  | String c0 s1 =>
      let b0 := N_of_ascii c0 in
      if (b0 <? 128)%N then cons b0 <$> code_points s1
      else if (b0 <? 194)%N then None
      else if (b0 <? 224)%N then
        match s1 with
        | String c1 s2 =>
            match continuation c1 with
            | Some x1 => cons ((b0 - 192) * 64 + x1)%N <$> code_points s2
            | None => None
            end
        | _ => None
        end
      else if (b0 <? 240)%N then
        match s1 with
        | String c1 (String c2 s3) =>
            match continuation c1, continuation c2 with
            | Some x1, Some x2 =>
                let cp := ((b0 - 224) * 4096 + x1 * 64 + x2)%N in
                if ((2048 <=? cp) && negb ((55296 <=? cp) && (cp <? 57344)))%N
                then cons cp <$> code_points s3
                else None
            | _, _ => None
            end
        | _ => None
        end
      else if (b0 <? 245)%N then
        match s1 with
        | String c1 (String c2 (String c3 s4)) =>
            match continuation c1, continuation c2, continuation c3 with
            | Some x1, Some x2, Some x3 =>
                let cp := ((b0 - 240) * 262144 + x1 * 4096 + x2 * 64 + x3)%N in
                if ((65536 <=? cp) && (cp <? 1114112))%N
                then cons cp <$> code_points s4
                else None
            | _, _, _ => None
            end
        | _ => None
        end
      else None
  end.

(** [_PyUnicode_TransformDecimalAndSpaceToASCII] on a [str] that is not
    ASCII: characters below 127 are kept, whitespace becomes a blank, a
    decimal digit becomes its ASCII digit, and anything else becomes a
    question mark, at which the text is cut. *)
Fixpoint transform_decimal_and_space (unicode : Unicode) (chars : list N) : string :=
  match chars with
  | [] => EmptyString
  | ch :: rest =>
      if (ch <? 127)%N then String (ascii_of_N ch) (transform_decimal_and_space unicode rest)
      else if is_whitespace unicode ch
      then String " "%char (transform_decimal_and_space unicode rest)
      else match to_decimal unicode ch with
           | Some d =>
               if (0 <=? d) && (d <=? 9)
               then String (ascii_of_N (Z.to_N (48 + d)))
                      (transform_decimal_and_space unicode rest)
               else String "?"%char EmptyString
           | None => String "?"%char EmptyString
           end
  end.

(** [int(s)] on a [str], base 10; [None] is [ValueError].  An ASCII
    [str] is parsed as it is; in any other the decimal digits and the
    whitespace of every script are first brought to ASCII. *)
Definition int (max_str_digits : nat) (unicode : Unicode) (s : string) : option Z :=
  match code_points s with
  | Some chars =>
      if forallb (fun ch => (ch <? 128)%N) chars then int_ascii max_str_digits s
      else int_ascii max_str_digits (transform_decimal_and_space unicode chars)
  | None => None
  end.

(** The database of Unicode 14.0, that of CPython 3.11: the code point
    of the digit zero of every run of ten decimal digits outside ASCII,
    and the whitespace outside ASCII. *)
Definition unicode_14_zeros : list N :=
  [
    1632; 1776; 1984; 2406; 2534; 2662; 2790; 2918; 3046; 3174; 3302; 3430; 3558; 3664;
    3792; 3872; 4160; 4240; 6112; 6160; 6470; 6608; 6784; 6800; 6992; 7088; 7232; 7248;
    42528; 43216; 43264; 43472; 43504; 43600; 44016; 65296; 66720; 68912; 69734; 69872;
    69942; 70096; 70384; 70736; 70864; 71248; 71360; 71472; 71904; 72016; 72784; 73040;
    73120; 92768; 92864; 93008; 120782; 120792; 120802; 120812; 120822; 123200; 123632;
    125264; 130032
  ]%N.

Definition unicode_14_spaces : list N :=
  [
    133; 160; 5760; 8192; 8193; 8194; 8195; 8196; 8197; 8198; 8199; 8200; 8201; 8202;
    8232; 8233; 8239; 8287; 12288
  ]%N.

Definition unicode_14 : Unicode :=
  {| to_decimal := fun ch =>
       match List.find (fun zero => (zero <=? ch) && (ch <? zero + 10))%N unicode_14_zeros with
       | Some zero => Some (Z.of_N (ch - zero))
       | None => None
       end;
     is_whitespace := fun ch => existsb (N.eqb ch) unicode_14_spaces |}.

(** Comparison of two tuples of integers: lexicographic, a proper prefix
    is smaller. *)
Fixpoint tuple_compare (a b : list Z) : comparison :=
  match a, b with
  | [], [] => Eq
  | [], _ :: _ => Lt
  | _ :: _, [] => Gt
  | x :: a', y :: b' =>
      match Z.compare x y with
      | Eq => tuple_compare a' b'
      | c => c
      end
  end.

(** Comparison of the pairs [(parts, ref_name)] the script sorts. *)
Definition pair_compare (x y : list Z * string) : comparison :=
  match tuple_compare x.1 y.1 with
  | Eq => String.compare x.2 y.2
  | c => c
  end.

Definition pair_le (x y : list Z * string) : Prop := pair_compare x y <> Gt.

#[global] Instance pair_le_dec : RelDecision pair_le.
Proof. intros x y. unfold pair_le. destruct (pair_compare x y); [left|left|right]; congruence. Defined.

(** [list.sort()] on such pairs.  The order is total and antisymmetric,
    so the sorted list is unique and any correct sort computes it. *)
Definition sort (l : list (list Z * string)) : list (list Z * string) :=
  merge_sort pair_le l.

End Py.

(** ** [find_latest_stable_tag] *)

Section StableTag.

Variable int_max_str_digits : nat.
Variable unicode : Py.Unicode.

Definition tag_prefix : string := "refs/tags/v".

(** The body of the loop over [repo.references]: one reference name,
    the list [versions] so far. *)
Definition scan_reference (versions : list (list Z * string)) (ref_name : string)
  : list (list Z * string) :=
  let prefix := tag_prefix in
  if Py.startswith ref_name prefix then
    match mapM (Py.int int_max_str_digits unicode)
               (Py.split "."%char (Py.slice_from (String.length prefix) ref_name)) with
    | Some parts => versions ++ [(parts, ref_name)]
    | None => versions
    end
  else versions.

Definition collect_versions (references : list string) : list (list Z * string) :=
  fold_left scan_reference references [].

(** The statements after the loop: [versions.sort()] and
    [versions[-1][1] if versions else None]. *)
Definition latest_of (versions : list (list Z * string)) : option string :=
  let versions := Py.sort versions in
  match last versions with
  | Some v => Some v.2
  | None => None
  end.

End StableTag.

(** ** The repository backend (pygit2) *)

Module Git.

(** Object ids are kept as their hexadecimal text, so [str(oid)] is the
    identity. *)
Definition Oid : Type := string.

Record Signature := { sig_name : string; sig_email : string }.

Record Commit := {
  commit_tree : Oid;
  commit_parents : list Oid;
  commit_message : string;
  commit_author : Signature;
  commit_committer : Signature
}.

Record IndexEntry := { path : string; entry_id : Oid }.

(** One element of [repo.index.conflicts]: (ancestor, ours, theirs),
    a side that is absent is [None]. *)
Definition Conflict : Type := option IndexEntry * option IndexEntry * option IndexEntry.

Record Index := { index_tree : Oid; index_conflicts : list Conflict }.

(** HEAD is attached to a branch [refs/heads/<name>] or detached. *)
Inductive HeadTarget :=
| OnBranch (branch : string)
| Detached (oid : Oid).

Inductive RepositoryState := STATE_NONE | STATE_MERGE.

Record Remote := { remote_name : string; remote_url : string }.

Record Repo := {
  HEAD : HeadTarget;
  refs : gmap string Oid;          (* every direct reference, by full name *)
  odb : gmap string Commit;        (* the commits of the object database *)
  index : Index;                   (* the index held in memory *)
  index_file : Index;              (* the index as last written to disk *)
  workdir : Oid;                   (* the tree the working directory holds *)
  state : RepositoryState;         (* merge in progress or not *)
  remotes : list Remote;
  config_user : option Signature;  (* user.name / user.email, when configured *)
  tag_objects : gmap string Oid    (* the annotated tag objects, each with the
                                      commit it peels to *)
}.

(** Exceptions, by class.  [SystemExit] is the only one here that is not
    a subclass of [Exception]; [AlreadyExistsError] is a [ValueError]. *)
Inductive Exn :=
| KeyError
| ValueError
| AlreadyExistsError
| TypeError
| GitError
| RuntimeError (msg : string)
| SystemExit (code : Z).

Definition is_KeyError (e : Exn) : bool :=
  match e with KeyError => true | _ => false end.

Definition is_Exception (e : Exn) : bool :=
  match e with SystemExit _ => false | _ => true end.

(** The calls that change the repository or reach outside it, in the
    order the program makes them. *)
Inductive Call :=
| CallOption (opt value : Z)
| CallOpen (path : string)
| CallStash (ident : Signature)
| CallStateCleanup
| CallIndexReadTree (tree : Oid)
| CallIndexWrite
| CallIndexWriteTree
| CallCreateBranch (name : string) (target : Oid)
| CallFetch (remote : string) (refspecs : list string)
| CallCheckoutTree (oid : Oid)
| CallCheckout (refname : string)
| CallSetTarget (refname : string) (oid : Oid)
| CallMerge (oid : Oid)
| CallCreateCommit (ref : string) (c : Commit).

Record World := {
  repo : Repo;
  stdout : list string;     (* one element per [print] *)
  calls : list Call
}.

Record DateTime := {
  year : nat; month : nat; day : nat; hour : nat; minute : nat; second : nat
}.

(** What a fetch brings.  Beside the references named by the refspecs
    the library writes the tags it follows: with the default settings
    the advertised tags that point into the history received and that
    the repository does not have yet. *)
Record FetchResult := {
  advertised : list (string * Oid);     (* the references the remote advertises *)
  received : list (Oid * Commit);       (* the commits received *)
  received_tags : list (Oid * Oid);     (* the annotated tag objects received,
                                           each with the commit it peels to *)
  followed_tags : list (string * Oid)   (* the tags written by tag following *)
}.

(** What the environment decides.  Every field sees the whole world at
    the moment of the call, the call history included, so two attempts of
    the same operation may differ. *)
Record Oracle := {
  (* repo.stash: the exception raised (KeyError when there is nothing to
     stash), or the stash commit written *)
  stash_outcome : World -> Signature -> Exn + (Oid * Commit);
  (* remote.fetch: the exception raised, or what the fetch brings *)
  fetch_outcome : World -> Remote -> list string -> Exn + FetchResult;
  (* a checkout in the default safe mode: whether a file of the working
     directory (modified, or untracked and in the way) stops it *)
  checkout_conflict : World -> Oid -> bool;
  (* repo.merge_analysis: the analysis bit mask *)
  merge_analysis_result : World -> Oid -> Z;
  (* repo.merge: the merged index and working tree *)
  merge_outcome : World -> Oid -> Index * Oid;
  (* the id of a commit about to be written *)
  commit_id : World -> Commit -> Oid;
  (* datetime.today() *)
  today : World -> DateTime
}.

Definition GIT_MERGE_ANALYSIS_NONE : Z := 0.
Definition GIT_MERGE_ANALYSIS_NORMAL : Z := 1.
Definition GIT_MERGE_ANALYSIS_UP_TO_DATE : Z := 2.
Definition GIT_MERGE_ANALYSIS_FASTFORWARD : Z := 4.
Definition GIT_MERGE_ANALYSIS_UNBORN : Z := 8.
Definition GIT_OPT_SET_OWNER_VALIDATION : Z := 36.

(** *** The monad of the script: state, output and exceptions

    A raised exception keeps the world reached so far. *)

Inductive Result (A : Type) :=
| Ok (a : A)
| Raise (e : Exn).
Arguments Ok {A} a.
Arguments Raise {A} e.

Definition M (A : Type) : Type := World -> Result A * World.

#[global] Instance M_ret : MRet M := fun A a w => (Ok a, w).

#[global] Instance M_bind : MBind M := fun A B k m w =>
  match m w with
  | (Ok a, w') => k a w'
  | (Raise e, w') => (Raise e, w')
  end.

Definition raise {A} (e : Exn) : M A := fun w => (Raise e, w).

Definition print (line : string) : M unit := fun w =>
  (Ok tt, {| repo := repo w; stdout := stdout w ++ [line]; calls := calls w |}).

Definition called (c : Call) : M unit := fun w =>
  (Ok tt, {| repo := repo w; stdout := stdout w; calls := calls w ++ [c] |}).

Definition get_repo : M Repo := fun w => (Ok (repo w), w).

Definition set_repo (r : Repo) : M unit := fun w =>
  (Ok tt, {| repo := r; stdout := stdout w; calls := calls w |}).

Definition ask {A} (q : World -> A) : M A := fun w => (Ok (q w), w).

(** [try: body except ...]: [handler e] is the clause that catches [e],
    [None] when no clause does. *)
Definition try_except {A} (body : M A) (handler : Exn -> option (M A)) : M A := fun w =>
  match body w with
  | (Ok a, w') => (Ok a, w')
  | (Raise e, w') =>
      match handler e with
      | Some h => h w'
      | None => (Raise e, w')
      end
  end.

(** [for x in l: body] *)
Fixpoint for_each {A} (l : list A) (body : A -> M unit) : M unit :=
  match l with
  | [] => mret tt
  | x :: l' => body x ;; for_each l' body
  end.

Definition of_option {A} (o : option A) (e : Exn) : M A :=
  match o with
  | Some a => mret a
  | None => raise e
  end.

(** *** Repository updates *)

Definition with_HEAD (h : HeadTarget) (r : Repo) : Repo :=
  {| HEAD := h; refs := refs r; odb := odb r; index := index r;
     index_file := index_file r; workdir := workdir r; state := state r;
     remotes := remotes r; config_user := config_user r; tag_objects := tag_objects r |}.

Definition with_refs (m : gmap string Oid) (r : Repo) : Repo :=
  {| HEAD := HEAD r; refs := m; odb := odb r; index := index r;
     index_file := index_file r; workdir := workdir r; state := state r;
     remotes := remotes r; config_user := config_user r; tag_objects := tag_objects r |}.

Definition with_odb (m : gmap string Commit) (r : Repo) : Repo :=
  {| HEAD := HEAD r; refs := refs r; odb := m; index := index r;
     index_file := index_file r; workdir := workdir r; state := state r;
     remotes := remotes r; config_user := config_user r; tag_objects := tag_objects r |}.

Definition with_index (i : Index) (r : Repo) : Repo :=
  {| HEAD := HEAD r; refs := refs r; odb := odb r; index := i;
     index_file := index_file r; workdir := workdir r; state := state r;
     remotes := remotes r; config_user := config_user r; tag_objects := tag_objects r |}.

Definition with_index_file (i : Index) (r : Repo) : Repo :=
  {| HEAD := HEAD r; refs := refs r; odb := odb r; index := index r;
     index_file := i; workdir := workdir r; state := state r;
     remotes := remotes r; config_user := config_user r; tag_objects := tag_objects r |}.

Definition with_workdir (t : Oid) (r : Repo) : Repo :=
  {| HEAD := HEAD r; refs := refs r; odb := odb r; index := index r;
     index_file := index_file r; workdir := t; state := state r;
     remotes := remotes r; config_user := config_user r; tag_objects := tag_objects r |}.

Definition with_state (s : RepositoryState) (r : Repo) : Repo :=
  {| HEAD := HEAD r; refs := refs r; odb := odb r; index := index r;
     index_file := index_file r; workdir := workdir r; state := s;
     remotes := remotes r; config_user := config_user r; tag_objects := tag_objects r |}.

Definition with_tag_objects (m : gmap string Oid) (r : Repo) : Repo :=
  {| HEAD := HEAD r; refs := refs r; odb := odb r; index := index r;
     index_file := index_file r; workdir := workdir r; state := state r;
     remotes := remotes r; config_user := config_user r; tag_objects := m |}.

Definition update_repo (f : Repo -> Repo) : M unit :=
  r ← get_repo; set_repo (f r).

Definition clean_index (tree : Oid) : Index :=
  {| index_tree := tree; index_conflicts := [] |}.

(** The working directory and both copies of the index hold [tree]. *)
Definition checked_out (tree : Oid) (r : Repo) : Repo :=
  with_workdir tree (with_index_file (clean_index tree) (with_index (clean_index tree) r)).

(** *** References *)

Definition branch_ref (branch : string) : string := "refs/heads/" +:+ branch.

(** The commit id HEAD resolves to, if any, and that commit. *)
Definition head_oid (r : Repo) : option Oid :=
  match HEAD r with
  | OnBranch b => refs r !! branch_ref b
  | Detached oid => Some oid
  end.

Definition head_commit (r : Repo) : option (Oid * Commit) :=
  match head_oid r with
  | Some oid => match odb r !! oid with Some c => Some (oid, c) | None => None end
  | None => None
  end.

(** The commit an object id peels to: the commit itself, or the commit
    of an annotated tag. *)
Definition peel_commit (r : Repo) (oid : Oid) : option (Oid * Commit) :=
  match odb r !! oid with
  | Some c => Some (oid, c)
  | None =>
      match tag_objects r !! oid with
      | Some target =>
          match odb r !! target with
          | Some c => Some (target, c)
          | None => None
          end
      | None => None
      end
  end.

(** [repo.references]: the names of all references. *)
Definition references (r : Repo) : list string := (map_to_list (refs r)).*1.

(** A [Reference] object: HEAD itself (when detached) or a named direct
    reference. *)
Inductive Reference :=
| RefHEAD
| RefNamed (name : string).

Definition reference_name (ref : Reference) : string :=
  match ref with
  | RefHEAD => "HEAD"
  | RefNamed n => n
  end.

(** [repo.lookup_reference(name)]: [KeyError] when there is none. *)
Definition lookup_reference (name : string) : M Reference :=
  r ← get_repo;
  match refs r !! name with
  | Some _ => mret (RefNamed name)
  | None => raise KeyError
  end.

(** [repo.lookup_branch(name)]: [None] when there is none. *)
Definition lookup_branch (name : string) : M (option Reference) :=
  r ← get_repo;
  match refs r !! branch_ref name with
  | Some _ => mret (Some (RefNamed (branch_ref name)))
  | None => mret None
  end.

(** [repo.head]: the reference HEAD resolves to; [GitError] on an unborn
    branch. *)
Definition repo_head : M Reference :=
  r ← get_repo;
  match HEAD r with
  | OnBranch b =>
      match refs r !! branch_ref b with
      | Some _ => mret (RefNamed (branch_ref b))
      | None => raise GitError
      end
  | Detached _ => mret RefHEAD
  end.

(** [ref.target] *)
Definition reference_target (ref : Reference) : M Oid :=
  r ← get_repo;
  match ref with
  | RefHEAD =>
      match HEAD r with
      | Detached oid => mret oid
      | OnBranch b => of_option (refs r !! branch_ref b) GitError
      end
  | RefNamed n => of_option (refs r !! n) KeyError
  end.

(** [ref.set_target(oid)] *)
Definition set_target (ref : Reference) (oid : Oid) : M unit :=
  called (CallSetTarget (reference_name ref) oid);;
  match ref with
  | RefHEAD => update_repo (with_HEAD (Detached oid))
  | RefNamed n => update_repo (fun r => with_refs (<[n := oid]> (refs r)) r)
  end.

(** [repo.get(oid)]: the commit, [None] when the database has none. *)
Definition repo_get (oid : Oid) : M (option (Oid * Commit)) :=
  r ← get_repo;
  mret (match odb r !! oid with Some c => Some (oid, c) | None => None end).

(** [ref.peel()]: the commit the reference points to. *)
Definition peel (ref : Reference) : M (Oid * Commit) :=
  oid ← reference_target ref;
  r ← get_repo;
  match odb r !! oid with
  | Some c => mret (oid, c)
  | None => raise GitError
  end.

(** [repo.create_branch(name, commit)] and
    [repo.branches.local.create(name, commit)]: a new branch at
    [commit]; [AlreadyExistsError] when the name is taken. *)
Definition create_branch (name : string) (commit : option (Oid * Commit)) : M Reference :=
  match commit with
  | None => raise TypeError
  | Some (oid, _) =>
      called (CallCreateBranch name oid);;
      r ← get_repo;
      match refs r !! branch_ref name with
      | Some _ => raise AlreadyExistsError
      | None =>
          set_repo (with_refs (<[branch_ref name := oid]> (refs r)) r);;
          mret (RefNamed (branch_ref name))
      end
  end.

(** *** Index and state *)

(** [repo.state_cleanup()] *)
Definition state_cleanup : M unit :=
  called CallStateCleanup;;
  update_repo (with_state STATE_NONE).

(** [repo.index.read_tree(tree)] *)
Definition index_read_tree (tree : Oid) : M unit :=
  called (CallIndexReadTree tree);;
  update_repo (with_index (clean_index tree)).

(** [repo.index.write()] *)
Definition index_write : M unit :=
  called CallIndexWrite;;
  update_repo (fun r => with_index_file (index r) r).

(** [repo.index.conflicts]: [None] when the index has no conflict. *)
Definition index_get_conflicts : M (option (list Conflict)) :=
  r ← get_repo;
  mret (match index_conflicts (index r) with
        | [] => None
        | cs => Some cs
        end).

(** [repo.index.write_tree()]: refused on a conflicted index. *)
Definition index_write_tree : M Oid :=
  called CallIndexWriteTree;;
  r ← get_repo;
  match index_conflicts (index r) with
  | [] => mret (index_tree (index r))
  | _ => raise GitError
  end.

(** [repo.default_signature]: [KeyError] when the configuration has no
    user. *)
Definition default_signature : M Signature :=
  r ← get_repo;
  of_option (config_user r) KeyError.

Section Backend.

Variable O : Oracle.

(** *** Checkouts *)

(** [repo.checkout_tree(commit)], in the default safe mode: [GitError]
    when a file of the working directory stops it, and then nothing is
    written. *)
Definition checkout_tree (commit : option (Oid * Commit)) : M unit :=
  match commit with
  | None => raise TypeError
  | Some (oid, c) =>
      blocked ← ask (fun w => checkout_conflict O w (commit_tree c));
      called (CallCheckoutTree oid);;
      if blocked : bool then raise GitError
      else update_repo (checked_out (commit_tree c))
  end.

(** [repo.checkout(ref)] for a reference other than HEAD: the object the
    reference points to is peeled to its commit, the commit is checked
    out as by [checkout_tree], then [set_head]: HEAD follows a branch
    and is detached at the commit for any other reference. *)
Definition checkout_reference (refname : string) : M unit :=
  r ← get_repo;
  oid ← of_option (refs r !! refname) KeyError;
  '(commit_oid, c) ← of_option (peel_commit r oid) KeyError;
  blocked ← ask (fun w => checkout_conflict O w (commit_tree c));
  called (CallCheckout refname);;
  if blocked : bool then raise GitError
  else
    let r1 := checked_out (commit_tree c) r in
    if Py.startswith refname "refs/heads/"
    then set_repo (with_HEAD (OnBranch (Py.slice_from 11 refname)) r1)
    else set_repo (with_HEAD (Detached commit_oid) r1).

(** [repo.checkout("HEAD")]: the working directory and index go back to
    HEAD's commit. *)
Definition checkout_head : M unit :=
  h ← repo_head;
  '(_, c) ← peel h;
  blocked ← ask (fun w => checkout_conflict O w (commit_tree c));
  called (CallCheckout "HEAD");;
  if blocked : bool then raise GitError
  else update_repo (checked_out (commit_tree c)).

(** [repo.checkout(refname)], by name or by [Reference] object. *)
Definition checkout (refname : string) : M unit :=
  if String.eqb refname "HEAD" then checkout_head else checkout_reference refname.

(** *** Merging, committing, stashing, fetching *)

(** [repo.merge_analysis(oid)], first component. *)
Definition merge_analysis (their_head : Oid) : M Z :=
  ask (fun w => merge_analysis_result O w their_head).

(** [repo.merge(oid)]: the merge result goes to the index and the working
    directory, and the repository enters the merging state. *)
Definition merge (their_head : Oid) : M unit :=
  '(idx, tree) ← ask (fun w => merge_outcome O w their_head);
  called (CallMerge their_head);;
  update_repo (fun r => with_state STATE_MERGE (with_workdir tree (with_index idx r))).

(** [repo.create_commit(ref, author, committer, message, tree, parents)]
    with [ref = "HEAD"]: the commit is written and the reference HEAD
    resolves through (the current branch, or HEAD itself when detached)
    is moved to it. *)
Definition create_commit_HEAD (author committer : Signature) (message : string)
    (tree : Oid) (parents : list Oid) : M Oid :=
  let c := {| commit_tree := tree; commit_parents := parents; commit_message := message;
              commit_author := author; commit_committer := committer |} in
  oid ← ask (fun w => commit_id O w c);
  called (CallCreateCommit "HEAD" c);;
  update_repo (fun r =>
    let r1 := with_odb (<[oid := c]> (odb r)) r in
    match HEAD r with
    | OnBranch b => with_refs (<[branch_ref b := oid]> (refs r1)) r1
    | Detached _ => with_HEAD (Detached oid) r1
    end);;
  mret oid.

(** [repo.stash(ident)]: on success the stash commit is written,
    [refs/stash] points to it and the working directory and index go
    back to HEAD's tree. *)
Definition stash (ident : Signature) : M Oid :=
  outcome ← ask (fun w => stash_outcome O w ident);
  called (CallStash ident);;
  match outcome with
  | inl e => raise e
  | inr (oid, c) =>
      update_repo (fun r =>
        let r1 := with_refs (<["refs/stash" := oid]> (refs r)) (with_odb (<[oid := c]> (odb r)) r) in
        match head_commit r with
        | Some (_, h) => checked_out (commit_tree h) r1
        | None => r1
        end);;
      mret oid
  end.

(** A refspec [+src:dst]; a trailing [*] on both sides is a wildcard. *)
Record Refspec := { rs_force : bool; rs_glob : bool; rs_src : string; rs_dst : string }.

Fixpoint split_colon (s : string) : string * string :=
  match s with
  | EmptyString => (EmptyString, EmptyString)
  | String c s' =>
      if Ascii.eqb c ":"%char then (EmptyString, s')
      else let '(a, b) := split_colon s' in (String c a, b)
  end.

Fixpoint drop_star (s : string) : option string :=
  match s with
  | EmptyString => None
  | String c EmptyString => if Ascii.eqb c "*"%char then Some EmptyString else None
  | String c s' => match drop_star s' with Some p => Some (String c p) | None => None end
  end.

Definition parse_refspec (s : string) : Refspec :=
  let '(force, body) :=
    match s with
    | String "+"%char r => (true, r)
    | _ => (false, s)
    end in
  let '(src, dst) := split_colon body in
  match drop_star src, drop_star dst with
  | Some p, Some q => {| rs_force := force; rs_glob := true; rs_src := p; rs_dst := q |}
  | _, _ => {| rs_force := force; rs_glob := false; rs_src := src; rs_dst := dst |}
  end.

(** The local name a refspec gives to an advertised reference. *)
Definition refspec_dst (rs : Refspec) (name : string) : option string :=
  if rs_glob rs then
    if Py.startswith name (rs_src rs)
    then Some (rs_dst rs +:+ Py.slice_from (String.length (rs_src rs)) name)
    else None
  else if String.eqb name (rs_src rs) then Some (rs_dst rs) else None.

Definition apply_refspec (advertised : list (string * Oid)) (m : gmap string Oid) (rs : Refspec)
  : gmap string Oid :=
  fold_left (fun m '(name, oid) =>
               match refspec_dst rs name with
               | Some dst => <[dst := oid]> m
               | None => m
               end) advertised m.

(** The tags written by tag following: only names under [refs/tags/]. *)
Definition follow_tags (followed : list (string * Oid)) (m : gmap string Oid) : gmap string Oid :=
  fold_left (fun m '(name, oid) =>
               if Py.startswith name "refs/tags/" then <[name := oid]> m else m) followed m.

(** [remote.fetch(refspecs)]: the objects received enter the database,
    every refspec updates its destination references, and the tags
    followed are written. *)
Definition remote_fetch (remote : Remote) (refspecs : list string) : M unit :=
  outcome ← ask (fun w => fetch_outcome O w remote refspecs);
  called (CallFetch (remote_name remote) refspecs);;
  match outcome with
  | inl e => raise e
  | inr result =>
      update_repo (fun r =>
        with_refs
          (follow_tags (followed_tags result)
             (fold_left (apply_refspec (advertised result)) (parse_refspec <$> refspecs) (refs r)))
          (with_tag_objects
             (fold_left (fun m '(oid, target) => <[oid := target]> m) (received_tags result)
                (tag_objects r))
             (with_odb (fold_left (fun m '(oid, c) => <[oid := c]> m) (received result) (odb r))
                r)))
  end.

(** [pygit2.option(opt, value)] and [pygit2.Repository(path)]: the world
    holds the repository found at [path]. *)
Definition pygit2_option (opt value : Z) : M unit := called (CallOption opt value).
Definition Repository (path : string) : M unit := called (CallOpen path).

(** [datetime.today().strftime("%Y-%m-%d_%H_%M_%S")] *)
Definition pad (width n : nat) : string :=
  let s := pretty n in
  String.concat "" (replicate (width - String.length s) "0") +:+ s.

Definition strftime_stamp (d : DateTime) : string :=
  pad 4 (year d) +:+ "-" +:+ pad 2 (month d) +:+ "-" +:+ pad 2 (day d) +:+ "_" +:+
  pad 2 (hour d) +:+ "_" +:+ pad 2 (minute d) +:+ "_" +:+ pad 2 (second d).

Definition today_stamp : M string := ask (fun w => strftime_stamp (today O w)).

End Backend.

End Git.

(** ** The script *)

Import Git.

Section Script.

Variable O : Oracle.
Variable int_max_str_digits : nat.
Variable unicode : Py.Unicode.

(** Truth value of an integer in a condition. *)
Definition truthy (z : Z) : bool := negb (z =? 0).

(** [next((x for x in conflict if x is not None), None)] *)
Definition first_present (conflict : Conflict) : option IndexEntry :=
  let '(ancestor, ours, theirs) := conflict in
  match ancestor with
  | Some x => Some x
  | None => match ours with
            | Some x => Some x
            | None => theirs
            end
  end.

Definition conflict_line (conflict : Conflict) : string :=
  let entry := first_present conflict in
  "Conflict in: " +:+ match entry with Some e => path e | None => "unknown" end.

(** [pull(repo, remote_name="origin", branch="master")], lines 21-56. *)
Definition pull (remote_name branch : string) : M unit :=
  remote_ref ← lookup_reference ("refs/remotes/" +:+ remote_name +:+ "/" +:+ branch);
  remote_id ← reference_target remote_ref;
  merge_result ← merge_analysis O remote_id;
  if truthy (Z.land merge_result GIT_MERGE_ANALYSIS_UP_TO_DATE) then
    print "Already up to date."
  else if truthy (Z.land merge_result GIT_MERGE_ANALYSIS_FASTFORWARD) then
    commit ← repo_get remote_id;
    checkout_tree O commit;;
    try_except
      (local_ref ← lookup_reference ("refs/heads/" +:+ branch);
       set_target local_ref remote_id)
      (fun e => if is_KeyError e
                then Some (commit ← repo_get remote_id;
                           create_branch branch commit;; mret tt)
                else None);;
    head ← repo_head;
    set_target head remote_id
  else if truthy (Z.land merge_result GIT_MERGE_ANALYSIS_NORMAL) then
    merge O remote_id;;
    conflicts ← index_get_conflicts;
    match conflicts with
    | Some conflicts =>
        for_each conflicts (fun conflict => print (conflict_line conflict));;
        raise (RuntimeError "Merge conflicts detected. Aborting.")
    | None =>
        user ← default_signature;
        tree ← index_write_tree;
        head ← repo_head;
        head_target ← reference_target head;
        create_commit_HEAD O user user "Merge!" tree [head_target; remote_id];;
        state_cleanup
    end
  else raise (RuntimeError "Unknown merge analysis result").

(** [find_latest_stable_tag(repo)], lines 59-70. *)
Definition find_latest_stable_tag (repo : Repo) : option string :=
  let versions := collect_versions int_max_str_digits unicode (references repo) in
  latest_of versions.

(** Lines 85-87: emit the pre-update HEAD. *)
Definition emit_pre_update_head : M unit :=
  head ← repo_head;
  pre_head ← reference_target head;
  print ("[PRE_UPDATE_HEAD] " +:+ pre_head).

(** Lines 89-103: stash local changes. *)
Definition stash_changes (ident : Signature) : M unit :=
  print "Stashing current changes…";;
  try_except (stash O ident;; mret tt)
    (fun e =>
       if is_KeyError e then Some (print "Nothing to stash.")
       else if is_Exception e then
         Some (print "Could not stash, cleaning index and trying again.";;
               state_cleanup;;
               head ← repo_head;
               '(_, commit) ← peel head;
               index_read_tree (commit_tree commit);;
               index_write;;
               try_except (stash O ident;; mret tt)
                 (fun e => if is_KeyError e then Some (print "Nothing to stash.") else None))
       else None).

(** Lines 105-112: create the backup branch. *)
Definition create_backup_branch : M unit :=
  stamp ← today_stamp O;
  let backup_name := "backup_branch_" +:+ stamp in
  print ("Creating backup branch: " +:+ backup_name);;
  try_except
    (head ← repo_head;
     commit ← peel head;
     create_branch backup_name (Some commit);;
     print ("[BACKUP_BRANCH] " +:+ backup_name))
    (fun e => if is_Exception e
              then Some (print "Warning: could not create backup branch.")
              else None).

(** Lines 116-122: the loop over [repo.remotes], left at the first remote
    named origin. *)
Fixpoint fetch_loop (stable : bool) (rs : list Remote) : M unit :=
  match rs with
  | [] => mret tt
  | remote :: rs' =>
      if String.eqb (remote_name remote) "origin" then
        let refspecs := ["+refs/heads/master:refs/remotes/origin/master"] in
        let refspecs := if stable then (refspecs ++ ["+refs/tags/*:refs/tags/*"])%list else refspecs in
        remote_fetch O remote refspecs
      else fetch_loop stable rs'
  end.

(** Lines 114-122: fetch master from origin. *)
Definition fetch_from_origin (stable : bool) : M unit :=
  print "Fetching from origin…";;
  r ← get_repo;
  fetch_loop stable (remotes r).

(** Lines 124-131: check out master, creating the local branch if
    needed. *)
Definition checkout_master : M unit :=
  print "Checking out master branch…";;
  branch ← lookup_branch "master";
  match branch with
  | None =>
      ref ← lookup_reference "refs/remotes/origin/master";
      target ← reference_target ref;
      commit ← repo_get target;
      create_branch "master" commit;; mret tt
  | Some _ => mret tt
  end;;
  ref ← lookup_reference "refs/heads/master";
  checkout O (reference_name ref).

(** Lines 137-146: check out the stable tag if requested. *)
Definition checkout_stable_tag (stable : bool) : M unit :=
  if stable then
    r ← get_repo;
    match find_latest_stable_tag r with
    | Some tag =>
        print ("Checking out stable tag: " +:+ tag);;
        checkout O tag;;
        let tag_name := Py.remove_all "refs/tags/" tag in
        print ("[CHECKED_OUT_TAG] " +:+ tag_name)
    | None => print "No stable tags found, staying on master."
    end
  else mret tt.

(** Lines 148-150: emit the post-update HEAD. *)
Definition emit_post_update_head : M unit :=
  head ← repo_head;
  post_head ← reference_target head;
  print ("[POST_UPDATE_HEAD] " +:+ post_head).

(** What follows the backup branch in [main], lines 114-152. *)
Definition update_steps (stable : bool) : M unit :=
  fetch_from_origin stable;;
  checkout_master;;
  print "Pulling latest changes…";;
  pull "origin" "master";;
  checkout_stable_tag stable;;
  emit_post_update_head;;
  print "Done!".

(** [main()], lines 73-152, on [sys.argv]. *)
Definition main (argv : list string) : M unit :=
  if (length argv <? 2)%nat then
    print "Usage: python update_comfyui.py <repo_path> [--stable]";;
    raise (SystemExit 1)
  else
    let repo_path := Py.rstrip "/\" (nth 1 argv "") in
    let stable := existsb (String.eqb "--stable") argv in
    pygit2_option GIT_OPT_SET_OWNER_VALIDATION 0;;
    Repository repo_path;;
    let ident := {| sig_name := "comfyui"; sig_email := "comfy@ui" |} in
    emit_pre_update_head;;
    stash_changes ident;;
    create_backup_branch;;
    update_steps stable.

End Script.

(** ** Auxiliary definitions for the statements *)

(** What the loop body of [find_latest_stable_tag] appends for one
    reference name. *)
Definition parse_tag (maxd : nat) (unicode : Py.Unicode) (ref_name : string) : option (list Z * string) :=
  if Py.startswith ref_name tag_prefix then
    match mapM (Py.int maxd unicode) (Py.split "."%char (Py.slice_from (String.length tag_prefix) ref_name)) with
    | Some parts => Some (parts, ref_name)
    | None => None
    end
  else None.

(** The order on the integer tuples alone. *)
Definition parts_le (x y : list Z * string) : Prop := Py.tuple_compare x.1 y.1 <> Gt.

(** The tag filter in the words of the specification: after the prefix,
    a dotted sequence of non-negative integers.  It is compared with the
    filter of the code, which is [parse_tag]. *)
Definition spec_parse_tag (maxd : nat) (unicode : Py.Unicode) (ref_name : string) : option (list Z * string) :=
  if Py.startswith ref_name tag_prefix then
    match mapM (fun component =>
                  match Py.int maxd unicode component with
                  | Some z => if 0 <=? z then Some z else None
                  | None => None
                  end)
               (Py.split "."%char (Py.slice_from (String.length tag_prefix) ref_name)) with
    | Some parts => Some (parts, ref_name)
    | None => None
    end
  else None.

Definition spec_select_latest (maxd : nat) (unicode : Py.Unicode) (names : list string) : option string :=
  latest_of (omap (spec_parse_tag maxd unicode) names).

(** The name the backup branch gets in world [w]. *)
Definition backup_name (O : Oracle) (w : World) : string :=
  "backup_branch_" +:+ strftime_stamp (today O w).

(** The world in which the first stash attempt is made, and the world in
    which the second one is: merge state cleared, index reset to the tree
    of HEAD's commit and written. *)
Definition stash_world (w : World) : World :=
  {| repo := repo w; stdout := (stdout w ++ ["Stashing current changes…"])%list; calls := calls w |}.

Definition retry_world (ident : Signature) (tree : Oid) (w : World) : World :=
  {| repo := with_index_file (clean_index tree)
               (with_index (clean_index tree) (with_state STATE_NONE (repo w)));
     stdout := (stdout w ++ ["Stashing current changes…";
                             "Could not stash, cleaning index and trying again."])%list;
     calls := (calls w ++ [CallStash ident; CallStateCleanup; CallIndexReadTree tree;
                           CallIndexWrite])%list |}.

Definition is_stash_call (c : Call) : bool :=
  match c with CallStash _ => true | _ => false end.

Definition count_stash (l : list Call) : nat := length (List.filter is_stash_call l).

(** [m] leaves the observation [obs] of the world as it was, whether it
    returns or raises. *)
Definition preserves {X A : Type} (obs : World -> X) (m : M A) : Prop :=
  forall w, obs (m w).2 = obs w.

(** Where the branch [branch] points. *)
Definition branch_target (branch : string) (w : World) : option Oid :=
  refs (repo w) !! branch_ref branch.

(** The rank of a marker line in the order of the output contract. *)
Definition marker_rank (line : string) : option nat :=
  if Py.startswith line "[PRE_UPDATE_HEAD] " then Some 0%nat
  else if Py.startswith line "[BACKUP_BRANCH] " then Some 1%nat
  else if Py.startswith line "[CHECKED_OUT_TAG] " then Some 2%nat
  else if Py.startswith line "[POST_UPDATE_HEAD] " then Some 3%nat
  else None.

Definition marker_names : list string :=
  ["PRE_UPDATE_HEAD"; "BACKUP_BRANCH"; "CHECKED_OUT_TAG"; "POST_UPDATE_HEAD"].

(** A line that opens with a bracket is one of the four markers. *)
Definition line_ok (line : string) : bool :=
  negb (Py.startswith line "[") || bool_decide (is_Some (marker_rank line)).

(** The ranks of the marker lines of an output, in order of appearance. *)
Definition ranks (out : list string) : list nat := omap marker_rank out.

Definition ordered_within (lo hi : nat) (out : list string) : Prop :=
  Forall (fun line => line_ok line = true) out /\
  StronglySorted lt (ranks out) /\
  Forall (fun r => (lo <= r < hi)%nat) (ranks out).

(** [m] prints well-formed lines whose markers are in order, with ranks
    from [lo] up to but not including [hi]. *)
Definition emits {A} (lo hi : nat) (m : M A) : Prop :=
  (lo <= hi)%nat /\
  forall w, exists new, stdout (m w).2 = (stdout w ++ new)%list /\ ordered_within lo hi new.

(** ** Sample repositories and environments *)

Definition sample_user : Signature := {| sig_name := "dev"; sig_email := "dev@example.org" |}.

Definition sample_commit_A : Commit :=
  {| commit_tree := "tree-a"; commit_parents := []; commit_message := "first";
     commit_author := sample_user; commit_committer := sample_user |}.

Definition sample_commit_B : Commit :=
  {| commit_tree := "tree-b"; commit_parents := ["a1"]; commit_message := "second";
     commit_author := sample_user; commit_committer := sample_user |}.

(** Local master at commit a1, origin/master at b2. *)
Definition sample_repo : Repo :=
  {| HEAD := OnBranch "master";
     refs := <["refs/heads/master" := "a1"]> (<["refs/remotes/origin/master" := "b2"]> ∅);
     odb := <["a1" := sample_commit_A]> (<["b2" := sample_commit_B]> ∅);
     index := clean_index "tree-a"; index_file := clean_index "tree-a"; workdir := "tree-a";
     state := STATE_NONE;
     remotes := [ {| remote_name := "origin"; remote_url := "https://example.org/ComfyUI.git" |} ];
     config_user := Some sample_user;
     tag_objects := ∅ |}.

Definition sample_world : World := {| repo := sample_repo; stdout := []; calls := [] |}.

(** The same repository without user.name and user.email. *)
Definition sample_world_no_identity : World :=
  {| repo := {| HEAD := HEAD sample_repo; refs := refs sample_repo; odb := odb sample_repo;
                index := index sample_repo; index_file := index_file sample_repo;
                workdir := workdir sample_repo; state := state sample_repo;
                remotes := remotes sample_repo; config_user := None;
                tag_objects := tag_objects sample_repo |};
     stdout := []; calls := [] |}.

(** The same repository with a single remote that is not origin. *)
Definition sample_world_no_origin : World :=
  {| repo := {| HEAD := HEAD sample_repo; refs := refs sample_repo; odb := odb sample_repo;
                index := index sample_repo; index_file := index_file sample_repo;
                workdir := workdir sample_repo; state := state sample_repo;
                remotes := [ {| remote_name := "upstream"; remote_url := "https://example.org/fork.git" |} ];
                config_user := config_user sample_repo;
                tag_objects := tag_objects sample_repo |};
     stdout := []; calls := [] |}.

Definition sample_conflicts : list Conflict :=
  [ (Some {| path := "nodes.py"; entry_id := "e0" |},
     Some {| path := "nodes.py"; entry_id := "e1" |},
     Some {| path := "nodes.py"; entry_id := "e2" |});
    (None, Some {| path := "server.py"; entry_id := "e3" |}, None);
    (Some {| path := "old_name.py"; entry_id := "e4" |},
     Some {| path := "new_name.py"; entry_id := "e5" |},
     None);
    (None, None, Some {| path := "web/index.html"; entry_id := "e6" |}) ].

(** An environment: the first stash attempt fails with a backend error and
    a later one finds nothing to stash; the remote advertises master and
    two tags, which the fetch follows; no checkout is stopped; the merge
    analysis and the merged index are given. *)
Definition sample_oracle (analysis : Z) (merged : Index) : Oracle :=
  {| stash_outcome := fun w _ =>
       if existsb is_stash_call (calls w) then inl KeyError else inl GitError;
     fetch_outcome := fun _ _ _ =>
       inr {| advertised := [("refs/heads/master", "b2"); ("refs/tags/v1.2.3", "a1");
                             ("refs/tags/v1.10.0", "b2")];
              received := [("b2", sample_commit_B)];
              received_tags := [];
              followed_tags := [("refs/tags/v1.2.3", "a1"); ("refs/tags/v1.10.0", "b2")] |};
     checkout_conflict := fun _ _ => false;
     merge_analysis_result := fun _ _ => analysis;
     merge_outcome := fun _ _ => (merged, index_tree merged);
     commit_id := fun _ _ => "c3";
     today := fun _ => {| year := 2026; month := 3; day := 7; hour := 9; minute := 5; second := 0 |} |}.

Definition sample_argv : list string := ["update_comfyui.py"; "/srv/ComfyUI/"; "--stable"].

(** A repository whose only version-like tag has a negative component,
    and one with the two tags of the specification's example. *)
Definition sample_repo_negative_tag : Repo :=
  with_refs (<["refs/tags/v-1" := "a1"]> (<["refs/heads/master" := "a1"]> ∅)) sample_repo.

Definition sample_repo_two_tags : Repo :=
  with_refs (<["refs/tags/v1.2.3" := "a1"]>
               (<["refs/tags/v1.10.0" := "b2"]> (<["refs/heads/master" := "b2"]> ∅)))
            sample_repo.

(** A repository with a tag written in Arabic-Indic digits beside v2. *)
Definition sample_repo_unicode_tags : Repo :=
  with_refs (<["refs/tags/v٣" := "b2"]>
               (<["refs/tags/v2" := "a1"]> (<["refs/heads/master" := "b2"]> ∅)))
            sample_repo.

Definition sample_merged_clean : Index := clean_index "tree-m".

Definition sample_merged_conflicted : Index :=
  {| index_tree := "tree-m"; index_conflicts := sample_conflicts |}.

(** What a run of [main] on [sample_world] prints when origin/master is a
    fast-forward. *)
Definition sample_output : list string :=
  [ "[PRE_UPDATE_HEAD] a1";
    "Stashing current changes…";
    "Could not stash, cleaning index and trying again.";
    "Nothing to stash.";
    "Creating backup branch: backup_branch_2026-03-07_09_05_00";
    "[BACKUP_BRANCH] backup_branch_2026-03-07_09_05_00";
    "Fetching from origin…";
    "Checking out master branch…";
    "Pulling latest changes…";
    "Checking out stable tag: refs/tags/v1.10.0";
    "[CHECKED_OUT_TAG] v1.10.0";
    "[POST_UPDATE_HEAD] b2";
    "Done!" ].

Definition oracle_up_to_date : Oracle := sample_oracle 2 sample_merged_clean.
Definition oracle_fast_forward : Oracle := sample_oracle 5 sample_merged_clean.
Definition oracle_conflict : Oracle := sample_oracle 1 sample_merged_conflicted.
Definition oracle_merge : Oracle := sample_oracle 1 sample_merged_clean.

(** The fast-forward environment with a file of the working directory in
    the way of every checkout. *)
Definition oracle_checkout_stopped : Oracle :=
  {| stash_outcome := stash_outcome oracle_fast_forward;
     fetch_outcome := fetch_outcome oracle_fast_forward;
     checkout_conflict := fun _ _ => true;
     merge_analysis_result := merge_analysis_result oracle_fast_forward;
     merge_outcome := merge_outcome oracle_fast_forward;
     commit_id := commit_id oracle_fast_forward;
     today := today oracle_fast_forward |}.

(** The identity [main] stashes with. *)
Definition updater_ident : Signature := {| sig_name := "comfyui"; sig_email := "comfy@ui" |}.

(** ** Auxiliary definitions for the further properties *)

(** Every character of [s] satisfies [p]. *)
Fixpoint all_chars (p : ascii -> bool) (s : string) : bool :=
  match s with
  | EmptyString => true
  | String c s' => p c && all_chars p s'
  end.

(** The ASCII characters a text accepted by [int()] is made of. *)
Definition int_char (c : ascii) : bool :=
  Py.is_space c || bool_decide (is_Some (Py.digit_of c))
  || Ascii.eqb c "_"%char || Ascii.eqb c "+"%char || Ascii.eqb c "-"%char.

(** A byte of the encoding of a character from 127 on. *)
Definition high_byte (c : ascii) : bool := (127 <=? N_of_ascii c)%N.

(** The bytes of a version suffix: those of its components, which are
    the ASCII characters above and the encodings of the digits and
    blanks of other scripts, and the dots between them. *)
Definition component_char (c : ascii) : bool := int_char c || high_byte c.

Definition version_char (c : ascii) : bool := component_char c || Ascii.eqb c "."%char.

(** The refspecs [main] fetches with. *)
Definition fetch_refspecs (stable : bool) : list string :=
  if stable
  then ["+refs/heads/master:refs/remotes/origin/master"; "+refs/tags/*:refs/tags/*"]
  else ["+refs/heads/master:refs/remotes/origin/master"].

(** The first remote named origin, as the loop of [main] finds it. *)
Definition find_origin (rs : list Remote) : option Remote :=
  List.find (fun remote => String.eqb (remote_name remote) "origin") rs.

Definition is_fetch_call (c : Call) : bool :=
  match c with CallFetch _ _ => true | _ => false end.

(** The fetch calls among the backend calls made so far. *)
Definition fetch_calls (w : World) : list Call := List.filter is_fetch_call (calls w).

(** The lines of the output equal to [line]. *)
Definition lines_equal (line : string) (w : World) : list string :=
  List.filter (String.eqb line) (stdout w).

(** The [CHECKED_OUT_TAG] lines of the output. *)
Definition tag_marker_lines (w : World) : list string :=
  List.filter (fun line => Py.startswith line "[CHECKED_OUT_TAG] ") (stdout w).

(** [m] leaves the observation [obs] as it was whenever it raises. *)
Definition preserves_on_raise {X A : Type} (obs : World -> X) (m : M A) : Prop :=
  forall w e, (m w).1 = Raise e -> obs (m w).2 = obs w.

(** [m] adds nothing to the list [obs], or the one element [x]. *)
Definition may_add {X A : Type} (obs : World -> list X) (x : X) (m : M A) : Prop :=
  forall w, obs (m w).2 = obs w \/ obs (m w).2 = (obs w ++ [x])%list.

(** The world in which the fetch is attempted, and the one a failed
    fetch leaves. *)
Definition fetching_world (w : World) : World :=
  {| repo := repo w; stdout := (stdout w ++ ["Fetching from origin…"])%list; calls := calls w |}.

Definition fetch_failed_world (stable : bool) (w : World) : World :=
  {| repo := repo w; stdout := (stdout w ++ ["Fetching from origin…"])%list;
     calls := (calls w ++ [CallFetch "origin" (fetch_refspecs stable)])%list |}.

(** The worlds in which the checkout of master is attempted: after the
    progress line, and after the branch has been created at [oid]. *)
Definition master_wanted (w : World) : World :=
  {| repo := repo w; stdout := (stdout w ++ ["Checking out master branch…"])%list;
     calls := calls w |}.

Definition master_created (oid : Oid) (w : World) : World :=
  {| repo := with_refs (<["refs/heads/master" := oid]> (refs (repo w))) (repo w);
     stdout := (stdout w ++ ["Checking out master branch…"])%list;
     calls := (calls w ++ [CallCreateBranch "master" oid])%list |}.

(** The world in which the checkout of the tag [tag] is attempted. *)
Definition tag_wanted (tag : string) (w : World) : World :=
  {| repo := repo w; stdout := (stdout w ++ ["Checking out stable tag: " +:+ tag])%list;
     calls := calls w |}.

(** The [--stable] flag of a command line. *)
Definition stable_flag (argv : list string) : bool := existsb (String.eqb "--stable") argv.

(** Every backend call other than a fetch leaves [obs] alone. *)
Definition backend_preserves {X : Type} (O : Oracle) (obs : World -> X) : Prop :=
  (forall name, preserves obs (lookup_reference name)) /\
  (forall name, preserves obs (lookup_branch name)) /\
  preserves obs repo_head /\
  (forall ref, preserves obs (reference_target ref)) /\
  (forall ref oid, preserves obs (set_target ref oid)) /\
  (forall oid, preserves obs (repo_get oid)) /\
  (forall ref, preserves obs (peel ref)) /\
  (forall name c, preserves obs (create_branch name c)) /\
  (forall c, preserves obs (checkout_tree O c)) /\
  (forall name, preserves obs (checkout O name)) /\
  preserves obs state_cleanup /\
  (forall t, preserves obs (index_read_tree t)) /\
  preserves obs index_write /\
  preserves obs index_get_conflicts /\
  preserves obs index_write_tree /\
  preserves obs default_signature /\
  (forall oid, preserves obs (merge_analysis O oid)) /\
  (forall oid, preserves obs (merge O oid)) /\
  (forall a c msg t ps, preserves obs (create_commit_HEAD O a c msg t ps)) /\
  (forall ident, preserves obs (stash O ident)) /\
  preserves obs (today_stamp O) /\
  (forall opt v, preserves obs (pygit2_option opt v)) /\
  (forall path, preserves obs (Repository path)).

(** The two calls that set the run up. *)
Definition is_setup_call (c : Call) : bool :=
  match c with CallOption _ _ | CallOpen _ => true | _ => false end.

(** [m] only appends to the backend calls, and appends no set-up call. *)
Definition works {A : Type} (m : M A) : Prop :=
  forall w, exists new,
    calls (m w).2 = (calls w ++ new)%list /\ Forall (fun c => is_setup_call c = false) new.

(** Where the reference [name] points. *)
Definition reference_at (name : string) (w : World) : option Oid := refs (repo w) !! name.

(** The characters [main] strips from the end of the path. *)
Definition is_separator (c : ascii) : bool := Py.mem_char c "/\".

(** ** Further sample data *)

(** Two tags with the same integer tuple. *)
Definition sample_repo_tied_tags : Repo :=
  with_refs (<["refs/tags/v1.0" := "a1"]>
               (<["refs/tags/v01.0" := "b2"]> (<["refs/heads/master" := "b2"]> ∅)))
            sample_repo.

Definition sample_world_tagged : World :=
  {| repo := sample_repo_two_tags; stdout := []; calls := [] |}.

(** A repository whose tag v1.10.0 is annotated: the reference points to
    the tag object t9, which peels to the commit b2. *)
Definition sample_world_annotated : World :=
  {| repo := with_tag_objects (<["t9" := "b2"]> ∅)
               (with_refs (<["refs/tags/v1.10.0" := "t9"]> (refs sample_repo_two_tags))
                          sample_repo_two_tags);
     stdout := []; calls := [] |}.

Definition sample_origin : Remote :=
  {| remote_name := "origin"; remote_url := "https://example.org/ComfyUI.git" |}.

(** An environment in which the remote cannot be reached. *)
Definition oracle_offline : Oracle :=
  {| stash_outcome := stash_outcome oracle_fast_forward;
     fetch_outcome := fun _ _ _ => inl GitError;
     checkout_conflict := checkout_conflict oracle_fast_forward;
     merge_analysis_result := merge_analysis_result oracle_fast_forward;
     merge_outcome := merge_outcome oracle_fast_forward;
     commit_id := commit_id oracle_fast_forward;
     today := today oracle_fast_forward |}.

(** An environment whose remote has the tag v1.10.0 as an annotated
    tag: the reference points to the tag object t9, which peels to b2. *)
Definition oracle_annotated : Oracle :=
  {| stash_outcome := stash_outcome oracle_fast_forward;
     fetch_outcome := fun _ _ _ =>
       inr {| advertised := [("refs/heads/master", "b2"); ("refs/tags/v1.10.0", "t9")];
              received := [("b2", sample_commit_B)];
              received_tags := [("t9", "b2")];
              followed_tags := [("refs/tags/v1.10.0", "t9")] |};
     checkout_conflict := checkout_conflict oracle_fast_forward;
     merge_analysis_result := merge_analysis_result oracle_fast_forward;
     merge_outcome := merge_outcome oracle_fast_forward;
     commit_id := commit_id oracle_fast_forward;
     today := today oracle_fast_forward |}.

(** An environment whose merge analysis reports an unborn HEAD only. *)
Definition oracle_unborn : Oracle := sample_oracle 8 sample_merged_clean.

Definition sample_argv_plain : list string := ["update_comfyui.py"; "/srv/ComfyUI/"].

(** The worlds three sample runs of [main] end in. *)
Definition sample_final : World :=
  (main oracle_fast_forward 4300 Py.unicode_14 sample_argv sample_world).2.

Definition sample_final_plain : World :=
  (main oracle_fast_forward 4300 Py.unicode_14 sample_argv_plain sample_world).2.

Definition sample_final_conflict : World :=
  (main oracle_conflict 4300 Py.unicode_14 sample_argv sample_world).2.

(** * Properties *)

(** ** The latest stable tag: strings, tuples, the scan *)

Lemma startswith_app (s p : string) :
  Py.startswith s p = true <-> exists t, s = p +:+ t.
Proof.
  revert s. induction p as [|c p IH]; intros s; simpl.
  - split; [intros _; exists s; reflexivity | by destruct s].
  - destruct s as [|d s]; simpl.
    + split; [discriminate | intros [t Ht]; discriminate].
    + rewrite andb_true_iff, Ascii.eqb_eq, IH. split.
      * intros [-> [t ->]]. by exists t.
      * intros [t Ht]. injection Ht as -> ->. eauto.
Qed.

Lemma slice_from_app (p t : string) : Py.slice_from (String.length p) (p +:+ t) = t.
Proof. induction p; simpl; auto. Qed.

Lemma tuple_compare_refl (a : list Z) : Py.tuple_compare a a = Eq.
Proof. induction a as [|x a IH]; simpl; [done|]. by rewrite Z.compare_refl. Qed.

Lemma tuple_compare_antisym (a b : list Z) :
  Py.tuple_compare a b = CompOpp (Py.tuple_compare b a).
Proof.
  revert b. induction a as [|x a IH]; intros [|y b]; simpl; try done.
  rewrite (Z.compare_antisym y x). destruct (y ?= x); simpl; auto.
Qed.

Lemma tuple_compare_trans (a b c : list Z) :
  Py.tuple_compare a b <> Gt -> Py.tuple_compare b c <> Gt -> Py.tuple_compare a c <> Gt.
Proof.
  revert b c. induction a as [|x a IH]; intros [|y b] [|z c]; simpl; try congruence.
  destruct (Z.compare_spec x y), (Z.compare_spec y z), (Z.compare_spec x z);
    try congruence; try lia; subst; eauto.
Qed.

Lemma pair_le_parts_le x y : Py.pair_le x y -> parts_le x y.
Proof.
  unfold Py.pair_le, Py.pair_compare, parts_le.
  destruct (Py.tuple_compare x.1 y.1); congruence.
Qed.

#[local] Instance pair_le_total : Total Py.pair_le.
Proof.
  intros x y. unfold Py.pair_le, Py.pair_compare.
  rewrite (tuple_compare_antisym y.1 x.1), (String.compare_antisym x.2 y.2).
  destruct (Py.tuple_compare x.1 y.1); simpl; try (left; congruence); try (right; congruence).
  destruct (String.compare y.2 x.2); simpl; try (left; congruence); right; congruence.
Qed.

Lemma Sorted_parts_le (l : list (list Z * string)) :
  Sorted Py.pair_le l -> StronglySorted parts_le l.
Proof.
  intros H. apply Sorted_StronglySorted.
  - intros x y z. unfold parts_le. apply tuple_compare_trans.
  - induction H as [|x l Hl IH Hx]; constructor; auto.
    destruct Hx; constructor. by apply pair_le_parts_le.
Qed.

Lemma StronglySorted_last_max (l : list (list Z * string)) x :
  StronglySorted parts_le l -> last l = Some x -> forall y, y ∈ l -> parts_le y x.
Proof.
  induction 1 as [|a l Hl IH Ha]; intros Hlast y Hy; [by inversion Hy|].
  destruct l as [|b l'].
  - simpl in Hlast. injection Hlast as <-. apply list_elem_of_singleton in Hy as ->.
    unfold parts_le. rewrite tuple_compare_refl. congruence.
  - change (last (a :: b :: l')) with (last (b :: l')) in Hlast.
    apply elem_of_cons in Hy as [->|Hy]; [|by apply IH].
    rewrite Forall_forall in Ha. apply Ha. by eapply last_Some_elem_of.
Qed.

(** *** The version scan *)

Lemma fold_scan_reference maxd unicode (l : list string) acc :
  fold_left (scan_reference maxd unicode) l acc = (acc ++ omap (parse_tag maxd unicode) l)%list.
Proof.
  revert acc. induction l as [|n l IH]; intros acc; simpl; [by rewrite app_nil_r|].
  rewrite IH. unfold scan_reference, parse_tag.
  destruct (Py.startswith n tag_prefix); [|done].
  destruct (mapM _ _); [|done]. by rewrite <- app_assoc.
Qed.

Lemma collect_versions_omap maxd unicode l : collect_versions maxd unicode l = omap (parse_tag maxd unicode) l.
Proof. unfold collect_versions. by rewrite fold_scan_reference. Qed.

Lemma elem_of_references (r : Repo) (name : string) :
  name ∈ references r <-> is_Some (refs r !! name).
Proof.
  unfold references. rewrite list_elem_of_fmap. split.
  - intros [[k v] [-> Hkv]]. apply elem_of_map_to_list in Hkv. eauto.
  - intros [v Hv]. exists (name, v). split; [done|]. by apply elem_of_map_to_list.
Qed.

Lemma elem_of_collect_versions maxd unicode (l : list string) parts name :
  (parts, name) ∈ collect_versions maxd unicode l <->
  name ∈ l /\ exists suffix, name = tag_prefix +:+ suffix /\
                 mapM (Py.int maxd unicode) (Py.split "."%char suffix) = Some parts.
Proof.
  rewrite collect_versions_omap, list_elem_of_omap. unfold parse_tag. split.
  - intros [n [Hn Hp]].
    destruct (Py.startswith n tag_prefix) eqn:Hs; [|done].
    apply startswith_app in Hs as [t ->]. rewrite slice_from_app in Hp.
    destruct (mapM _ _) eqn:Hm; [|done]. injection Hp as <- <-. eauto.
  - intros [Hn [t [-> Hm]]]. exists (tag_prefix +:+ t). split; [done|].
    rewrite (proj2 (startswith_app _ _)) by eauto.
    by rewrite slice_from_app, Hm.
Qed.

Lemma latest_of_None versions : latest_of versions = None <-> versions = [].
Proof.
  unfold latest_of, Py.sort. split.
  - destruct (last (merge_sort Py.pair_le versions)) eqn:Hl; [done|]. intros _.
    apply last_None in Hl. apply Permutation_nil_r. rewrite <- Hl.
    symmetry. apply merge_sort_Permutation.
  - intros ->. reflexivity.
Qed.

Lemma latest_of_Some versions tag :
  latest_of versions = Some tag ->
  exists parts, (parts, tag) ∈ versions /\
    forall parts' name', (parts', name') ∈ versions -> Py.tuple_compare parts' parts <> Gt.
Proof.
  unfold latest_of, Py.sort.
  destruct (last (merge_sort Py.pair_le versions)) as [[parts t]|] eqn:Hl; [|done].
  intros [= <-]. exists parts. split.
  - rewrite <- (merge_sort_Permutation Py.pair_le versions). by eapply last_Some_elem_of.
  - intros parts' name' Hin.
    apply (StronglySorted_last_max _ _ (Sorted_parts_le _ (Sorted_merge_sort Py.pair_le versions)) Hl (parts', name')).
    by rewrite (merge_sort_Permutation Py.pair_le versions).
Qed.

Lemma int_small_examples maxd unicode :
  mapM (Py.int maxd unicode) (Py.split "."%char "1.2.3") = Some [1; 2; 3] /\
  mapM (Py.int maxd unicode) (Py.split "."%char "1.10.0") = Some [1; 10; 0].
Proof. split; reflexivity. Qed.

(** C3 (amended): [find_latest_stable_tag] keeps exactly the references
    named [refs/tags/v<suffix>] whose dotted suffix components are all
    accepted by Python's [int()] (a negative component is accepted
    too), returns a kept tag whose integer tuple is maximal in the
    component-wise order, returns [None] exactly when nothing is kept,
    and picks v1.10.0 among v1.2.3 and v1.10.0. *)
Theorem find_latest_stable_tag_maximal (maxd : nat) (unicode : Py.Unicode) (repo : Repo) :
  let versions := collect_versions maxd unicode (references repo) in
  (forall parts name,
      (parts, name) ∈ versions <->
      is_Some (refs repo !! name) /\
      exists suffix, name = "refs/tags/v" +:+ suffix /\
                     mapM (Py.int maxd unicode) (Py.split "."%char suffix) = Some parts) /\
  (find_latest_stable_tag maxd unicode repo = None <-> versions = []) /\
  (forall tag, find_latest_stable_tag maxd unicode repo = Some tag ->
     exists parts, (parts, tag) ∈ versions /\
       forall parts' name', (parts', name') ∈ versions -> Py.tuple_compare parts' parts <> Gt) /\
  (filter (fun name => Py.startswith name tag_prefix = true) (references repo)
     ≡ₚ ["refs/tags/v1.2.3"; "refs/tags/v1.10.0"] ->
   find_latest_stable_tag maxd unicode repo = Some "refs/tags/v1.10.0").
Proof.
  intros versions.
  assert (Hmem : forall parts name,
      (parts, name) ∈ versions <->
      is_Some (refs repo !! name) /\
      exists suffix, name = "refs/tags/v" +:+ suffix /\
                     mapM (Py.int maxd unicode) (Py.split "."%char suffix) = Some parts).
  { intros parts name. subst versions.
    rewrite elem_of_collect_versions, elem_of_references. reflexivity. }
  assert (Hnone : find_latest_stable_tag maxd unicode repo = None <-> versions = [])
    by apply latest_of_None.
  assert (Hsome : forall tag, find_latest_stable_tag maxd unicode repo = Some tag ->
     exists parts, (parts, tag) ∈ versions /\
       forall parts' name', (parts', name') ∈ versions -> Py.tuple_compare parts' parts <> Gt)
    by apply latest_of_Some.
  split; [exact Hmem|]. split; [exact Hnone|]. split; [exact Hsome|].
  intros Htags.
  assert (Hin : forall name, Py.startswith name tag_prefix = true /\ name ∈ references repo <->
                             name = "refs/tags/v1.2.3" \/ name = "refs/tags/v1.10.0").
  { intros name. split.
    - intros Hn. apply (list_elem_of_filter (fun name => Py.startswith name tag_prefix = true)) in Hn.
      rewrite Htags, !elem_of_cons, elem_of_nil in Hn. tauto.
    - intros Hn. apply (list_elem_of_filter (fun name => Py.startswith name tag_prefix = true)).
      rewrite Htags, !elem_of_cons, elem_of_nil. tauto. }
  destruct (int_small_examples maxd unicode) as [H123 H1100].
  assert (H1 : ([1; 2; 3], "refs/tags/v1.2.3") ∈ versions).
  { apply Hmem. split; [apply elem_of_references, Hin; by left|]. by exists "1.2.3". }
  assert (H2 : ([1; 10; 0], "refs/tags/v1.10.0") ∈ versions).
  { apply Hmem. split; [apply elem_of_references, Hin; by right|]. by exists "1.10.0". }
  destruct (find_latest_stable_tag maxd unicode repo) as [tag|] eqn:Hfind.
  2:{ rewrite (proj1 Hnone eq_refl) in H1. by apply elem_of_nil in H1. }
  destruct (Hsome tag eq_refl) as (parts & Htag & Hmax).
  apply Hmem in Htag as [Hsome_tag (suffix & Hname & Hparts)].
  assert (Hcase : tag = "refs/tags/v1.2.3" \/ tag = "refs/tags/v1.10.0").
  { apply Hin. split; [|by apply elem_of_references].
    apply startswith_app. by exists suffix. }
  destruct Hcase as [->| ->]; [|done].
  exfalso. assert (suffix = "1.2.3") as -> by (cbv [String.append] in Hname; congruence).
  rewrite H123 in Hparts. injection Hparts as <-.
  by apply (Hmax _ _ H2).
Qed.


(** ** Running the script *)

(** Unfolding of the monad and of the backend calls. *)
Ltac run_M :=
  cbv beta iota zeta delta
    [mbind M_bind mret M_ret raise print called get_repo set_repo ask update_repo
     of_option try_except is_KeyError is_Exception
     lookup_reference lookup_branch repo_head reference_target set_target repo_get peel
     create_branch checkout_tree checkout_reference checkout_head checkout
     state_cleanup index_read_tree index_write index_get_conflicts index_write_tree
     default_signature merge_analysis merge create_commit_HEAD stash remote_fetch
     pygit2_option Repository today_stamp reference_name];
  cbn [repo stdout calls HEAD refs odb index index_file workdir state remotes config_user
       with_HEAD with_refs with_odb with_index with_index_file with_workdir with_state
       checked_out fst snd].

(** ** [pull] *)

Lemma truthy_true (z : Z) : z <> 0 -> truthy z = true.
Proof. unfold truthy. by destruct (Z.eqb_spec z 0). Qed.

Lemma truthy_false (z : Z) : z = 0 -> truthy z = false.
Proof. by intros ->. Qed.

Ltac pull_start Href :=
  unfold pull; run_M; repeat (rewrite Href; run_M).

(** C6: when the merge analysis has the up-to-date bit, [pull] returns
    normally, prints "Already up to date." and leaves the whole
    repository (HEAD, every reference, the object database, the index
    and the working directory) as it was; no backend call that changes
    anything is made. *)
Theorem pull_up_to_date (O : Oracle) (remote_name branch : string) (w : World) (remote_id : Oid) :
  refs (repo w) !! ("refs/remotes/" +:+ remote_name +:+ "/" +:+ branch) = Some remote_id ->
  Z.land (merge_analysis_result O w remote_id) GIT_MERGE_ANALYSIS_UP_TO_DATE <> 0 ->
  exists w',
    pull O remote_name branch w = (Ok tt, w') /\
    repo w' = repo w /\
    stdout w' = (stdout w ++ ["Already up to date."])%list /\
    calls w' = calls w.
Proof.
  intros Href Hbit.
  pull_start Href. rewrite (truthy_true _ Hbit). run_M. eauto.
Qed.


Lemma branch_ref_inj (a b : string) : branch_ref a = branch_ref b -> a = b.
Proof. unfold branch_ref. intros H. by simplify_eq. Qed.

(** C4 (amended): when the merge analysis says fast-forward (and not up
    to date) and the checkout of the remote commit's tree is not stopped
    by a file of the working directory, [pull] checks out that tree,
    makes the local branch point to the remote commit (creating the
    branch when it did not exist), leaves HEAD resolving to the remote
    commit, and writes no commit: the object database is unchanged and
    no commit is created among the calls made.  When the checkout is
    stopped, [pull] raises [GitError] from [repo.checkout_tree] and
    neither the branch nor HEAD nor the working directory has moved. *)
Theorem pull_fast_forward (O : Oracle) (remote_name branch : string) (w : World)
    (remote_id local_id : Oid) (c : Commit) :
  refs (repo w) !! ("refs/remotes/" +:+ remote_name +:+ "/" +:+ branch) = Some remote_id ->
  odb (repo w) !! remote_id = Some c ->
  head_oid (repo w) = Some local_id ->
  Z.land (merge_analysis_result O w remote_id) GIT_MERGE_ANALYSIS_UP_TO_DATE = 0 ->
  Z.land (merge_analysis_result O w remote_id) GIT_MERGE_ANALYSIS_FASTFORWARD <> 0 ->
  (checkout_conflict O w (commit_tree c) = false ->
   exists w',
     pull O remote_name branch w = (Ok tt, w') /\
     refs (repo w') !! branch_ref branch = Some remote_id /\
     head_oid (repo w') = Some remote_id /\
     workdir (repo w') = commit_tree c /\
     index (repo w') = clean_index (commit_tree c) /\
     odb (repo w') = odb (repo w) /\
     stdout w' = stdout w /\
     calls w' =
       (calls w ++
        [CallCheckoutTree remote_id;
         match refs (repo w) !! branch_ref branch with
         | Some _ => CallSetTarget (branch_ref branch) remote_id
         | None => CallCreateBranch branch remote_id
         end;
         CallSetTarget (match HEAD (repo w) with
                        | OnBranch b => branch_ref b
                        | Detached _ => "HEAD"
                        end) remote_id])%list) /\
  (checkout_conflict O w (commit_tree c) = true ->
   pull O remote_name branch w =
   (Raise GitError,
    {| repo := repo w; stdout := stdout w;
       calls := (calls w ++ [CallCheckoutTree remote_id])%list |})).
Proof.
  intros Href Hobj Hhead Hup Hff. split; intros Hcheckout.
  - pull_start Href. rewrite (truthy_false _ Hup), (truthy_true _ Hff).
    run_M. rewrite Hobj. run_M. rewrite Hcheckout. run_M.
    change ("refs/heads/" +:+ branch) with (branch_ref branch).
    unfold head_oid in Hhead.
    destruct (refs (repo w) !! branch_ref branch) as [old|] eqn:Hb; run_M;
      [|rewrite Hobj; run_M; rewrite Hb; run_M];
      (destruct (HEAD (repo w)) as [b0|d] eqn:HH; run_M;
       [ rewrite lookup_insert; case_decide as Hd; run_M;
         [ apply branch_ref_inj in Hd as <-; try congruence | rewrite Hhead; run_M ]
       | ]);
      (eexists; split; [reflexivity|]; unfold head_oid; run_M; rewrite ?HH;
       rewrite ?lookup_insert_eq; try rewrite lookup_insert_ne by congruence;
       rewrite ?lookup_insert_eq; rewrite <- ?app_assoc; repeat split; reflexivity).
  - pull_start Href. rewrite (truthy_false _ Hup), (truthy_true _ Hff).
    run_M. rewrite Hobj. run_M. rewrite Hcheckout. reflexivity.
Qed.

Lemma for_each_print {A} (f : A -> string) (l : list A) (w : World) :
  for_each l (fun x => print (f x)) w =
  (Ok tt, {| repo := repo w; stdout := (stdout w ++ (f <$> l))%list; calls := calls w |}).
Proof.
  revert w. induction l as [|x l IH]; intros w.
  - destruct w. simpl. run_M. by rewrite app_nil_r.
  - simpl. run_M. rewrite IH. run_M. by rewrite <- app_assoc.
Qed.

(** C1: when the three-way merge leaves conflicts in the index, [pull]
    prints exactly one line per conflict, in the order of the index:
    "Conflict in: " followed by the path of the ancestor side if the
    conflict has one, else of our side if it has one, else of their
    side, and "unknown" for a conflict with no side at all.  It writes
    no commit, leaves the repository in the merging state (the only call
    made is the merge itself) and raises [RuntimeError], which ends the
    run: nothing sequenced after [pull] is executed. *)
Theorem pull_conflicts (O : Oracle) (remote_name branch : string) (w : World)
    (remote_id : Oid) (idx : Index) (tree : Oid) :
  refs (repo w) !! ("refs/remotes/" +:+ remote_name +:+ "/" +:+ branch) = Some remote_id ->
  Z.land (merge_analysis_result O w remote_id) GIT_MERGE_ANALYSIS_UP_TO_DATE = 0 ->
  Z.land (merge_analysis_result O w remote_id) GIT_MERGE_ANALYSIS_FASTFORWARD = 0 ->
  Z.land (merge_analysis_result O w remote_id) GIT_MERGE_ANALYSIS_NORMAL <> 0 ->
  merge_outcome O w remote_id = (idx, tree) ->
  index_conflicts idx <> [] ->
  exists w' lines,
    pull O remote_name branch w = (Raise (RuntimeError "Merge conflicts detected. Aborting."), w') /\
    stdout w' = (stdout w ++ lines)%list /\
    Forall2 (fun (conflict : Conflict) (line : string) =>
               match conflict with
               | (Some ancestor, _, _) => line = "Conflict in: " +:+ path ancestor
               | (None, Some ours, _) => line = "Conflict in: " +:+ path ours
               | (None, None, Some theirs) => line = "Conflict in: " +:+ path theirs
               | (None, None, None) => line = "Conflict in: unknown"
               end) (index_conflicts idx) lines /\
    odb (repo w') = odb (repo w) /\
    refs (repo w') = refs (repo w) /\
    HEAD (repo w') = HEAD (repo w) /\
    index (repo w') = idx /\
    state (repo w') = STATE_MERGE /\
    calls w' = (calls w ++ [CallMerge remote_id])%list /\
    (forall (k : unit -> M unit), (pull O remote_name branch ≫= k) w = pull O remote_name branch w).
Proof.
  intros Href Hup Hff Hnormal Hmerge Hconf.
  assert (Hrun : pull O remote_name branch w =
    (Raise (RuntimeError "Merge conflicts detected. Aborting."),
     {| repo := with_state STATE_MERGE (with_workdir tree (with_index idx (repo w)));
        stdout := (stdout w ++ (conflict_line <$> index_conflicts idx))%list;
        calls := (calls w ++ [CallMerge remote_id])%list |})).
  { pull_start Href.
    rewrite (truthy_false _ Hup), (truthy_false _ Hff), (truthy_true _ Hnormal).
    run_M. rewrite Hmerge. run_M.
    destruct (index_conflicts idx) as [|c0 cs] eqn:Hcs; [done|].
    run_M. pose proof (@for_each_print _ conflict_line) as Hp. unfold print in Hp.
    rewrite Hp. run_M. reflexivity. }
  eexists _, (conflict_line <$> index_conflicts idx).
  split; [exact Hrun|]. run_M. repeat split.
  - apply Forall2_fmap_r, Forall_Forall2_diag, Forall_forall.
    intros [[[ancestor|] [ours|]] [theirs|]] _; reflexivity.
  - intros k. change ((pull O remote_name branch ≫= k) w) with
      (match pull O remote_name branch w with
       | (Ok a, w') => k a w'
       | (Raise e, w') => (Raise e, w')
       end). by rewrite Hrun.
Qed.

(** C5 (amended): when the three-way merge leaves no conflict and the
    repository configuration provides a default signature, [pull] writes
    exactly one commit, with parents the pre-merge HEAD commit and the
    remote commit in that order, message "Merge!", author and committer
    the default signature and the tree of the merged index; HEAD resolves
    to it and the merge state is cleared afterwards. *)
Theorem pull_merge_commit (O : Oracle) (remote_name branch : string) (w : World)
    (remote_id local_id : Oid) (idx : Index) (tree : Oid) (user : Signature) :
  refs (repo w) !! ("refs/remotes/" +:+ remote_name +:+ "/" +:+ branch) = Some remote_id ->
  Z.land (merge_analysis_result O w remote_id) GIT_MERGE_ANALYSIS_UP_TO_DATE = 0 ->
  Z.land (merge_analysis_result O w remote_id) GIT_MERGE_ANALYSIS_FASTFORWARD = 0 ->
  Z.land (merge_analysis_result O w remote_id) GIT_MERGE_ANALYSIS_NORMAL <> 0 ->
  merge_outcome O w remote_id = (idx, tree) ->
  index_conflicts idx = [] ->
  head_oid (repo w) = Some local_id ->
  config_user (repo w) = Some user ->
  let c := {| commit_tree := index_tree idx; commit_parents := [local_id; remote_id];
              commit_message := "Merge!"; commit_author := user; commit_committer := user |} in
  exists w' oid,
    pull O remote_name branch w = (Ok tt, w') /\
    odb (repo w') = <[oid := c]> (odb (repo w)) /\
    head_oid (repo w') = Some oid /\
    state (repo w') = STATE_NONE /\
    stdout w' = stdout w /\
    calls w' =
      (calls w ++ [CallMerge remote_id; CallIndexWriteTree; CallCreateCommit "HEAD" c;
                   CallStateCleanup])%list.
Proof.
  intros Href Hup Hff Hnormal Hmerge Hconf Hhead Huser c.
  pull_start Href.
  rewrite (truthy_false _ Hup), (truthy_false _ Hff), (truthy_true _ Hnormal).
  run_M. rewrite Hmerge. run_M. rewrite Hconf. run_M. rewrite Huser. run_M.
  rewrite Hconf. run_M.
  unfold head_oid in Hhead.
  destruct (HEAD (repo w)) as [b|d] eqn:HH; run_M.
  - repeat ((rewrite Hhead || rewrite HH); run_M).
    do 2 eexists. split; [reflexivity|]. unfold head_oid. run_M. rewrite ?HH.
    rewrite lookup_insert_eq, <- !app_assoc. repeat split; reflexivity.
  - repeat (rewrite HH; run_M). injection Hhead as ->.
    do 2 eexists. split; [reflexivity|]. unfold head_oid. run_M.
    rewrite <- !app_assoc. repeat split; reflexivity.
Qed.

(** ** The steps of [main] *)

Lemma bind_Ok {A B} (m : M A) (k : A -> M B) (w w' : World) (a : A) :
  m w = (Ok a, w') -> (m ≫= k) w = k a w'.
Proof. intros H. unfold mbind, M_bind. by rewrite H. Qed.

Lemma bind_Raise {A B} (m : M A) (k : A -> M B) (w w' : World) (e : Exn) :
  m w = (Raise e, w') -> (m ≫= k) w = (Raise e, w').
Proof. intros H. unfold mbind, M_bind. by rewrite H. Qed.

Lemma fetch_loop_no_origin (O : Oracle) (stable : bool) (rs : list Remote) (w : World) :
  (forall remote, remote ∈ rs -> remote_name remote <> "origin") ->
  fetch_loop O stable rs w = (Ok tt, w).
Proof.
  induction rs as [|r rs IH]; intros Hno; [reflexivity|]. simpl.
  destruct (String.eqb_spec (remote_name r) "origin") as [E|_].
  - exfalso. apply (Hno r); [left | exact E].
  - apply IH. intros r' Hr'. apply Hno. by right.
Qed.

(** C10: when no remote is named origin, the fetch step fetches nothing
    and raises nothing: it only prints its progress line, the repository
    and the list of backend calls are unchanged, and [main] goes on with
    the checkout of master and the pull on the references it already
    had. *)
Theorem fetch_without_origin (O : Oracle) (int_max_str_digits : nat) (unicode : Py.Unicode) (stable : bool) (w : World) :
  (forall remote, remote ∈ remotes (repo w) -> remote_name remote <> "origin") ->
  exists w',
    fetch_from_origin O stable w = (Ok tt, w') /\
    repo w' = repo w /\
    calls w' = calls w /\
    stdout w' = (stdout w ++ ["Fetching from origin…"])%list /\
    update_steps O int_max_str_digits unicode stable w =
      (checkout_master O;;
       print "Pulling latest changes…";;
       pull O "origin" "master";;
       checkout_stable_tag O int_max_str_digits unicode stable;;
       emit_post_update_head;;
       print "Done!") w'.
Proof.
  intros Hno.
  assert (Hrun : fetch_from_origin O stable w =
    (Ok tt, {| repo := repo w; stdout := (stdout w ++ ["Fetching from origin…"])%list;
               calls := calls w |})).
  { unfold fetch_from_origin. run_M. by rewrite fetch_loop_no_origin. }
  eexists. split; [exact Hrun|]. run_M. repeat split.
  unfold update_steps. by rewrite (bind_Ok _ _ _ _ _ Hrun).
Qed.

Lemma create_backup_branch_run (O : Oracle) (w : World) :
  let name := backup_name O w in
  let announced := (stdout w ++ ["Creating backup branch: " +:+ name])%list in
  match head_commit (repo w), refs (repo w) !! branch_ref name with
  | Some (h, _), None =>
      create_backup_branch O w =
      (Ok tt, {| repo := with_refs (<[branch_ref name := h]> (refs (repo w))) (repo w);
                 stdout := (announced ++ ["[BACKUP_BRANCH] " +:+ name])%list;
                 calls := (calls w ++ [CallCreateBranch name h])%list |})
  | Some (h, _), Some _ =>
      create_backup_branch O w =
      (Ok tt, {| repo := repo w;
                 stdout := (announced ++ ["Warning: could not create backup branch."])%list;
                 calls := (calls w ++ [CallCreateBranch name h])%list |})
  | None, _ =>
      create_backup_branch O w =
      (Ok tt, {| repo := repo w;
                 stdout := (announced ++ ["Warning: could not create backup branch."])%list;
                 calls := calls w |})
  end.
Proof.
  intros name announced. subst announced name.
  unfold create_backup_branch, head_commit, head_oid, backup_name. run_M.
  destruct (HEAD (repo w)) as [b|d] eqn:HH; run_M.
  - destruct (refs (repo w) !! branch_ref b) as [h|] eqn:Hh; run_M; [|reflexivity].
    rewrite Hh. run_M.
    destruct (odb (repo w) !! h) as [c|] eqn:Hc; run_M; [|reflexivity].
    destruct (refs (repo w) !! branch_ref ("backup_branch_" +:+ strftime_stamp (today O w))) eqn:Hn;
      run_M; rewrite ?Hn; reflexivity.
  - rewrite HH. run_M.
    destruct (odb (repo w) !! d) as [c|] eqn:Hc; run_M; [|reflexivity].
    destruct (refs (repo w) !! branch_ref ("backup_branch_" +:+ strftime_stamp (today O w))) eqn:Hn;
      run_M; rewrite ?Hn; reflexivity.
Qed.


(** C7: a first stash attempt that finds nothing to stash is a success.
    A first attempt that fails otherwise is followed by: merge state
    cleared, index reset to the tree of HEAD's commit, index written,
    and exactly one more stash attempt; if that one finds nothing to
    stash the step succeeds, if it raises anything else the exception
    propagates and ends the run, if it stashes the step succeeds. *)
Theorem stash_changes_retry (O : Oracle) (ident : Signature) (w : World) :
  (stash_outcome O (stash_world w) ident = inl KeyError ->
   stash_changes O ident w =
   (Ok tt, {| repo := repo w;
              stdout := (stdout w ++ ["Stashing current changes…"; "Nothing to stash."])%list;
              calls := (calls w ++ [CallStash ident])%list |}))
  /\
  (forall e h c,
      stash_outcome O (stash_world w) ident = inl e ->
      is_KeyError e = false -> is_Exception e = true ->
      head_commit (repo w) = Some (h, c) ->
      let w2 := retry_world ident (commit_tree c) w in
      index (repo w2) = clean_index (commit_tree c) /\
      index_file (repo w2) = index (repo w2) /\
      count_stash (calls w2 ++ [CallStash ident]) = (count_stash (calls w) + 2)%nat /\
      (stash_outcome O w2 ident = inl KeyError ->
       stash_changes O ident w =
       (Ok tt, {| repo := repo w2; stdout := (stdout w2 ++ ["Nothing to stash."])%list;
                  calls := (calls w2 ++ [CallStash ident])%list |})) /\
      (forall e2, stash_outcome O w2 ident = inl e2 -> is_KeyError e2 = false ->
         let failed := {| repo := repo w2; stdout := stdout w2;
                          calls := (calls w2 ++ [CallStash ident])%list |} in
         stash_changes O ident w = (Raise e2, failed) /\
         forall k : unit -> M unit, (stash_changes O ident ≫= k) w = (Raise e2, failed)) /\
      (forall oid c2, stash_outcome O w2 ident = inr (oid, c2) ->
         exists w', stash_changes O ident w = (Ok tt, w') /\
                    stdout w' = stdout w2 /\
                    calls w' = (calls w2 ++ [CallStash ident])%list)).
Proof.
  split.
  - intros H1. unfold stash_changes. run_M. unfold stash_world in H1. rewrite H1. run_M.
    by rewrite <- app_assoc.
  - intros e h c H1 Hk He Hhead w2.
    assert (Hstep :
      stash_changes O ident w =
      try_except (stash O ident;; mret tt)
        (fun e => if is_KeyError e then Some (print "Nothing to stash.") else None) w2).
    { subst w2. unfold retry_world, stash_changes. run_M. unfold stash_world in H1. rewrite H1. run_M.
      destruct e; try discriminate; run_M;
        unfold head_commit, head_oid in Hhead;
        (destruct (HEAD (repo w)) as [b|d] eqn:HH; run_M;
         [ destruct (refs (repo w) !! branch_ref b) as [t|] eqn:Ht; [|done];
           run_M; rewrite ?Ht; run_M
         | rewrite ?HH; run_M ];
         match type of Hhead with
         | context [odb (repo w) !! ?o] =>
             destruct (odb (repo w) !! o) as [c'|] eqn:Hc; [|done]
         end;
         injection Hhead as -> ->; run_M;
         rewrite <- !app_assoc; reflexivity). }
    split; [reflexivity|]. split; [reflexivity|].
    split.
    { unfold count_stash. subst w2. unfold retry_world. run_M.
      rewrite !List.filter_app, !length_app. simpl. lia. }
    split; [|split].
    + intros H2. rewrite Hstep. run_M. rewrite H2. run_M. reflexivity.
    + intros e2 H2 Hk2 failed.
      assert (Hr : stash_changes O ident w = (Raise e2, failed)).
      { rewrite Hstep. run_M. rewrite H2. run_M. destruct e2; try discriminate; reflexivity. }
      split; [exact Hr|]. intros k. by rewrite (bind_Raise _ _ _ _ _ Hr).
    + intros oid c2 H2. rewrite Hstep. run_M. rewrite H2. run_M.
      eexists. split; [reflexivity|]. run_M. split; reflexivity.
Qed.

(** ** What a computation leaves unchanged *)

Section Preserves.

Context {X : Type} (obs : World -> X).

Lemma preserves_ret {A} (a : A) : preserves obs (mret a : M A).
Proof. done. Qed.

Lemma preserves_raise {A} (e : Exn) : preserves obs (raise e : M A).
Proof. done. Qed.

Lemma preserves_get_repo : preserves obs get_repo.
Proof. done. Qed.

Lemma preserves_ask {A} (q : World -> A) : preserves obs (ask q).
Proof. done. Qed.

Lemma preserves_of_option {A} (o : option A) e : preserves obs (of_option o e).
Proof. by destruct o. Qed.

Lemma preserves_bind {A B} (m : M A) (k : A -> M B) :
  preserves obs m -> (forall x, preserves obs (k x)) -> preserves obs (m ≫= k).
Proof.
  intros Hm Hk w. specialize (Hm w). unfold mbind, M_bind.
  destruct (m w) as [[x|e] w1]; simpl in *; [|done]. by rewrite Hk.
Qed.

Lemma preserves_try_except {A} (body : M A) (handler : Exn -> option (M A)) :
  preserves obs body -> (forall e h, handler e = Some h -> preserves obs h) ->
  preserves obs (try_except body handler).
Proof.
  intros Hm Hh w. specialize (Hm w). unfold try_except.
  destruct (body w) as [[x|e] w1]; simpl in *; [done|].
  destruct (handler e) as [h|] eqn:He; [|done]. by rewrite (Hh e h He).
Qed.

Lemma preserves_for_each {A} (l : list A) (body : A -> M unit) :
  (forall x, preserves obs (body x)) -> preserves obs (for_each l body).
Proof.
  intros Hb. induction l as [|x l IH]; simpl; [done|].
  apply preserves_bind; [apply Hb | intros _; apply IH].
Qed.

End Preserves.

(** Case analysis along a computation. *)
Ltac crunch :=
  run_M;
  repeat (match goal with
          | |- context [match ?x with _ => _ end] =>
              lazymatch x with
              | context [match _ with _ => _ end] => fail
              | _ => destruct x eqn:?; run_M
              end
          end);
  try reflexivity.

(** Every backend call leaves the output alone. *)
Lemma backend_silent (O : Oracle) :
  (forall name, preserves stdout (lookup_reference name)) /\
  (forall name, preserves stdout (lookup_branch name)) /\
  preserves stdout repo_head /\
  (forall ref, preserves stdout (reference_target ref)) /\
  (forall ref oid, preserves stdout (set_target ref oid)) /\
  (forall oid, preserves stdout (repo_get oid)) /\
  (forall ref, preserves stdout (peel ref)) /\
  (forall name c, preserves stdout (create_branch name c)) /\
  (forall c, preserves stdout (checkout_tree O c)) /\
  (forall name, preserves stdout (checkout O name)) /\
  preserves stdout state_cleanup /\
  (forall t, preserves stdout (index_read_tree t)) /\
  preserves stdout index_write /\
  preserves stdout index_get_conflicts /\
  preserves stdout index_write_tree /\
  preserves stdout default_signature /\
  (forall oid, preserves stdout (merge_analysis O oid)) /\
  (forall oid, preserves stdout (merge O oid)) /\
  (forall a c msg t ps, preserves stdout (create_commit_HEAD O a c msg t ps)) /\
  (forall ident, preserves stdout (stash O ident)) /\
  (forall r specs, preserves stdout (remote_fetch O r specs)) /\
  preserves stdout (today_stamp O) /\
  (forall opt v, preserves stdout (pygit2_option opt v)) /\
  (forall path, preserves stdout (Repository path)).
Proof.
  unfold preserves. repeat split; intros; crunch.
Qed.

(** ** Markers *)

Lemma ordered_within_nil lo hi : ordered_within lo hi [].
Proof. repeat split; constructor. Qed.

Lemma ordered_within_app a b c l1 l2 :
  (a <= b)%nat -> (b <= c)%nat ->
  ordered_within a b l1 -> ordered_within b c l2 -> ordered_within a c (l1 ++ l2).
Proof.
  intros Hab Hbc (Hok1 & Hs1 & Hr1) (Hok2 & Hs2 & Hr2). unfold ordered_within, ranks in *.
  rewrite omap_app. repeat split.
  - by apply Forall_app.
  - induction Hs1 as [|x l Hl IH Hx]; simpl; [done|].
    apply Forall_cons in Hr1 as [Hx1 Hr1]. constructor; [by apply IH|].
    apply Forall_app. split; [done|].
    eapply Forall_impl; [exact Hr2|]. simpl. lia.
  - apply Forall_app. split; (eapply Forall_impl; [eassumption|]); simpl; lia.
Qed.

Lemma ordered_within_weaken a b a' b' l :
  (a' <= a)%nat -> (b <= b')%nat -> ordered_within a b l -> ordered_within a' b' l.
Proof.
  intros Ha Hb (Hok & Hs & Hr). repeat split; try done.
  eapply Forall_impl; [exact Hr|]. simpl. lia.
Qed.

Lemma emits_weaken {A} a b a' b' (m : M A) :
  (a' <= a)%nat -> (b <= b')%nat -> emits a b m -> emits a' b' m.
Proof.
  intros Ha Hb [Hab H]. split; [lia|]. intros w. destruct (H w) as (new & Hn & Ho).
  exists new. split; [done|]. by eapply ordered_within_weaken.
Qed.

Lemma emits_silent {A} n (m : M A) : preserves stdout m -> emits n n m.
Proof.
  intros H. split; [lia|]. intros w. exists []. rewrite app_nil_r.
  split; [apply H | apply ordered_within_nil].
Qed.

Lemma emits_ret {A} n (a : A) : emits n n (mret a : M A).
Proof. apply emits_silent, preserves_ret. Qed.

Lemma emits_raise {A} n (e : Exn) : emits n n (raise e : M A).
Proof. apply emits_silent, preserves_raise. Qed.

Lemma emits_print_plain n line :
  marker_rank line = None -> line_ok line = true -> emits n n (print line).
Proof.
  intros Hr Hok. split; [lia|]. intros w. exists [line]. split; [done|].
  unfold ordered_within, ranks. simpl. rewrite Hr. repeat split; by constructor.
Qed.

Lemma emits_print_marker r line :
  marker_rank line = Some r -> emits r (S r) (print line).
Proof.
  intros Hr. split; [lia|]. intros w. exists [line]. split; [done|].
  unfold ordered_within, ranks. simpl. rewrite Hr. repeat split.
  - constructor; [|done]. unfold line_ok. rewrite Hr. apply orb_true_iff. right.
    apply bool_decide_eq_true. eauto.
  - repeat constructor.
  - constructor; [lia|done].
Qed.

Lemma emits_bind {A B} a b c (m : M A) (k : A -> M B) :
  emits a b m -> (forall x, emits b c (k x)) -> (b <= c)%nat -> emits a c (m ≫= k).
Proof.
  intros [Hab Hm] Hk Hbc. split; [lia|]. intros w.
  destruct (Hm w) as (new1 & Hn1 & Ho1). unfold mbind, M_bind.
  destruct (m w) as [[x|e] w1]; simpl in *.
  - destruct (Hk x) as [_ Hkx]. destruct (Hkx w1) as (new2 & Hn2 & Ho2).
    exists (new1 ++ new2)%list. rewrite Hn2, Hn1, app_assoc. split; [done|].
    by eapply ordered_within_app.
  - exists new1. split; [done|]. eapply ordered_within_weaken; [| |exact Ho1]; lia.
Qed.

Lemma emits_try_except {A} a b c (body : M A) (handler : Exn -> option (M A)) :
  emits a b body -> (forall e h, handler e = Some h -> emits b c h) -> (b <= c)%nat ->
  emits a c (try_except body handler).
Proof.
  intros [Hab Hm] Hh Hbc. split; [lia|]. intros w.
  destruct (Hm w) as (new1 & Hn1 & Ho1). unfold try_except.
  destruct (body w) as [[x|e] w1]; simpl in *.
  - exists new1. split; [done|]. eapply ordered_within_weaken; [| |exact Ho1]; lia.
  - destruct (handler e) as [h|] eqn:He.
    + destruct (Hh e h He) as [_ Hhe]. destruct (Hhe w1) as (new2 & Hn2 & Ho2).
      exists (new1 ++ new2)%list. rewrite Hn2, Hn1, app_assoc. split; [done|].
      by eapply ordered_within_app.
    + exists new1. split; [done|]. eapply ordered_within_weaken; [| |exact Ho1]; lia.
Qed.

Lemma emits_for_each {A} n (l : list A) (body : A -> M unit) :
  (forall x, emits n n (body x)) -> emits n n (for_each l body).
Proof.
  intros Hb. induction l as [|x l IH]; simpl.
  - apply emits_ret.
  - eapply emits_bind; [apply Hb | intros _; apply IH | lia].
Qed.

Lemma emits_of_option {A} n (o : option A) e : emits n n (of_option o e).
Proof. destruct o; [apply emits_ret | apply emits_raise]. Qed.


(** Proof search for computations that print no marker. *)
Ltac backend_facts O :=
  let H := fresh "Hsilent" in
  pose proof (backend_silent O) as H;
  repeat (let H1 := fresh "Hs" in destruct H as [H1 H]).

Lemma emits_bind_quiet {A B} n (m : M A) (k : A -> M B) :
  emits n n m -> (forall x, emits n n (k x)) -> emits n n (m ≫= k).
Proof. intros Hm Hk. by apply (emits_bind n n n). Qed.

Lemma emits_try_except_quiet {A} n (body : M A) (handler : Exn -> option (M A)) :
  emits n n body -> (forall e h, handler e = Some h -> emits n n h) ->
  emits n n (try_except body handler).
Proof. intros Hm Hh. by apply (emits_try_except n n n). Qed.

Ltac quiet :=
  repeat first
    [ apply emits_ret | apply emits_raise | apply emits_of_option
    | apply emits_print_plain; reflexivity
    | apply emits_silent; solve [ auto | apply preserves_get_repo | apply preserves_ask
                                | apply preserves_ret | apply preserves_raise ]
    | apply emits_bind_quiet; [ | intros ? ]
    | apply emits_try_except_quiet; [ | intros ? ? ? ]
    | apply emits_for_each; intros ?
    | match goal with
      | H : (if ?b then _ else _) = Some _ |- _ => destruct b; [|try discriminate H]
      | H : None = Some _ |- _ => discriminate H
      | H : Some _ = Some _ |- _ => injection H as <-
      | |- emits _ _ (match ?x with _ => _ end) => destruct x
      end ].

Section MarkerOrder.

Variable O : Oracle.
Variable int_max_str_digits : nat.
Variable unicode : Py.Unicode.

Lemma pull_quiet n remote_name branch : emits n n (pull O remote_name branch).
Proof. backend_facts O. unfold pull. quiet. Qed.

Lemma stash_changes_quiet n ident : emits n n (stash_changes O ident).
Proof. backend_facts O. unfold stash_changes. quiet. Qed.

Lemma fetch_loop_quiet n stable rs : emits n n (fetch_loop O stable rs).
Proof.
  backend_facts O. induction rs as [|r rs IH]; simpl; [apply emits_ret|].
  destruct (String.eqb _ _); [|exact IH]. quiet.
Qed.

Lemma fetch_from_origin_quiet n stable : emits n n (fetch_from_origin O stable).
Proof.
  unfold fetch_from_origin.
  eapply emits_bind; [apply emits_print_plain; reflexivity | intros _ | lia].
  eapply emits_bind; [apply emits_silent, preserves_get_repo | intros r | lia].
  apply fetch_loop_quiet.
Qed.

Lemma checkout_master_quiet n : emits n n (checkout_master O).
Proof. backend_facts O. unfold checkout_master. quiet. Qed.

Lemma emit_pre_update_head_emits : emits 0 1 emit_pre_update_head.
Proof.
  backend_facts O. unfold emit_pre_update_head.
  eapply (emits_bind 0 0 1); [quiet | intros head | lia].
  eapply (emits_bind 0 0 1); [quiet | intros pre_head | lia].
  apply emits_print_marker; reflexivity.
Qed.

Lemma create_backup_branch_emits : emits 1 2 (create_backup_branch O).
Proof.
  backend_facts O. unfold create_backup_branch.
  eapply (emits_bind 1 1 2); [quiet | intros stamp | lia].
  eapply (emits_bind 1 1 2); [quiet | intros _ | lia].
  eapply (emits_try_except 1 2 2); [| intros e h He | lia].
  - eapply (emits_bind 1 1 2); [quiet | intros head | lia].
    eapply (emits_bind 1 1 2); [quiet | intros commit | lia].
    eapply (emits_bind 1 1 2); [quiet | intros _ | lia].
    apply emits_print_marker; reflexivity.
  - quiet.
Qed.

Lemma checkout_stable_tag_emits stable : emits 2 3 (checkout_stable_tag O int_max_str_digits unicode stable).
Proof.
  backend_facts O. unfold checkout_stable_tag.
  destruct stable; [|eapply emits_weaken; [| |apply (emits_ret 2)]; lia].
  eapply (emits_bind 2 2 3); [quiet | intros r | lia].
  destruct (find_latest_stable_tag _ _) as [tag|].
  - eapply (emits_bind 2 2 3); [quiet | intros _ | lia].
    eapply (emits_bind 2 2 3); [quiet | intros _ | lia].
    apply emits_print_marker; reflexivity.
  - eapply emits_weaken; [| |apply (emits_print_plain 2)]; try lia; reflexivity.
Qed.

Lemma emit_post_update_head_emits : emits 3 4 emit_post_update_head.
Proof.
  backend_facts O. unfold emit_post_update_head.
  eapply (emits_bind 3 3 4); [quiet | intros head | lia].
  eapply (emits_bind 3 3 4); [quiet | intros post_head | lia].
  apply emits_print_marker; reflexivity.
Qed.

Lemma update_steps_emits stable : emits 2 4 (update_steps O int_max_str_digits unicode stable).
Proof.
  unfold update_steps.
  eapply (emits_bind 2 2 4); [apply fetch_from_origin_quiet | intros _ | lia].
  eapply (emits_bind 2 2 4); [apply checkout_master_quiet | intros _ | lia].
  eapply (emits_bind 2 2 4); [apply emits_print_plain; reflexivity | intros _ | lia].
  eapply (emits_bind 2 2 4); [apply pull_quiet | intros _ | lia].
  eapply (emits_bind 2 3 4); [apply checkout_stable_tag_emits | intros _ | lia].
  eapply (emits_bind 3 4 4); [apply emit_post_update_head_emits | intros _ | lia].
  apply emits_print_plain; reflexivity.
Qed.

Lemma main_emits argv : emits 0 4 (main O int_max_str_digits unicode argv).
Proof.
  backend_facts O. unfold main. destruct (length argv <? 2)%nat.
  - eapply emits_weaken; [| |apply (emits_bind 0 0 0)]; try lia.
    + apply emits_print_plain; reflexivity.
    + intros _. apply emits_raise.
  - eapply (emits_bind 0 0 4); [quiet | intros _ | lia].
    eapply (emits_bind 0 0 4); [quiet | intros _ | lia].
    eapply (emits_bind 0 1 4); [apply emit_pre_update_head_emits | intros _ | lia].
    eapply (emits_bind 1 1 4); [apply stash_changes_quiet | intros _ | lia].
    eapply (emits_bind 1 2 4); [apply create_backup_branch_emits | intros _ | lia].
    apply update_steps_emits.
Qed.

End MarkerOrder.

Lemma marker_rank_form (line : string) (r : nat) :
  marker_rank line = Some r ->
  exists name value, marker_names !! r = Some name /\ line = "[" +:+ name +:+ "] " +:+ value.
Proof.
  unfold marker_rank. intros H.
  repeat match type of H with
         | (if Py.startswith ?l ?p then _ else _) = _ =>
             let E := fresh "E" in
             destruct (Py.startswith l p) eqn:E;
             [ apply startswith_app in E as [value ->]; injection H as <-;
               eexists _, value; split; reflexivity | ]
         end.
  discriminate.
Qed.

(** C9: in every run of [main], every printed line that opens with a
    bracket is one of the four markers in the form "[NAME] value", one
    line per marker, and the markers printed appear in the order
    PRE_UPDATE_HEAD, BACKUP_BRANCH, CHECKED_OUT_TAG, POST_UPDATE_HEAD,
    each at most once. *)
Theorem main_markers_in_order (O : Oracle) (int_max_str_digits : nat) (unicode : Py.Unicode) (argv : list string) (w : World) :
  exists new,
    stdout (main O int_max_str_digits unicode argv w).2 = (stdout w ++ new)%list /\
    StronglySorted lt (ranks new) /\
    (forall line, line ∈ new -> Py.startswith line "[" = true -> is_Some (marker_rank line)) /\
    (forall line r, line ∈ new -> marker_rank line = Some r ->
       exists name value, marker_names !! r = Some name /\ line = "[" +:+ name +:+ "] " +:+ value).
Proof.
  destruct (main_emits O int_max_str_digits unicode argv) as [_ H].
  destruct (H w) as (new & Hn & Hok & Hs & _).
  exists new. split; [done|]. split; [done|]. split.
  - intros line Hin Hb. rewrite Forall_forall in Hok. specialize (Hok line Hin).
    unfold line_ok in Hok. rewrite Hb in Hok. simpl in Hok. by apply bool_decide_eq_true in Hok.
  - intros line r _. apply marker_rank_form.
Qed.

(** ** References that the update leaves alone *)

Ltac crunch_using tac :=
  run_M;
  repeat (first
    [ progress tac; run_M
    | match goal with
      | |- context [match ?x with _ => _ end] =>
          lazymatch x with
          | context [match _ with _ => _ end] => fail
          | _ => destruct x eqn:?; run_M
          end
      end ]);
  try reflexivity.

(** Closed boolean tests left as hypotheses by the case analysis. *)
Ltac absurd_tests :=
  repeat match goal with
         | H : String.eqb _ _ = _ |- _ => vm_compute in H; try discriminate H; clear H
         | H : Py.startswith _ _ = _ |- _ => vm_compute in H; try discriminate H; clear H
         end.

Lemma branch_ref_not_stash (b : string) : "refs/stash" <> branch_ref b.
Proof. unfold branch_ref. cbv [String.append]. congruence. Qed.

Lemma stash_changes_head_oid (O : Oracle) (ident : Signature) :
  preserves (fun w => head_oid (repo w)) (stash_changes O ident).
Proof.
  intros w. unfold stash_changes. crunch; unfold head_oid; run_M;
    repeat match goal with
           | |- context [match ?x with _ => _ end] => destruct x eqn:?; run_M
           end;
    rewrite ?lookup_insert_ne by apply branch_ref_not_stash; try reflexivity; try congruence.
Qed.

Lemma apply_refspec_other (advertised : list (string * Oid)) (m : gmap string Oid)
    (rs : Refspec) (k : string) :
  (forall name, refspec_dst rs name <> Some k) ->
  apply_refspec advertised m rs !! k = m !! k.
Proof.
  intros Hk. unfold apply_refspec. revert m.
  induction advertised as [|[name oid] l IH]; intros m; simpl; [done|].
  rewrite IH. destruct (refspec_dst rs name) as [dst|] eqn:Hd; [|done].
  apply lookup_insert_ne. intros ->. by apply (Hk name).
Qed.

Lemma follow_tags_other (followed : list (string * Oid)) (m : gmap string Oid) (k : string) :
  Py.startswith k "refs/tags/" = false -> follow_tags followed m !! k = m !! k.
Proof.
  intros Hk. unfold follow_tags. revert m.
  induction followed as [|[name oid] l IH]; intros m; cbn [fold_left]; [done|].
  rewrite IH. destruct (Py.startswith name "refs/tags/") eqn:Hn; [|done].
  apply lookup_insert_ne. intros ->. congruence.
Qed.

Lemma branch_ref_not_tag (branch : string) :
  Py.startswith (branch_ref branch) "refs/tags/" = false.
Proof. reflexivity. Qed.

Lemma master_refspec_dst (name branch : string) :
  refspec_dst (parse_refspec "+refs/heads/master:refs/remotes/origin/master") name
  <> Some (branch_ref branch).
Proof.
  change (parse_refspec "+refs/heads/master:refs/remotes/origin/master")
    with {| rs_force := true; rs_glob := false; rs_src := "refs/heads/master";
            rs_dst := "refs/remotes/origin/master" |}.
  unfold refspec_dst, branch_ref. cbn [rs_glob rs_src rs_dst].
  destruct (String.eqb name "refs/heads/master"); [|done].
  cbv [String.append]. congruence.
Qed.

Lemma tags_refspec_dst (name branch : string) :
  refspec_dst (parse_refspec "+refs/tags/*:refs/tags/*") name <> Some (branch_ref branch).
Proof.
  change (parse_refspec "+refs/tags/*:refs/tags/*")
    with {| rs_force := true; rs_glob := true; rs_src := "refs/tags/"; rs_dst := "refs/tags/" |}.
  unfold refspec_dst, branch_ref. cbn [rs_glob rs_src rs_dst].
  destruct (Py.startswith name "refs/tags/"); [|done].
  cbv [String.append]. congruence.
Qed.

Section Keeps.

Variable O : Oracle.
Variable int_max_str_digits : nat.
Variable unicode : Py.Unicode.
Variable branch : string.

Lemma fetch_loop_keeps stable rs : preserves (branch_target branch) (fetch_loop O stable rs).
Proof.
  induction rs as [|r rs IH]; simpl; [done|].
  destruct (String.eqb _ _); [|exact IH].
  intros w. unfold branch_target. destruct stable; crunch; simpl;
    rewrite follow_tags_other by apply branch_ref_not_tag;
    rewrite ?apply_refspec_other; auto using master_refspec_dst, tags_refspec_dst.
Qed.

Lemma fetch_from_origin_keeps stable : preserves (branch_target branch) (fetch_from_origin O stable).
Proof.
  unfold fetch_from_origin.
  apply preserves_bind; [done | intros _].
  apply preserves_bind; [done | intros r]. apply fetch_loop_keeps.
Qed.

Lemma checkout_stable_tag_keeps stable :
  preserves (branch_target branch) (checkout_stable_tag O int_max_str_digits unicode stable).
Proof. intros w. unfold checkout_stable_tag, branch_target. crunch. Qed.

Lemma emit_post_update_head_keeps : preserves (branch_target branch) emit_post_update_head.
Proof. intros w. unfold emit_post_update_head, branch_target. crunch. Qed.

Hypothesis not_master : branch <> "master".

Lemma lookup_insert_master (m : gmap string Oid) (oid : Oid) :
  <["refs/heads/master" := oid]> m !! branch_ref branch = m !! branch_ref branch.
Proof.
  apply lookup_insert_ne. change "refs/heads/master" with (branch_ref "master").
  intros H. apply branch_ref_inj in H. congruence.
Qed.

Lemma checkout_master_keeps : preserves (branch_target branch) (checkout_master O).
Proof.
  intros w. unfold checkout_master, branch_target. crunch;
    change (branch_ref "master") with "refs/heads/master";
    by rewrite ?lookup_insert_master.
Qed.

(** When the checkout of master returns, HEAD is on master, which
    exists: [pull] always starts from there. *)
Lemma checkout_master_HEAD (w : World) :
  match checkout_master O w with
  | (Ok _, w') => HEAD (repo w') = OnBranch "master" /\ is_Some (head_oid (repo w'))
  | (Raise _, _) => True
  end.
Proof.
  unfold checkout_master. crunch; absurd_tests; try done;
    (split; [reflexivity|]); unfold head_oid; run_M;
    change (branch_ref (Py.slice_from 11 "refs/heads/master")) with "refs/heads/master";
    change (branch_ref "master") with "refs/heads/master" in *;
    repeat match goal with H : _ !! _ = Some _ |- _ => rewrite H end; eauto.
Qed.

Lemma pull_keeps (w : World) :
  HEAD (repo w) = OnBranch "master" ->
  branch_target branch (pull O "origin" "master" w).2 = branch_target branch w.
Proof.
  intros HH. unfold pull, branch_target.
  pose proof (@for_each_print _ conflict_line) as Hp. unfold print in Hp.
  crunch_using ltac:(rewrite ?Hp, ?HH);
    change (branch_ref "master") with "refs/heads/master";
    change ("refs/heads/" +:+ "master") with "refs/heads/master";
    by rewrite ?lookup_insert_master.
Qed.

Lemma update_steps_keeps stable :
  preserves (branch_target branch) (update_steps O int_max_str_digits unicode stable).
Proof.
  intros w. unfold update_steps.
  unfold mbind at 1, M_bind at 1.
  pose proof (fetch_from_origin_keeps stable w) as H1.
  destruct (fetch_from_origin O stable w) as [[[]|e1] w1]; simpl in H1; [|done].
  rewrite <- H1. clear H1.
  unfold mbind at 1, M_bind at 1.
  pose proof (checkout_master_keeps w1) as H2. pose proof (checkout_master_HEAD w1) as HH.
  destruct (checkout_master O w1) as [[[]|e2] w2]; simpl in H2; [|done].
  destruct HH as [HH _].
  rewrite <- H2. clear H2.
  unfold mbind at 1, M_bind at 1. unfold print at 1.
  set (w3 := {| repo := repo w2; stdout := _; calls := calls w2 |}).
  unfold mbind at 1, M_bind at 1.
  pose proof (pull_keeps w3 HH) as H4.
  destruct (pull O "origin" "master" w3) as [[[]|e4] w4]; simpl in H4; [|done].
  transitivity (branch_target branch w4); [|exact H4].
  apply (preserves_bind (branch_target branch)); [apply checkout_stable_tag_keeps | intros _].
  apply preserves_bind; [apply emit_post_update_head_keeps | intros _]. done.
Qed.

End Keeps.

(** ** The backup branch stays at the pre-update HEAD *)

Lemma emits_rank {A} lo hi (m : M A) (w : World) (new : list string) (line : string) (r : nat) :
  emits lo hi m ->
  stdout (m w).2 = (stdout w ++ new)%list ->
  line ∈ new -> marker_rank line = Some r -> (lo <= r < hi)%nat.
Proof.
  intros [_ H] Hout Hin Hr. destruct (H w) as (new' & Hn & _ & _ & Hranks).
  rewrite Hn in Hout. apply app_inv_head in Hout as ->.
  rewrite Forall_forall in Hranks. apply Hranks.
  unfold ranks. apply list_elem_of_omap. eauto.
Qed.

Lemma backup_marker_rank (name : string) : marker_rank ("[BACKUP_BRANCH] " +:+ name) = Some 1%nat.
Proof. reflexivity. Qed.

Lemma backup_name_not_master (O : Oracle) (w : World) : backup_name O w <> "master".
Proof. unfold backup_name. cbv [String.append]. congruence. Qed.

(** From the creation of the backup branch to the end of the run. *)
Lemma backup_then_update (O : Oracle) (int_max_str_digits : nat) (unicode : Py.Unicode) (stable : bool)
    (w : World) (new : list string) (name : string) :
  let final := ((create_backup_branch O;; update_steps O int_max_str_digits unicode stable) w).2 in
  stdout final = (stdout w ++ new)%list ->
  ("[BACKUP_BRANCH] " +:+ name) ∈ new ->
  exists h, head_oid (repo w) = Some h /\ refs (repo final) !! branch_ref name = Some h.
Proof.
  intros final Hout Hin. subst final.
  pose proof (create_backup_branch_run O w) as Hrun. cbv zeta in Hrun.
  pose proof (update_steps_emits O int_max_str_digits unicode stable) as Hemits.
  destruct (head_commit (repo w)) as [[h c]|] eqn:Hhc;
    [destruct (refs (repo w) !! branch_ref (backup_name O w)) eqn:Hn|];
    rewrite (bind_Ok _ _ _ _ _ Hrun) in Hout |- *;
    match type of Hrun with _ = (_, ?W1) =>
      destruct (proj2 Hemits W1) as (new_u & Hu & _);
      pose proof (fun H => emits_rank _ _ _ W1 new_u _ 1%nat Hemits Hu H (backup_marker_rank name))
        as Hrank;
      pose proof (update_steps_keeps O int_max_str_digits unicode (backup_name O w)
                    (backup_name_not_master O w) stable W1) as Hkeep
    end;
    rewrite Hu in Hout; cbn [stdout] in Hout; rewrite <- !app_assoc in Hout;
    apply app_inv_head in Hout; subst new; simpl in Hin;
    apply elem_of_cons in Hin as [Heq|Hin]; try (cbv [String.append] in Heq; discriminate Heq);
    apply elem_of_cons in Hin as [Heq|Hin]; try (apply Hrank in Hin; lia);
    try (cbv [String.append] in Heq; discriminate Heq).
  assert (name = backup_name O w) as -> by (by simplify_eq).
  exists h. split.
  - unfold head_commit in Hhc. destruct (head_oid (repo w)) as [o|]; [|done].
    destruct (odb (repo w) !! o); [|done]. congruence.
  - unfold branch_target in Hkeep. rewrite Hkeep. cbn [repo refs with_refs].
    apply lookup_insert_eq.
Qed.

Lemma emit_pre_update_head_run (w : World) :
  match head_oid (repo w) with
  | Some pre =>
      emit_pre_update_head w =
      (Ok tt, {| repo := repo w; stdout := (stdout w ++ ["[PRE_UPDATE_HEAD] " +:+ pre])%list;
                 calls := calls w |})
  | None => exists e, emit_pre_update_head w = (Raise e, w)
  end.
Proof.
  unfold emit_pre_update_head, head_oid.
  destruct (HEAD (repo w)) as [b|d] eqn:HH; run_M; rewrite ?HH; run_M.
  - destruct (refs (repo w) !! branch_ref b) eqn:Hb; run_M; rewrite ?Hb; run_M; eauto.
  - reflexivity.
Qed.

(** C2: in every run of [main] that printed "[BACKUP_BRANCH] name", the
    run also printed "[PRE_UPDATE_HEAD] pre" for the commit HEAD resolved
    to at the start, and at the end of the run (normal or not) the branch
    [name] points to that commit [pre]: neither the fetch, the checkout
    of master, the pull nor the tag checkout moved it. *)
Theorem backup_branch_keeps_pre_update_head (O : Oracle) (int_max_str_digits : nat) (unicode : Py.Unicode)
    (argv : list string) (w : World) (new : list string) (name : string) :
  let final := (main O int_max_str_digits unicode argv w).2 in
  stdout final = (stdout w ++ new)%list ->
  ("[BACKUP_BRANCH] " +:+ name) ∈ new ->
  exists pre,
    head_oid (repo w) = Some pre /\
    ("[PRE_UPDATE_HEAD] " +:+ pre) ∈ new /\
    refs (repo final) !! branch_ref name = Some pre.
Proof.
  intros final Hout Hin. subst final. unfold main in *.
  destruct (length argv <? 2)%nat.
  { exfalso. revert Hout. run_M. intros Hout. apply app_inv_head in Hout. subst new.
    apply list_elem_of_singleton in Hin. cbv [String.append] in Hin. discriminate Hin. }
  set (stable := existsb (String.eqb "--stable") argv) in *.
  set (ident := {| sig_name := "comfyui"; sig_email := "comfy@ui" |}) in *.
  set (w0 := {| repo := repo w; stdout := stdout w;
                calls := ((calls w ++ [CallOption GIT_OPT_SET_OWNER_VALIDATION 0]) ++
                          [CallOpen (Py.rstrip "/\" (nth 1 argv ""))])%list |}).
  set (rest := emit_pre_update_head;; stash_changes O ident;; create_backup_branch O;;
               update_steps O int_max_str_digits unicode stable) in *.
  change ((pygit2_option GIT_OPT_SET_OWNER_VALIDATION 0;;
           Repository (Py.rstrip "/\" (nth 1 argv ""));; rest) w) with (rest w0) in *.
  change (stdout w) with (stdout w0) in Hout. change (repo w) with (repo w0).
  clearbody w0. clear w. subst rest.
  pose proof (emit_pre_update_head_run w0) as Hpre.
  destruct (head_oid (repo w0)) as [pre|] eqn:Hh.
  2:{ exfalso. destruct Hpre as [e Hpre]. rewrite (bind_Raise _ _ _ _ _ Hpre) in Hout.
      cbn [snd] in Hout. rewrite <- (app_nil_r (stdout w0)) in Hout at 1.
      apply app_inv_head in Hout. subst new. by apply elem_of_nil in Hin. }
  rewrite (bind_Ok _ _ _ _ _ Hpre) in Hout |- *.
  set (w1 := {| repo := repo w0; stdout := _; calls := calls w0 |}) in *.
  pose proof (stash_changes_head_oid O ident w1) as Hstash. cbn beta in Hstash.
  pose proof (stash_changes_quiet O 1 ident) as Hquiet.
  destruct (proj2 Hquiet w1) as (new_s & Hs & _).
  pose proof (fun H => emits_rank _ _ _ w1 new_s _ 1%nat Hquiet Hs H (backup_marker_rank name))
    as Hrank.
  unfold mbind at 1, M_bind at 1 in Hout. unfold mbind at 1, M_bind at 1.
  destruct (stash_changes O ident w1) as [[[]|e] w2]; cbn [snd] in *.
  2:{ exfalso. rewrite Hs in Hout. subst w1. cbn [stdout] in Hout.
      rewrite <- app_assoc in Hout. apply app_inv_head in Hout. subst new.
      simpl in Hin. apply elem_of_cons in Hin as [Heq|Hin].
      - cbv [String.append] in Heq. discriminate Heq.
      - apply Hrank in Hin. lia. }
  assert (Hsplit : exists new2, stdout ((create_backup_branch O;;
              update_steps O int_max_str_digits unicode stable) w2).2 = (stdout w2 ++ new2)%list).
  { pose proof (create_backup_branch_emits O) as Hb.
    pose proof (update_steps_emits O int_max_str_digits unicode stable) as Hu.
    destruct (emits_bind 1 2 4 _ _ Hb (fun _ => Hu) ltac:(lia)) as [_ H].
    destruct (H w2) as (new2 & Hn2 & _). eauto. }
  destruct Hsplit as (new2 & Hn2).
  rewrite Hn2, Hs in Hout. subst w1. cbn [stdout] in Hout.
  rewrite <- !app_assoc in Hout. apply app_inv_head in Hout. subst new.
  simpl in Hin. apply elem_of_cons in Hin as [Heq|Hin].
  { cbv [String.append] in Heq. discriminate Heq. }
  apply elem_of_app in Hin as [Hin|Hin]; [apply Hrank in Hin; lia|].
  destruct (backup_then_update O int_max_str_digits unicode stable w2 new2 name Hn2 Hin) as (h & Hh2 & Hfinal).
  exists pre. split; [done|]. split; [simpl; left|].
  cbn [repo] in Hstash. congruence.
Qed.

(** ** The claims on concrete runs *)

Lemma find_latest_stable_tag_maximal_witness :
  filter (fun name => Py.startswith name tag_prefix = true) (references sample_repo_two_tags)
    ≡ₚ ["refs/tags/v1.2.3"; "refs/tags/v1.10.0"] /\
  find_latest_stable_tag 4300 Py.unicode_14 sample_repo_two_tags = Some "refs/tags/v1.10.0".
Proof.
  assert (H : filter (fun name => Py.startswith name tag_prefix = true)
                (references sample_repo_two_tags)
              ≡ₚ ["refs/tags/v1.2.3"; "refs/tags/v1.10.0"]).
  { vm_compute. apply perm_swap. }
  split; [exact H|].
  exact (proj2 (proj2 (proj2 (find_latest_stable_tag_maximal 4300 Py.unicode_14 sample_repo_two_tags))) H).
Defined.

(** C3, as the claim words it, fails: a tag with a negative component is
    kept and returned by the code, while the filter "dotted sequence of
    non-negative integers" keeps nothing. *)
Lemma find_latest_stable_tag_keeps_negative :
  collect_versions 4300 Py.unicode_14 (references sample_repo_negative_tag) = [([-1], "refs/tags/v-1")] /\
  find_latest_stable_tag 4300 Py.unicode_14 sample_repo_negative_tag = Some "refs/tags/v-1" /\
  spec_select_latest 4300 Py.unicode_14 (references sample_repo_negative_tag) = None.
Proof. vm_compute. repeat split; reflexivity. Qed.

Lemma pull_up_to_date_witness :
  refs (repo sample_world) !! ("refs/remotes/" +:+ "origin" +:+ "/" +:+ "master") = Some "b2" /\
  Z.land (merge_analysis_result oracle_up_to_date sample_world "b2") GIT_MERGE_ANALYSIS_UP_TO_DATE <> 0 /\
  exists w',
    pull oracle_up_to_date "origin" "master" sample_world = (Ok tt, w') /\
    repo w' = repo sample_world /\
    stdout w' = (stdout sample_world ++ ["Already up to date."])%list /\
    calls w' = calls sample_world.
Proof.
  assert (H1 : refs (repo sample_world) !! ("refs/remotes/" +:+ "origin" +:+ "/" +:+ "master")
               = Some "b2") by (vm_compute; reflexivity).
  assert (H2 : Z.land (merge_analysis_result oracle_up_to_date sample_world "b2") GIT_MERGE_ANALYSIS_UP_TO_DATE <> 0)
    by (vm_compute; discriminate).
  split; [exact H1|]. split; [exact H2|].
  exact (pull_up_to_date oracle_up_to_date "origin" "master" sample_world "b2" H1 H2).
Defined.

Lemma pull_fast_forward_witness :
  checkout_conflict oracle_fast_forward sample_world (commit_tree sample_commit_B) = false /\
  exists w',
    pull oracle_fast_forward "origin" "master" sample_world = (Ok tt, w') /\
    refs (repo w') !! branch_ref "master" = Some "b2" /\
    head_oid (repo w') = Some "b2" /\
    workdir (repo w') = "tree-b" /\
    odb (repo w') = odb (repo sample_world).
Proof.
  assert (H1 : refs (repo sample_world) !! ("refs/remotes/" +:+ "origin" +:+ "/" +:+ "master")
               = Some "b2") by (vm_compute; reflexivity).
  assert (H2 : odb (repo sample_world) !! "b2" = Some sample_commit_B) by (vm_compute; reflexivity).
  assert (H3 : head_oid (repo sample_world) = Some "a1") by (vm_compute; reflexivity).
  assert (H4 : Z.land (merge_analysis_result oracle_fast_forward sample_world "b2") GIT_MERGE_ANALYSIS_UP_TO_DATE = 0)
    by (vm_compute; reflexivity).
  assert (H5 : Z.land (merge_analysis_result oracle_fast_forward sample_world "b2") GIT_MERGE_ANALYSIS_FASTFORWARD <> 0)
    by (vm_compute; discriminate).
  assert (H6 : checkout_conflict oracle_fast_forward sample_world (commit_tree sample_commit_B)
               = false) by reflexivity.
  split; [exact H6|].
  destruct (proj1 (pull_fast_forward oracle_fast_forward "origin" "master" sample_world "b2" "a1"
                     sample_commit_B H1 H2 H3 H4 H5) H6)
    as (w' & Hrun & Hb & Hh & Hw & _ & Ho & _).
  exists w'. repeat split; assumption.
Defined.

(** C4, as the claim words it, fails: the analysis says fast-forward,
    the remote commit is in the database, yet an untracked file in the
    way stops [repo.checkout_tree], which raises [GitError]: the branch
    and HEAD stay at the old commit and the tree is not checked out. *)
Lemma pull_fast_forward_checkout_stopped :
  refs (repo sample_world) !! ("refs/remotes/" +:+ "origin" +:+ "/" +:+ "master") = Some "b2" /\
  odb (repo sample_world) !! "b2" = Some sample_commit_B /\
  Z.land (merge_analysis_result oracle_checkout_stopped sample_world "b2")
         GIT_MERGE_ANALYSIS_UP_TO_DATE = 0 /\
  Z.land (merge_analysis_result oracle_checkout_stopped sample_world "b2")
         GIT_MERGE_ANALYSIS_FASTFORWARD <> 0 /\
  (pull oracle_checkout_stopped "origin" "master" sample_world).1 = Raise GitError /\
  refs (repo (pull oracle_checkout_stopped "origin" "master" sample_world).2)
    !! branch_ref "master" = Some "a1" /\
  head_oid (repo (pull oracle_checkout_stopped "origin" "master" sample_world).2) = Some "a1" /\
  workdir (repo (pull oracle_checkout_stopped "origin" "master" sample_world).2) = "tree-a" /\
  calls (pull oracle_checkout_stopped "origin" "master" sample_world).2
    = [CallCheckoutTree "b2"].
Proof. vm_compute. repeat split; try reflexivity. discriminate. Qed.

Lemma pull_conflicts_witness :
  exists w',
    pull oracle_conflict "origin" "master" sample_world
      = (Raise (RuntimeError "Merge conflicts detected. Aborting."), w') /\
    stdout w' = ["Conflict in: nodes.py"; "Conflict in: server.py";
                 "Conflict in: old_name.py"; "Conflict in: web/index.html"] /\
    odb (repo w') = odb (repo sample_world) /\
    state (repo w') = STATE_MERGE.
Proof.
  assert (H1 : refs (repo sample_world) !! ("refs/remotes/" +:+ "origin" +:+ "/" +:+ "master")
               = Some "b2") by (vm_compute; reflexivity).
  assert (H2 : Z.land (merge_analysis_result oracle_conflict sample_world "b2") GIT_MERGE_ANALYSIS_UP_TO_DATE = 0)
    by (vm_compute; reflexivity).
  assert (H3 : Z.land (merge_analysis_result oracle_conflict sample_world "b2") GIT_MERGE_ANALYSIS_FASTFORWARD = 0)
    by (vm_compute; reflexivity).
  assert (H4 : Z.land (merge_analysis_result oracle_conflict sample_world "b2") GIT_MERGE_ANALYSIS_NORMAL <> 0)
    by (vm_compute; discriminate).
  assert (H5 : merge_outcome oracle_conflict sample_world "b2" = (sample_merged_conflicted, "tree-m"))
    by (vm_compute; reflexivity).
  assert (H6 : index_conflicts sample_merged_conflicted <> []) by (vm_compute; discriminate).
  destruct (pull_conflicts oracle_conflict "origin" "master" sample_world "b2" sample_merged_conflicted "tree-m"
              H1 H2 H3 H4 H5 H6) as (w' & lines & Hrun & Hout & Hlines & Ho & _ & _ & _ & Hs & _).
  exists w'. split; [exact Hrun|]. split; [|split; assumption].
  rewrite Hout.
  change (index_conflicts sample_merged_conflicted) with sample_conflicts in Hlines.
  unfold sample_conflicts in Hlines.
  repeat match goal with
         | H : Forall2 _ (_ :: _) _ |- _ => apply Forall2_cons_inv_l in H as (? & ? & ? & H & ->)
         | H : Forall2 _ [] _ |- _ => apply Forall2_nil_inv_l in H as ->
         end.
  cbn beta iota in *. subst. reflexivity.
Defined.

Lemma pull_merge_commit_witness :
  exists w' oid,
    pull oracle_merge "origin" "master" sample_world = (Ok tt, w') /\
    odb (repo w') =
      <[oid := {| commit_tree := "tree-m"; commit_parents := ["a1"; "b2"];
                  commit_message := "Merge!"; commit_author := sample_user;
                  commit_committer := sample_user |}]> (odb (repo sample_world)) /\
    head_oid (repo w') = Some oid /\
    state (repo w') = STATE_NONE.
Proof.
  assert (H1 : refs (repo sample_world) !! ("refs/remotes/" +:+ "origin" +:+ "/" +:+ "master")
               = Some "b2") by (vm_compute; reflexivity).
  assert (H2 : Z.land (merge_analysis_result oracle_merge sample_world "b2") GIT_MERGE_ANALYSIS_UP_TO_DATE = 0)
    by (vm_compute; reflexivity).
  assert (H3 : Z.land (merge_analysis_result oracle_merge sample_world "b2") GIT_MERGE_ANALYSIS_FASTFORWARD = 0)
    by (vm_compute; reflexivity).
  assert (H4 : Z.land (merge_analysis_result oracle_merge sample_world "b2") GIT_MERGE_ANALYSIS_NORMAL <> 0)
    by (vm_compute; discriminate).
  assert (H5 : merge_outcome oracle_merge sample_world "b2" = (sample_merged_clean, "tree-m"))
    by (vm_compute; reflexivity).
  assert (H6 : index_conflicts sample_merged_clean = []) by reflexivity.
  assert (H7 : head_oid (repo sample_world) = Some "a1") by (vm_compute; reflexivity).
  assert (H8 : config_user (repo sample_world) = Some sample_user) by reflexivity.
  destruct (pull_merge_commit oracle_merge "origin" "master" sample_world "b2" "a1" sample_merged_clean
              "tree-m" sample_user H1 H2 H3 H4 H5 H6 H7 H8) as (w' & oid & Hrun & Ho & Hh & Hs & _).
  exists w', oid. repeat split; assumption.
Defined.

(** C5, as the claim words it, fails: the merge completes without
    conflicts, yet with no user configured [repo.default_signature]
    raises [KeyError]; no commit is written and the merge state stays. *)
Lemma pull_merge_without_identity :
  Z.land (merge_analysis_result oracle_merge sample_world_no_identity "b2")
         GIT_MERGE_ANALYSIS_UP_TO_DATE = 0 /\
  Z.land (merge_analysis_result oracle_merge sample_world_no_identity "b2")
         GIT_MERGE_ANALYSIS_FASTFORWARD = 0 /\
  Z.land (merge_analysis_result oracle_merge sample_world_no_identity "b2")
         GIT_MERGE_ANALYSIS_NORMAL <> 0 /\
  index_conflicts (merge_outcome oracle_merge sample_world_no_identity "b2").1 = [] /\
  (pull oracle_merge "origin" "master" sample_world_no_identity).1 = Raise KeyError /\
  odb (repo (pull oracle_merge "origin" "master" sample_world_no_identity).2)
    = odb (repo sample_world_no_identity) /\
  head_oid (repo (pull oracle_merge "origin" "master" sample_world_no_identity).2) = Some "a1" /\
  state (repo (pull oracle_merge "origin" "master" sample_world_no_identity).2) = STATE_MERGE /\
  calls (pull oracle_merge "origin" "master" sample_world_no_identity).2 = [CallMerge "b2"].
Proof. vm_compute. repeat split; try reflexivity. discriminate. Qed.

Lemma stash_changes_retry_witness :
  stash_outcome oracle_fast_forward (stash_world sample_world) updater_ident = inl GitError /\
  head_commit (repo sample_world) = Some ("a1", sample_commit_A) /\
  stash_outcome oracle_fast_forward (retry_world updater_ident "tree-a" sample_world) updater_ident
    = inl KeyError /\
  stash_changes oracle_fast_forward updater_ident sample_world =
    (Ok tt,
     {| repo := repo (retry_world updater_ident "tree-a" sample_world);
        stdout := (stdout (retry_world updater_ident "tree-a" sample_world)
                   ++ ["Nothing to stash."])%list;
        calls := (calls (retry_world updater_ident "tree-a" sample_world)
                  ++ [CallStash updater_ident])%list |}).
Proof.
  assert (H1 : stash_outcome oracle_fast_forward (stash_world sample_world) updater_ident
               = inl GitError) by reflexivity.
  assert (H2 : head_commit (repo sample_world) = Some ("a1", sample_commit_A))
    by (vm_compute; reflexivity).
  assert (H3 : stash_outcome oracle_fast_forward
                 (retry_world updater_ident "tree-a" sample_world) updater_ident
               = inl KeyError) by reflexivity.
  split; [exact H1|]. split; [exact H2|]. split; [exact H3|].
  destruct (proj2 (stash_changes_retry oracle_fast_forward updater_ident sample_world)
              GitError "a1" sample_commit_A H1 eq_refl eq_refl H2) as (_ & _ & _ & Hnothing & _).
  exact (Hnothing H3).
Defined.

Lemma fetch_without_origin_witness :
  (forall remote, remote ∈ remotes (repo sample_world_no_origin) -> remote_name remote <> "origin") /\
  exists w',
    fetch_from_origin oracle_fast_forward true sample_world_no_origin = (Ok tt, w') /\
    repo w' = repo sample_world_no_origin /\
    calls w' = calls sample_world_no_origin.
Proof.
  assert (H : forall remote, remote ∈ remotes (repo sample_world_no_origin) ->
                             remote_name remote <> "origin").
  { intros remote Hin. apply list_elem_of_singleton in Hin. subst remote.
    vm_compute. discriminate. }
  split; [exact H|].
  destruct (fetch_without_origin oracle_fast_forward 4300 Py.unicode_14 true sample_world_no_origin H)
    as (w' & Hrun & Hr & Hc & _).
  exists w'. repeat split; assumption.
Defined.

Lemma backup_branch_keeps_pre_update_head_witness :
  stdout (main oracle_fast_forward 4300 Py.unicode_14 sample_argv sample_world).2
    = (stdout sample_world ++ sample_output)%list /\
  ("[BACKUP_BRANCH] " +:+ "backup_branch_2026-03-07_09_05_00") ∈ sample_output /\
  exists pre,
    head_oid (repo sample_world) = Some pre /\
    ("[PRE_UPDATE_HEAD] " +:+ pre) ∈ sample_output /\
    refs (repo (main oracle_fast_forward 4300 Py.unicode_14 sample_argv sample_world).2)
      !! branch_ref "backup_branch_2026-03-07_09_05_00" = Some pre.
Proof.
  assert (H1 : stdout (main oracle_fast_forward 4300 Py.unicode_14 sample_argv sample_world).2
               = (stdout sample_world ++ sample_output)%list)
    by (vm_compute; reflexivity).
  assert (H2 : ("[BACKUP_BRANCH] " +:+ "backup_branch_2026-03-07_09_05_00") ∈ sample_output).
  { apply list_elem_of_In. vm_compute. tauto. }
  split; [exact H1|]. split; [exact H2|].
  exact (backup_branch_keeps_pre_update_head oracle_fast_forward 4300 Py.unicode_14 sample_argv sample_world
           sample_output "backup_branch_2026-03-07_09_05_00" H1 H2).
Defined.

Example main_sample_run :
  (main oracle_fast_forward 4300 Py.unicode_14 sample_argv sample_world).1 = Ok tt /\
  stdout (main oracle_fast_forward 4300 Py.unicode_14 sample_argv sample_world).2 = sample_output /\
  HEAD (repo (main oracle_fast_forward 4300 Py.unicode_14 sample_argv sample_world).2) = Detached "b2" /\
  refs (repo (main oracle_fast_forward 4300 Py.unicode_14 sample_argv sample_world).2)
    !! "refs/heads/backup_branch_2026-03-07_09_05_00" = Some "a1" /\
  refs (repo (main oracle_fast_forward 4300 Py.unicode_14 sample_argv sample_world).2)
    !! "refs/heads/master" = Some "b2".
Proof. vm_compute. repeat split; reflexivity. Qed.

(** The fast-forward path when HEAD is detached and there is no local
    master: the branch is created at the remote commit and HEAD moves to
    it. *)
Example pull_fast_forward_creates_branch :
  let detached :=
    {| repo := with_HEAD (Detached "a1")
                 (with_refs (<["refs/remotes/origin/master" := "b2"]> ∅) sample_repo);
       stdout := []; calls := [] |} in
  (pull oracle_fast_forward "origin" "master" detached).1 = Ok tt /\
  refs (repo (pull oracle_fast_forward "origin" "master" detached).2) !! "refs/heads/master"
    = Some "b2" /\
  HEAD (repo (pull oracle_fast_forward "origin" "master" detached).2) = Detached "b2" /\
  workdir (repo (pull oracle_fast_forward "origin" "master" detached).2) = "tree-b" /\
  calls (pull oracle_fast_forward "origin" "master" detached).2
    = [CallCheckoutTree "b2"; CallCreateBranch "master" "b2"; CallSetTarget "HEAD" "b2"].
Proof. vm_compute. repeat split; reflexivity. Qed.

Example int_examples :
  Py.int 4300 Py.unicode_14 "10" = Some 10 /\ Py.int 4300 Py.unicode_14 "007" = Some 7 /\ Py.int 4300 Py.unicode_14 "-1" = Some (-1) /\
  Py.int 4300 Py.unicode_14 "+3" = Some 3 /\ Py.int 4300 Py.unicode_14 "1_0" = Some 10 /\ Py.int 4300 Py.unicode_14 " 4 " = Some 4 /\
  Py.int 4300 Py.unicode_14 "" = None /\ Py.int 4300 Py.unicode_14 "0-rc" = None /\ Py.int 4300 Py.unicode_14 "_1" = None /\
  Py.int 4300 Py.unicode_14 "1__0" = None /\ Py.int 4300 Py.unicode_14 "1_" = None /\ Py.int 4300 Py.unicode_14 "--1" = None /\
  Py.int 4300 Py.unicode_14 "0x1" = None.
Proof. vm_compute. repeat split; reflexivity. Qed.

(** [int()] reads the decimal digits and the whitespace of every script:
    Arabic-Indic, Devanagari, fullwidth and mathematical digits, a
    no-break space, an ideographic space; a Roman numeral, a superscript
    and a zero-width space are refused.  A tag written with such digits
    is a version tag like any other. *)
Example int_unicode_examples :
  Py.int 4300 Py.unicode_14 "٣" = Some 3 /\ Py.int 4300 Py.unicode_14 "7 " = Some 7 /\
  Py.int 4300 Py.unicode_14 "१२" = Some 12 /\ Py.int 4300 Py.unicode_14 "1٢" = Some 12 /\
  Py.int 4300 Py.unicode_14 "-٣" = Some (-3) /\ Py.int 4300 Py.unicode_14 "٣_٣" = Some 33 /\
  Py.int 4300 Py.unicode_14 "１２" = Some 12 /\ Py.int 4300 Py.unicode_14 "𝟏𝟐" = Some 12 /\
  Py.int 4300 Py.unicode_14 "　٣ " = Some 3 /\ Py.int 4300 Py.unicode_14 "٣?" = None /\
  Py.int 4300 Py.unicode_14 "Ⅲ" = None /\ Py.int 4300 Py.unicode_14 "²" = None /\
  Py.int 4300 Py.unicode_14 " " = None /\ Py.int 4300 Py.unicode_14 "é" = None /\
  Py.int 4300 Py.unicode_14 "٣​" = None /\ Py.int 4300 Py.unicode_14 "- ٣" = None /\
  find_latest_stable_tag 4300 Py.unicode_14 sample_repo_unicode_tags = Some "refs/tags/v٣".
Proof. vm_compute. repeat split; reflexivity. Qed.

(** The backup step when a branch of that name already exists: a warning,
    no marker, nothing changed, and the step returns normally. *)
Example create_backup_branch_collision :
  let taken := with_refs (<["refs/heads/backup_branch_2026-03-07_09_05_00" := "b2"]>
                            (refs sample_repo)) sample_repo in
  create_backup_branch oracle_fast_forward {| repo := taken; stdout := []; calls := [] |} =
  (Ok tt,
   {| repo := taken;
      stdout := ["Creating backup branch: backup_branch_2026-03-07_09_05_00";
                 "Warning: could not create backup branch."];
      calls := [CallCreateBranch "backup_branch_2026-03-07_09_05_00" "a1"] |}).
Proof. vm_compute. reflexivity. Qed.

Example find_latest_stable_tag_examples :
  collect_versions 4300 Py.unicode_14
    ["refs/tags/v1.2.3"; "refs/heads/master"; "refs/tags/v1.10.0"; "refs/tags/v2.0.0";
     "refs/tags/v2.0.0-rc"; "refs/tags/v"; "refs/tags/v1..2"; "refs/tags/v1_0"; "refs/tags/latest"]
  = [([1; 2; 3], "refs/tags/v1.2.3"); ([1; 10; 0], "refs/tags/v1.10.0");
     ([2; 0; 0], "refs/tags/v2.0.0"); ([10], "refs/tags/v1_0")] /\
  latest_of [([1; 2; 3], "refs/tags/v1.2.3"); ([1; 10; 0], "refs/tags/v1.10.0");
             ([2; 0; 0], "refs/tags/v2.0.0")] = Some "refs/tags/v2.0.0" /\
  Py.remove_all "refs/tags/" "refs/tags/v1.10.0" = "v1.10.0" /\
  Py.rstrip "/\" "/srv/ComfyUI//\" = "/srv/ComfyUI".
Proof. vm_compute. repeat split; reflexivity. Qed.

(** * Further properties *)

(** ** The order of the version tags *)

Lemma string_compare_trans (a b c : string) :
  String.compare a b <> Gt -> String.compare b c <> Gt -> String.compare a c <> Gt.
Proof.
  revert b c. induction a as [|x a IH]; intros [|y b] [|z c]; simpl; try congruence.
  unfold Ascii.compare.
  destruct (N.compare_spec (N_of_ascii x) (N_of_ascii y)) as [Exy|Hxy|Hxy],
           (N.compare_spec (N_of_ascii y) (N_of_ascii z)) as [Eyz|Hyz|Hyz],
           (N.compare_spec (N_of_ascii x) (N_of_ascii z)) as [Exz|Hxz|Hxz];
    try congruence; try lia; eauto.
Qed.

Lemma string_compare_refl (s : string) : String.compare s s = Eq.
Proof.
  induction s as [|c s IH]; simpl; [done|].
  unfold Ascii.compare. by rewrite N.compare_refl.
Qed.

Lemma tuple_compare_eq (a b : list Z) : Py.tuple_compare a b = Eq -> a = b.
Proof.
  revert b. induction a as [|x a IH]; intros [|y b]; simpl; try congruence.
  destruct (Z.compare_spec x y) as [->|?|?]; try congruence. intros Hab. f_equal; auto.
Qed.

Lemma tuple_compare_Lt_trans (a b c : list Z) :
  Py.tuple_compare a b <> Gt -> Py.tuple_compare b c <> Gt ->
  Py.tuple_compare a c = Eq -> Py.tuple_compare a b = Eq /\ Py.tuple_compare b c = Eq.
Proof.
  revert b c. induction a as [|x a IH]; intros [|y b] [|z c]; simpl; try congruence; try tauto.
  destruct (Z.compare_spec x y), (Z.compare_spec y z), (Z.compare_spec x z);
    try congruence; try lia; eauto.
Qed.

#[local] Instance pair_le_trans : Transitive Py.pair_le.
Proof.
  intros x y z. unfold Py.pair_le, Py.pair_compare. intros Hxy Hyz.
  assert (H1 : Py.tuple_compare x.1 y.1 <> Gt) by (destruct (Py.tuple_compare x.1 y.1); congruence).
  assert (H2 : Py.tuple_compare y.1 z.1 <> Gt) by (destruct (Py.tuple_compare y.1 z.1); congruence).
  pose proof (tuple_compare_trans _ _ _ H1 H2) as H3.
  destruct (Py.tuple_compare x.1 z.1) eqn:Hxz; try congruence.
  destruct (tuple_compare_Lt_trans _ _ _ H1 H2 Hxz) as [E1 E2].
  rewrite E1 in Hxy. rewrite E2 in Hyz. by eapply string_compare_trans.
Qed.

#[local] Instance pair_le_antisym : AntiSymm (=) Py.pair_le.
Proof.
  intros [p n] [q m]. unfold Py.pair_le, Py.pair_compare. simpl.
  rewrite (tuple_compare_antisym q p), (String.compare_antisym n m).
  destruct (Py.tuple_compare p q) eqn:Hc; simpl; try congruence.
  apply tuple_compare_eq in Hc as ->.
  destruct (String.compare m n) eqn:Hs; simpl; try congruence.
  apply String.compare_eq_iff in Hs as ->. done.
Qed.

Lemma sort_Permutation (l1 l2 : list (list Z * string)) :
  l1 ≡ₚ l2 -> Py.sort l1 = Py.sort l2.
Proof.
  intros H. unfold Py.sort. apply (Sorted_unique Py.pair_le).
  - apply Sorted_merge_sort, _.
  - apply Sorted_merge_sort, _.
  - by rewrite !merge_sort_Permutation.
Qed.

Lemma sort_last_max (l : list (list Z * string)) x :
  last (Py.sort l) = Some x -> forall y, y ∈ l -> Py.pair_le y x.
Proof.
  unfold Py.sort. intros Hl y Hy.
  assert (Hs : StronglySorted Py.pair_le (merge_sort Py.pair_le l))
    by (apply StronglySorted_merge_sort; apply _).
  rewrite <- (merge_sort_Permutation Py.pair_le l) in Hy.
  revert Hs Hl Hy. generalize (merge_sort Py.pair_le l). clear l.
  induction 1 as [|a l Hl IH Ha]; intros Hlast Hy; [by inversion Hy|].
  destruct l as [|b l'].
  - simpl in Hlast. injection Hlast as <-. apply list_elem_of_singleton in Hy as ->.
    unfold Py.pair_le, Py.pair_compare. rewrite tuple_compare_refl.
    rewrite string_compare_refl. congruence.
  - change (last (a :: b :: l')) with (last (b :: l')) in Hlast.
    apply elem_of_cons in Hy as [->|Hy]; [|by apply IH].
    rewrite Forall_forall in Ha. apply Ha. by eapply last_Some_elem_of.
Qed.

(** X1: the result does not depend on the order in which
    [repo.references] lists the names, nor on what the references point
    to: only on the set of names. *)
Theorem find_latest_stable_tag_order_independent (maxd : nat) (unicode : Py.Unicode) :
  (forall l1 l2 : list string,
      l1 ≡ₚ l2 ->
      latest_of (collect_versions maxd unicode l1) = latest_of (collect_versions maxd unicode l2)) /\
  (forall r1 r2 : Repo,
      (forall name, is_Some (refs r1 !! name) <-> is_Some (refs r2 !! name)) ->
      find_latest_stable_tag maxd unicode r1 = find_latest_stable_tag maxd unicode r2).
Proof.
  assert (Hperm : forall l1 l2 : list string,
      l1 ≡ₚ l2 ->
      latest_of (collect_versions maxd unicode l1) = latest_of (collect_versions maxd unicode l2)).
  { intros l1 l2 H. unfold latest_of. rewrite !collect_versions_omap.
    rewrite (sort_Permutation (omap (parse_tag maxd unicode) l1) (omap (parse_tag maxd unicode) l2)); [done|].
    by rewrite H. }
  split; [exact Hperm|].
  intros r1 r2 Hdom. unfold find_latest_stable_tag. apply Hperm.
  apply NoDup_Permutation; try apply NoDup_fst_map_to_list.
  intros name. by rewrite !elem_of_references.
Qed.

(** X2: the tag returned is the greatest pair (integer tuple, reference
    name): among tags with the same integer tuple, such as v1.0 and
    v01.0, the one whose name is last in string order is returned. *)
Theorem find_latest_stable_tag_tie_break (maxd : nat) (unicode : Py.Unicode) (repo : Repo) (tag : string) :
  find_latest_stable_tag maxd unicode repo = Some tag ->
  exists parts,
    (parts, tag) ∈ collect_versions maxd unicode (references repo) /\
    forall parts' name',
      (parts', name') ∈ collect_versions maxd unicode (references repo) ->
      Py.tuple_compare parts' parts = Lt \/
      (parts' = parts /\ String.compare name' tag <> Gt).
Proof.
  unfold find_latest_stable_tag, latest_of.
  destruct (last (Py.sort _)) as [[parts t]|] eqn:Hl; [|done].
  intros [= <-]. exists parts. split.
  - unfold Py.sort in Hl. rewrite <- (merge_sort_Permutation Py.pair_le).
    by eapply last_Some_elem_of.
  - intros parts' name' Hin.
    pose proof (sort_last_max _ _ Hl _ Hin) as Hle.
    unfold Py.pair_le, Py.pair_compare in Hle. simpl in Hle.
    destruct (Py.tuple_compare parts' parts) eqn:Hc; try congruence; [|by left].
    right. by apply tuple_compare_eq in Hc.
Qed.

(** *** The short name of the tag *)

Lemma all_space_int_chars (s : string) :
  Py.all_space s = true -> all_chars int_char s = true.
Proof.
  induction s as [|c s IH]; simpl; [done|].
  intros [Hc Hs]%andb_true_iff. unfold int_char. rewrite Hc. simpl. auto.
Qed.

Lemma int_digits_chars (s : string) pd acc n v k rest :
  Py.int_digits s pd acc n = Some (v, k, rest) ->
  all_chars int_char rest = true -> all_chars int_char s = true.
Proof.
  revert pd acc n. induction s as [|c s IH]; intros pd acc n; simpl.
  - destruct pd; [|done]. by intros [= <- <- <-].
  - destruct (Py.digit_of c) as [d|] eqn:Hd.
    + intros H Hr. rewrite (IH _ _ _ H Hr), andb_true_r. unfold int_char. rewrite Hd.
      rewrite (bool_decide_eq_true_2 _ (mk_is_Some _ _ eq_refl)).
      by rewrite orb_true_r.
    + destruct (Ascii.eqb c "_") eqn:Hu.
      * destruct pd; [|done]. intros H Hr. rewrite (IH _ _ _ H Hr), andb_true_r.
        unfold int_char. rewrite Hu. by rewrite !orb_true_r.
      * destruct pd; [|done]. intros [= <- <- <-]. simpl. done.
Qed.

Lemma lstrip_space_chars (s : string) :
  all_chars int_char (Py.lstrip_space s) = true -> all_chars int_char s = true.
Proof.
  induction s as [|c s IH]; simpl; [done|].
  destruct (Py.is_space c) eqn:Hc; [|done].
  intros H. rewrite (IH H), andb_true_r. unfold int_char. by rewrite Hc.
Qed.

Lemma int_ascii_chars (maxd : nat) (s : string) (z : Z) :
  Py.int_ascii maxd s = Some z -> all_chars int_char s = true.
Proof.
  unfold Py.int_ascii. intros H. apply lstrip_space_chars.
  destruct (Py.lstrip_space s) as [|c r] eqn:Hs; [done|].
  assert (Hcases : forall neg s2,
    match Py.int_digits s2 false 0 0 with
    | Some (v, n, rest) =>
        if negb (Py.all_space rest) then None
        else if Nat.ltb Py.str_digits_check_threshold n && Nat.ltb 0 maxd && Nat.ltb maxd n
             then None else Some (if neg : bool then - v else v)
    | None => None
    end = Some z -> all_chars int_char s2 = true).
  { intros neg s2. destruct (Py.int_digits s2 false 0 0) as [[[v n] rest]|] eqn:Hd; [|done].
    destruct (Py.all_space rest) eqn:Hr; [|done]. intros _.
    eapply int_digits_chars; [exact Hd|]. by apply all_space_int_chars. }
  destruct (Ascii.ascii_dec c "-") as [->|Hm]; [|destruct (Ascii.ascii_dec c "+") as [->|Hp]].
  - simpl. by apply (Hcases true r).
  - simpl. by apply (Hcases false r).
  - apply (Hcases false (String c r)).
    destruct c as [[] [] [] [] [] [] [] []]; try exact H; congruence.
Qed.

Lemma all_chars_impl (p q : ascii -> bool) (s : string) :
  (forall c, p c = true -> q c = true) -> all_chars p s = true -> all_chars q s = true.
Proof.
  intros Hpq. induction s as [|c s IH]; simpl; [done|].
  intros [Hc Hs]%andb_true_iff. by rewrite (Hpq c Hc), IH.
Qed.

(** The text handed to the parser has a question mark wherever a
    character is neither a digit nor whitespace, so an accepted text
    tells what the ASCII characters of the original were. *)
Lemma transform_chars (unicode : Py.Unicode) (chars : list N) :
  all_chars int_char (Py.transform_decimal_and_space unicode chars) = true ->
  Forall (fun ch => (ch <? 127)%N = true -> int_char (ascii_of_N ch) = true) chars.
Proof.
  induction chars as [|ch chars IH]; [constructor|]. cbn [Py.transform_decimal_and_space].
  destruct (ch <? 127)%N eqn:Hch.
  - simpl. intros [Hc Hs]%andb_true_iff. constructor; auto.
  - destruct (Py.is_whitespace unicode ch).
    + simpl. intros Hs. constructor; [congruence|auto].
    + destruct (Py.to_decimal unicode ch) as [d|]; [|done].
      destruct ((0 <=? d) && (d <=? 9)); [|done].
      simpl. intros [_ Hs]%andb_true_iff. constructor; [congruence|auto].
Qed.

Lemma continuation_high (c : ascii) (x : N) : Py.continuation c = Some x -> high_byte c = true.
Proof.
  unfold Py.continuation, high_byte.
  destruct ((128 <=? N_of_ascii c) && (N_of_ascii c <? 192))%N eqn:H; [|done].
  intros _. apply andb_true_iff in H as [H _]. apply N.leb_le in H. apply N.leb_le. lia.
Qed.

Lemma lead_high (c : ascii) : (N_of_ascii c <? 128)%N = false -> high_byte c = true.
Proof. unfold high_byte. intros H%N.ltb_ge. apply N.leb_le. lia. Qed.

(** The bytes of a text, from its code points: an ASCII character is its
    own byte, any other is encoded by bytes from 128 on. *)
Lemma code_points_bytes (p : ascii -> bool) (n : nat) :
  forall (s : string) (chars : list N),
    (String.length s <= n)%nat ->
    Py.code_points s = Some chars ->
    Forall (fun ch => (ch <? 127)%N = true -> p (ascii_of_N ch) = true) chars ->
    all_chars (fun c => p c || high_byte c) s = true.
Proof.
  induction n as [|n IH]; intros s chars Hlen; destruct s as [|c0 s1]; try done;
    simpl in Hlen; [lia|].
  cbn [Py.code_points].
  destruct (N_of_ascii c0 <? 128)%N eqn:H0.
  { intros (t & Ht & ->)%fmap_Some [Hc Hrest]%Forall_cons. simpl.
    rewrite (IH s1 t) by (done || lia). rewrite andb_true_r.
    destruct (N_of_ascii c0 <? 127)%N eqn:H1.
    - rewrite ascii_N_embedding in Hc. by rewrite Hc.
    - unfold high_byte. apply N.ltb_ge in H1. rewrite (proj2 (N.leb_le _ _) H1).
      by rewrite orb_true_r. }
  pose proof (lead_high _ H0) as Hh0.
  destruct (N_of_ascii c0 <? 194)%N; [done|].
  destruct (N_of_ascii c0 <? 224)%N.
  { destruct s1 as [|c1 s2]; [done|]. simpl in Hlen.
    destruct (Py.continuation c1) as [x1|] eqn:H1; [|done].
    intros (t & Ht & ->)%fmap_Some [_ Hrest]%Forall_cons. simpl.
    rewrite (IH s2 t) by (done || lia).
    by rewrite Hh0, (continuation_high _ _ H1), !orb_true_r. }
  destruct (N_of_ascii c0 <? 240)%N.
  { destruct s1 as [|c1 [|c2 s3]]; [done..|]. simpl in Hlen.
    destruct (Py.continuation c1) as [x1|] eqn:H1; [|done].
    destruct (Py.continuation c2) as [x2|] eqn:H2; [|done].
    match goal with |- context [if ?b then _ else _] => destruct b end; [|done].
    intros (t & Ht & ->)%fmap_Some [_ Hrest]%Forall_cons. simpl.
    rewrite (IH s3 t) by (done || lia).
    by rewrite Hh0, (continuation_high _ _ H1), (continuation_high _ _ H2), !orb_true_r. }
  destruct (N_of_ascii c0 <? 245)%N; [|done].
  destruct s1 as [|c1 [|c2 [|c3 s4]]]; [done..|]. simpl in Hlen.
  destruct (Py.continuation c1) as [x1|] eqn:H1; [|done].
  destruct (Py.continuation c2) as [x2|] eqn:H2; [|done].
  destruct (Py.continuation c3) as [x3|] eqn:H3; [|done].
  match goal with |- context [if ?b then _ else _] => destruct b end; [|done].
  intros (t & Ht & ->)%fmap_Some [_ Hrest]%Forall_cons. simpl.
  rewrite (IH s4 t) by (done || lia).
  by rewrite Hh0, (continuation_high _ _ H1), (continuation_high _ _ H2),
    (continuation_high _ _ H3), !orb_true_r.
Qed.

Lemma int_chars (maxd : nat) (unicode : Py.Unicode) (s : string) (z : Z) :
  Py.int maxd unicode s = Some z -> all_chars component_char s = true.
Proof.
  unfold Py.int. destruct (Py.code_points s) as [chars|] eqn:Hchars; [|done].
  destruct (forallb _ chars).
  - intros H%int_ascii_chars. revert H. apply all_chars_impl.
    intros c Hc. unfold component_char. by rewrite Hc.
  - intros H%int_ascii_chars%transform_chars.
    by apply (code_points_bytes int_char (String.length s) s chars).
Qed.

Lemma split_chars (s : string) :
  Forall (fun component => all_chars component_char component = true) (Py.split "."%char s) ->
  all_chars version_char s = true.
Proof.
  induction s as [|c s IH]; simpl; [done|].
  destruct (Ascii.eqb c ".") eqn:Hc.
  - intros [_ H]%Forall_cons. rewrite (IH H), andb_true_r.
    unfold version_char. rewrite Hc. by rewrite orb_true_r.
  - destruct (Py.split "." s) as [|h t] eqn:Hs.
    + intros _. exfalso. destruct s; simpl in Hs; [done|].
      destruct (Ascii.eqb _ _); [done|]. by destruct (Py.split "." s).
    + intros [Hh Ht]%Forall_cons. simpl in Hh. apply andb_true_iff in Hh as [Hch Hh].
      rewrite IH by (by constructor). unfold version_char. by rewrite Hch.
Qed.

Lemma version_char_not_r (c : ascii) : version_char c = true -> Ascii.eqb c "r" = false.
Proof. destruct c as [[] [] [] [] [] [] [] []]; vm_compute; congruence. Qed.

Lemma remove_all_fuel_version (fuel : nat) (s : string) :
  all_chars version_char s = true -> Py.remove_all_fuel fuel "refs/tags/" s = s.
Proof.
  revert s. induction fuel as [|fuel IH]; intros s; [done|].
  destruct s as [|c s]; [done|]. simpl all_chars.
  intros [Hc Hs]%andb_true_iff. apply version_char_not_r in Hc.
  cbn [Py.remove_all_fuel Py.startswith].
  rewrite Ascii.eqb_sym, Hc. simpl. by rewrite IH.
Qed.

Lemma remove_all_fuel_tag (fuel : nat) (suffix : string) :
  Py.remove_all_fuel (S (S fuel)) "refs/tags/" ("refs/tags/v" +:+ suffix)
  = String "v" (Py.remove_all_fuel fuel "refs/tags/" suffix).
Proof. reflexivity. Qed.

Lemma find_latest_stable_tag_form (maxd : nat) (unicode : Py.Unicode) (repo : Repo) (tag : string) :
  find_latest_stable_tag maxd unicode repo = Some tag ->
  exists suffix,
    tag = "refs/tags/v" +:+ suffix /\
    is_Some (refs repo !! tag) /\
    all_chars version_char suffix = true /\
    Py.remove_all "refs/tags/" tag = "v" +:+ suffix.
Proof.
  intros Hfind. destruct (latest_of_Some _ _ Hfind) as (parts & Hin & _).
  apply elem_of_collect_versions in Hin as (Href & suffix & -> & Hparts).
  apply elem_of_references in Href.
  assert (Hchars : all_chars version_char suffix = true).
  { apply split_chars. apply mapM_Some_1 in Hparts.
    induction Hparts as [|x y l k Hxy _ IH]; constructor; [|exact IH].
    by eapply int_chars. }
  exists suffix. repeat split; try done.
  unfold Py.remove_all, tag_prefix.
  change (String.length ("refs/tags/v" +:+ suffix)) with (S (10 + String.length suffix))%nat.
  rewrite remove_all_fuel_tag. by rewrite remove_all_fuel_version.
Qed.

(** X3: the tag returned is an existing reference named
    [refs/tags/v<suffix>] whose suffix holds, beside the bytes of
    characters that are not ASCII (the digits and blanks of other
    scripts), only ASCII digits, dots, signs, underscores and blanks;
    the name printed after [CHECKED_OUT_TAG],
    [tag.replace("refs/tags/", "")], is exactly [v<suffix>]: nothing
    else of the name is removed. *)
Theorem find_latest_stable_tag_short_name (maxd : nat) (unicode : Py.Unicode) (repo : Repo) (tag : string) :
  find_latest_stable_tag maxd unicode repo = Some tag ->
  exists suffix,
    tag = "refs/tags/v" +:+ suffix /\
    is_Some (refs repo !! tag) /\
    all_chars version_char suffix = true /\
    Py.remove_all "refs/tags/" tag = "v" +:+ suffix.
Proof. apply find_latest_stable_tag_form. Qed.

(** ** [pull]: errors and what it leaves alone *)

(** X4: without the remote-tracking reference [pull] raises [KeyError]
    at once: nothing is printed, no backend call that changes anything
    is made and the repository is untouched. *)
Theorem pull_missing_remote_reference (O : Oracle) (remote_name branch : string) (w : World) :
  refs (repo w) !! ("refs/remotes/" +:+ remote_name +:+ "/" +:+ branch) = None ->
  pull O remote_name branch w = (Raise KeyError, w).
Proof. intros Href. pull_start Href. reflexivity. Qed.

(** X5: a merge analysis with none of the up-to-date, fast-forward and
    normal bits makes [pull] raise [RuntimeError] without printing,
    calling or changing anything. *)
Theorem pull_unknown_analysis (O : Oracle) (remote_name branch : string) (w : World)
    (remote_id : Oid) :
  refs (repo w) !! ("refs/remotes/" +:+ remote_name +:+ "/" +:+ branch) = Some remote_id ->
  Z.land (merge_analysis_result O w remote_id) GIT_MERGE_ANALYSIS_UP_TO_DATE = 0 ->
  Z.land (merge_analysis_result O w remote_id) GIT_MERGE_ANALYSIS_FASTFORWARD = 0 ->
  Z.land (merge_analysis_result O w remote_id) GIT_MERGE_ANALYSIS_NORMAL = 0 ->
  pull O remote_name branch w = (Raise (RuntimeError "Unknown merge analysis result"), w).
Proof.
  intros Href Hup Hff Hnormal. pull_start Href.
  rewrite (truthy_false _ Hup), (truthy_false _ Hff), (truthy_false _ Hnormal). reflexivity.
Qed.

(** X6: a conflict-free merge in a repository with no configured user
    ends in [KeyError] from [repo.default_signature]: the merge result is
    in the index and the working directory, the repository is left in
    the merging state, and no commit is written (the merge is the only
    call made). *)
Theorem pull_merge_needs_signature (O : Oracle) (remote_name branch : string) (w : World)
    (remote_id : Oid) (idx : Index) (tree : Oid) :
  refs (repo w) !! ("refs/remotes/" +:+ remote_name +:+ "/" +:+ branch) = Some remote_id ->
  Z.land (merge_analysis_result O w remote_id) GIT_MERGE_ANALYSIS_UP_TO_DATE = 0 ->
  Z.land (merge_analysis_result O w remote_id) GIT_MERGE_ANALYSIS_FASTFORWARD = 0 ->
  Z.land (merge_analysis_result O w remote_id) GIT_MERGE_ANALYSIS_NORMAL <> 0 ->
  merge_outcome O w remote_id = (idx, tree) ->
  index_conflicts idx = [] ->
  config_user (repo w) = None ->
  pull O remote_name branch w =
  (Raise KeyError,
   {| repo := with_state STATE_MERGE (with_workdir tree (with_index idx (repo w)));
      stdout := stdout w;
      calls := (calls w ++ [CallMerge remote_id])%list |}).
Proof.
  intros Href Hup Hff Hnormal Hmerge Hconf Huser. pull_start Href.
  rewrite (truthy_false _ Hup), (truthy_false _ Hff), (truthy_true _ Hnormal).
  run_M. rewrite Hmerge. run_M. rewrite Hconf. run_M. rewrite Huser. reflexivity.
Qed.

(** [pull] never detaches HEAD nor moves it to another branch. *)
Lemma pull_HEAD_attached (O : Oracle) (remote_name branch b : string) (w : World) :
  HEAD (repo w) = OnBranch b ->
  HEAD (repo (pull O remote_name branch w).2) = OnBranch b.
Proof.
  intros HH. unfold pull.
  pose proof (@for_each_print _ conflict_line) as Hp. unfold print in Hp.
  crunch_using ltac:(rewrite ?Hp, ?HH); congruence.
Qed.

Lemma pull_refs (O : Oracle) (remote_name branch : string) (w : World) (name : string) :
  name <> branch_ref branch ->
  (forall b, HEAD (repo w) = OnBranch b -> name <> branch_ref b) ->
  refs (repo (pull O remote_name branch w).2) !! name = refs (repo w) !! name.
Proof.
  intros Hbranch Hhead.
  pose proof (@for_each_print _ conflict_line) as Hp. unfold print in Hp.
  unfold pull. crunch_using ltac:(rewrite ?Hp);
    change ("refs/heads/" +:+ branch) with (branch_ref branch) in *;
    try match type of Hhead with
        | forall b, OnBranch ?b0 = OnBranch b -> _ => pose proof (Hhead b0 eq_refl)
        end;
    rewrite ?lookup_insert_ne by congruence; reflexivity.
Qed.

(** X7: [pull] writes to no reference other than [refs/heads/<branch>]
    and the branch HEAD is attached to: tags, remote-tracking references
    and the other branches keep their targets, whatever path is taken and
    whether it returns or raises.  HEAD stays attached to its branch, and
    the remotes and the configured user are not changed. *)
Theorem pull_writes_only_its_branches (O : Oracle) (remote_name branch : string) (w : World)
    (name : string) :
  name <> branch_ref branch ->
  (forall b, HEAD (repo w) = OnBranch b -> name <> branch_ref b) ->
  refs (repo (pull O remote_name branch w).2) !! name = refs (repo w) !! name /\
  (forall b, HEAD (repo w) = OnBranch b -> HEAD (repo (pull O remote_name branch w).2) = OnBranch b) /\
  remotes (repo (pull O remote_name branch w).2) = remotes (repo w) /\
  config_user (repo (pull O remote_name branch w).2) = config_user (repo w).
Proof.
  intros Hbranch Hhead.
  pose proof (@for_each_print _ conflict_line) as Hp. unfold print in Hp.
  split; [|split; [|split]].
  - by apply pull_refs.
  - intros b HH. by apply pull_HEAD_attached.
  - unfold pull. crunch_using ltac:(rewrite ?Hp).
  - unfold pull. crunch_using ltac:(rewrite ?Hp); assumption.
Qed.

(** ** The steps of [main]: errors and frames *)

(** X8: with fewer than two arguments [main] prints the usage line and
    exits with status 1 before any backend call: the repository is not
    even opened. *)
Theorem main_usage (O : Oracle) (int_max_str_digits : nat) (unicode : Py.Unicode) (argv : list string) (w : World) :
  (length argv < 2)%nat ->
  main O int_max_str_digits unicode argv w =
  (Raise (SystemExit 1),
   {| repo := repo w;
      stdout := (stdout w ++ ["Usage: python update_comfyui.py <repo_path> [--stable]"])%list;
      calls := calls w |}).
Proof.
  intros Hlen. unfold main. rewrite (proj2 (Nat.ltb_lt _ _) Hlen). reflexivity.
Qed.

Lemma stash_changes_frame (O : Oracle) (ident : Signature) (w : World) (name : string) :
  name <> "refs/stash" ->
  HEAD (repo (stash_changes O ident w).2) = HEAD (repo w) /\
  refs (repo (stash_changes O ident w).2) !! name = refs (repo w) !! name.
Proof.
  intros Hname. split; unfold stash_changes; crunch;
    repeat match goal with
           | |- context [match ?x with _ => _ end] => destruct x eqn:?; run_M
           end;
    rewrite ?lookup_insert_ne by congruence; try reflexivity; congruence.
Qed.

(** X9: the stash step, whatever the stash attempts do, leaves HEAD
    and every reference other than [refs/stash] where they were. *)
Theorem stash_changes_keeps_references (O : Oracle) (ident : Signature) (w : World)
    (name : string) :
  name <> "refs/stash" ->
  HEAD (repo (stash_changes O ident w).2) = HEAD (repo w) /\
  refs (repo (stash_changes O ident w).2) !! name = refs (repo w) !! name.
Proof. apply stash_changes_frame. Qed.

Lemma fetch_loop_find (O : Oracle) (stable : bool) (rs : list Remote) :
  fetch_loop O stable rs =
  match find_origin rs with
  | Some remote => remote_fetch O remote (fetch_refspecs stable)
  | None => mret tt
  end.
Proof.
  unfold find_origin. induction rs as [|r rs IH]; simpl; [done|].
  destruct (String.eqb (remote_name r) "origin"); [by destruct stable | exact IH].
Qed.

Lemma find_origin_name (rs : list Remote) (remote : Remote) :
  find_origin rs = Some remote -> remote_name remote = "origin".
Proof.
  unfold find_origin. intros H. apply List.find_some in H as [_ H].
  by apply String.eqb_eq.
Qed.

(** X10: when the first remote named origin cannot be fetched, the
    exception of the fetch ends the run: one fetch was attempted with the
    refspecs of the mode, the repository is unchanged, and none of the
    later steps runs. *)
Theorem fetch_failure_is_fatal (O : Oracle) (int_max_str_digits : nat) (unicode : Py.Unicode) (stable : bool)
    (w : World) (remote : Remote) (e : Exn) :
  find_origin (remotes (repo w)) = Some remote ->
  fetch_outcome O (fetching_world w) remote (fetch_refspecs stable) = inl e ->
  fetch_from_origin O stable w = (Raise e, fetch_failed_world stable w) /\
  update_steps O int_max_str_digits unicode stable w = (Raise e, fetch_failed_world stable w).
Proof.
  intros Hfind Hout.
  assert (Hrun : fetch_from_origin O stable w = (Raise e, fetch_failed_world stable w)).
  { unfold fetch_from_origin. run_M. rewrite fetch_loop_find, Hfind. run_M.
    fold (fetching_world w). rewrite Hout. run_M.
    rewrite (find_origin_name _ _ Hfind). reflexivity. }
  split; [exact Hrun|]. unfold update_steps. by rewrite (bind_Raise _ _ _ _ _ Hrun).
Qed.

Lemma master_refspec_dst_other (name k : string) :
  k <> "refs/remotes/origin/master" ->
  refspec_dst (parse_refspec "+refs/heads/master:refs/remotes/origin/master") name <> Some k.
Proof.
  intros Hk.
  change (parse_refspec "+refs/heads/master:refs/remotes/origin/master")
    with {| rs_force := true; rs_glob := false; rs_src := "refs/heads/master";
            rs_dst := "refs/remotes/origin/master" |}.
  unfold refspec_dst. cbn [rs_glob rs_src rs_dst].
  destruct (String.eqb name "refs/heads/master"); congruence.
Qed.

Lemma tags_refspec_dst_other (name k : string) :
  Py.startswith k "refs/tags/" = false ->
  refspec_dst (parse_refspec "+refs/tags/*:refs/tags/*") name <> Some k.
Proof.
  intros Hk.
  change (parse_refspec "+refs/tags/*:refs/tags/*")
    with {| rs_force := true; rs_glob := true; rs_src := "refs/tags/"; rs_dst := "refs/tags/" |}.
  unfold refspec_dst. cbn [rs_glob rs_src rs_dst].
  destruct (Py.startswith name "refs/tags/"); [|done].
  intros [= <-]. by rewrite (proj2 (startswith_app _ _)) in Hk by eauto.
Qed.

Lemma fetch_from_origin_untouched (O : Oracle) (stable : bool) (w : World) (name : string) :
  name <> "refs/remotes/origin/master" ->
  Py.startswith name "refs/tags/" = false ->
  refs (repo (fetch_from_origin O stable w).2) !! name = refs (repo w) !! name /\
  HEAD (repo (fetch_from_origin O stable w).2) = HEAD (repo w) /\
  index (repo (fetch_from_origin O stable w).2) = index (repo w) /\
  workdir (repo (fetch_from_origin O stable w).2) = workdir (repo w) /\
  state (repo (fetch_from_origin O stable w).2) = state (repo w).
Proof.
  intros Hmaster Htags. unfold fetch_from_origin. run_M.
  rewrite fetch_loop_find. destruct (find_origin (remotes (repo w))) as [remote|]; [|done].
  destruct stable; crunch; simpl; rewrite ?follow_tags_other by done;
    rewrite ?apply_refspec_other; auto using master_refspec_dst_other, tags_refspec_dst_other.
Qed.

(** X11: the fetch step writes to [refs/remotes/origin/master] and to
    references under [refs/tags/] only: with [--stable] the tags of the
    refspec, and in either mode the tags the library follows.  Every
    other reference, HEAD, the index, the working directory and the
    merge state are as before, whether the fetch succeeds or not. *)
Theorem fetch_from_origin_frame (O : Oracle) (stable : bool) (w : World) (name : string) :
  name <> "refs/remotes/origin/master" ->
  Py.startswith name "refs/tags/" = false ->
  refs (repo (fetch_from_origin O stable w).2) !! name = refs (repo w) !! name /\
  HEAD (repo (fetch_from_origin O stable w).2) = HEAD (repo w) /\
  index (repo (fetch_from_origin O stable w).2) = index (repo w) /\
  workdir (repo (fetch_from_origin O stable w).2) = workdir (repo w) /\
  state (repo (fetch_from_origin O stable w).2) = state (repo w).
Proof. apply fetch_from_origin_untouched. Qed.

(** X12: the checkout of master.  With a local master the branch is
    checked out and HEAD attached to it; without one it is first created
    at the commit of [refs/remotes/origin/master]; with neither the step
    raises [KeyError] having changed nothing.  When a file of the
    working directory stops the checkout, the step raises [GitError]:
    HEAD, the index and the working directory stay as they were, and a
    branch just created stays. *)
Theorem checkout_master_cases (O : Oracle) (w : World) :
  (forall oid commit_oid c,
      refs (repo w) !! "refs/heads/master" = Some oid ->
      peel_commit (repo w) oid = Some (commit_oid, c) ->
      (checkout_conflict O (master_wanted w) (commit_tree c) = false ->
       checkout_master O w =
       (Ok tt,
        {| repo := with_HEAD (OnBranch "master") (checked_out (commit_tree c) (repo w));
           stdout := stdout (master_wanted w);
           calls := (calls w ++ [CallCheckout "refs/heads/master"])%list |})) /\
      (checkout_conflict O (master_wanted w) (commit_tree c) = true ->
       checkout_master O w =
       (Raise GitError,
        {| repo := repo w;
           stdout := stdout (master_wanted w);
           calls := (calls w ++ [CallCheckout "refs/heads/master"])%list |}))) /\
  (forall oid c,
      refs (repo w) !! "refs/heads/master" = None ->
      refs (repo w) !! "refs/remotes/origin/master" = Some oid ->
      odb (repo w) !! oid = Some c ->
      (checkout_conflict O (master_created oid w) (commit_tree c) = false ->
       checkout_master O w =
       (Ok tt,
        {| repo := with_HEAD (OnBranch "master")
                     (checked_out (commit_tree c) (repo (master_created oid w)));
           stdout := stdout (master_created oid w);
           calls := (calls (master_created oid w)
                     ++ [CallCheckout "refs/heads/master"])%list |})) /\
      (checkout_conflict O (master_created oid w) (commit_tree c) = true ->
       checkout_master O w =
       (Raise GitError,
        {| repo := repo (master_created oid w);
           stdout := stdout (master_created oid w);
           calls := (calls (master_created oid w)
                     ++ [CallCheckout "refs/heads/master"])%list |}))) /\
  (refs (repo w) !! "refs/heads/master" = None ->
   refs (repo w) !! "refs/remotes/origin/master" = None ->
   checkout_master O w = (Raise KeyError, master_wanted w)).
Proof.
  unfold checkout_master.
  change (branch_ref "master") with "refs/heads/master".
  split; [|split].
  - intros oid commit_oid c Href Hpeel.
    split; intros Hcheckout; run_M;
      change (branch_ref "master") with "refs/heads/master";
      repeat (rewrite Href; run_M);
      change (String.eqb "refs/heads/master" "HEAD") with false; run_M;
      repeat (rewrite Href; run_M); rewrite Hpeel; run_M;
      fold (master_wanted w); rewrite Hcheckout; reflexivity.
  - intros oid c Hnone Href Hobj.
    assert (Hpeel : peel_commit (repo (master_created oid w)) oid = Some (oid, c)).
    { unfold peel_commit. simpl. by rewrite Hobj. }
    split; intros Hcheckout; run_M;
      change (branch_ref "master") with "refs/heads/master";
      rewrite Hnone; run_M; repeat (rewrite Href; run_M); rewrite Hobj; run_M;
      change (branch_ref "master") with "refs/heads/master";
      rewrite Hnone; run_M; rewrite lookup_insert_eq; run_M;
      change (String.eqb "refs/heads/master" "HEAD") with false; run_M;
      rewrite lookup_insert_eq; run_M;
      fold (master_created oid w);
      change (with_refs (<["refs/heads/master" := oid]> (refs (repo w))) (repo w))
        with (repo (master_created oid w));
      rewrite Hpeel; run_M; rewrite Hcheckout; reflexivity.
  - intros Hnone Hremote. run_M.
    change (branch_ref "master") with "refs/heads/master".
    rewrite Hnone. run_M. rewrite Hremote. reflexivity.
Qed.

(** X13: the tag step.  With [--stable] and a tag found, the object the
    tag points to is peeled to its commit (the commit itself for a
    lightweight tag, the tagged commit for an annotated one) and checked
    out: HEAD is detached at that commit, no reference changes, and the
    marker names the tag without [refs/tags/].  When a file of the
    working directory stops the checkout, the step raises [GitError]
    after the progress line: no marker is printed and the repository is
    as before.  With no version tag the step only says so; without
    [--stable] it does nothing. *)
Theorem checkout_stable_tag_cases (O : Oracle) (int_max_str_digits : nat)
    (unicode : Py.Unicode) (w : World) :
  (forall tag oid commit_oid c,
      find_latest_stable_tag int_max_str_digits unicode (repo w) = Some tag ->
      refs (repo w) !! tag = Some oid ->
      peel_commit (repo w) oid = Some (commit_oid, c) ->
      (checkout_conflict O (tag_wanted tag w) (commit_tree c) = false ->
       exists suffix,
         tag = "refs/tags/v" +:+ suffix /\
         checkout_stable_tag O int_max_str_digits unicode true w =
         (Ok tt,
          {| repo := with_HEAD (Detached commit_oid) (checked_out (commit_tree c) (repo w));
             stdout := (stdout w ++ ["Checking out stable tag: " +:+ tag;
                                     "[CHECKED_OUT_TAG] v" +:+ suffix])%list;
             calls := (calls w ++ [CallCheckout tag])%list |})) /\
      (checkout_conflict O (tag_wanted tag w) (commit_tree c) = true ->
       checkout_stable_tag O int_max_str_digits unicode true w =
       (Raise GitError,
        {| repo := repo w;
           stdout := (stdout w ++ ["Checking out stable tag: " +:+ tag])%list;
           calls := (calls w ++ [CallCheckout tag])%list |}))) /\
  (find_latest_stable_tag int_max_str_digits unicode (repo w) = None ->
   checkout_stable_tag O int_max_str_digits unicode true w =
   (Ok tt,
    {| repo := repo w;
       stdout := (stdout w ++ ["No stable tags found, staying on master."])%list;
       calls := calls w |})) /\
  checkout_stable_tag O int_max_str_digits unicode false w = (Ok tt, w).
Proof.
  split; [|split]; [| |reflexivity].
  - intros tag oid commit_oid c Hfind Href Hpeel.
    destruct (find_latest_stable_tag_form _ _ _ _ Hfind) as (suffix & -> & _ & _ & Hshort).
    split; intros Hcheckout; [exists suffix; split; [done|]|];
      unfold checkout_stable_tag; run_M; rewrite Hfind; run_M;
      change (String.eqb ("refs/tags/v" +:+ suffix) "HEAD") with false; run_M;
      rewrite Href; run_M; rewrite Hpeel; run_M;
      fold (tag_wanted ("refs/tags/v" +:+ suffix) w); rewrite Hcheckout; run_M.
    + change (Py.startswith ("refs/tags/v" +:+ suffix) "refs/heads/") with false.
      run_M. rewrite Hshort. by rewrite <- !app_assoc.
    + reflexivity.
  - intros Hfind. unfold checkout_stable_tag. run_M. rewrite Hfind. reflexivity.
Qed.

(** ** Whole runs *)

Lemma bind_Ok_inv {A B} (m : M A) (k : A -> M B) (w w' : World) (b : B) :
  (m ≫= k) w = (Ok b, w') -> exists a w1, m w = (Ok a, w1) /\ k a w1 = (Ok b, w').
Proof. unfold mbind, M_bind. destruct (m w) as [[a|e] w1]; [eauto|done]. Qed.

(** A run of [main] that returns went through every step. *)
Lemma main_Ok_inv (O : Oracle) (int_max_str_digits : nat) (unicode : Py.Unicode) (argv : list string) (w w' : World) :
  main O int_max_str_digits unicode argv w = (Ok tt, w') ->
  exists w0 w1 w2 w3 w4 w5 w6 w7 w8,
    repo w0 = repo w /\ stdout w0 = stdout w /\
    emit_pre_update_head w0 = (Ok tt, w1) /\
    stash_changes O updater_ident w1 = (Ok tt, w2) /\
    create_backup_branch O w2 = (Ok tt, w3) /\
    fetch_from_origin O (stable_flag argv) w3 = (Ok tt, w4) /\
    checkout_master O w4 = (Ok tt, w5) /\
    pull O "origin" "master"
      {| repo := repo w5; stdout := (stdout w5 ++ ["Pulling latest changes…"])%list;
         calls := calls w5 |} = (Ok tt, w6) /\
    checkout_stable_tag O int_max_str_digits unicode (stable_flag argv) w6 = (Ok tt, w7) /\
    emit_post_update_head w7 = (Ok tt, w8) /\
    w' = {| repo := repo w8; stdout := (stdout w8 ++ ["Done!"])%list; calls := calls w8 |}.
Proof.
  unfold main. destruct (length argv <? 2)%nat; [discriminate|].
  intros H.
  apply bind_Ok_inv in H as ([] & w0' & H0' & H).
  apply bind_Ok_inv in H as ([] & w0 & H0 & H).
  apply bind_Ok_inv in H as ([] & w1 & H1 & H).
  apply bind_Ok_inv in H as ([] & w2 & H2 & H).
  apply bind_Ok_inv in H as ([] & w3 & H3 & H).
  unfold update_steps in H.
  apply bind_Ok_inv in H as ([] & w4 & H4 & H).
  apply bind_Ok_inv in H as ([] & w5 & H5 & H).
  apply bind_Ok_inv in H as ([] & w5' & H5' & H).
  apply bind_Ok_inv in H as ([] & w6 & H6 & H).
  apply bind_Ok_inv in H as ([] & w7 & H7 & H).
  apply bind_Ok_inv in H as ([] & w8 & H8 & H).
  injection H0' as <-. injection H0 as <-. injection H5' as <-. injection H as <-.
  eexists _, w1, w2, w3, w4, w5, w6, w7, w8.
  split; [|split; [|split; [exact H1|]]]; [reflexivity..|].
  split; [exact H2|]. split; [exact H3|]. split; [exact H4|]. split; [exact H5|].
  split; [exact H6|]. split; [exact H7|]. split; [exact H8|]. reflexivity.
Qed.

(** *** Observations that the steps leave alone *)

Lemma backend_preserves_stdout {X} (O : Oracle) (g : list string -> X) :
  backend_preserves O (fun w => g (stdout w)).
Proof. unfold backend_preserves, preserves. repeat split; intros; crunch. Qed.

Lemma remote_fetch_stdout {X} (O : Oracle) (g : list string -> X) remote specs :
  preserves (fun w => g (stdout w)) (remote_fetch O remote specs).
Proof. intros w. crunch. Qed.

Lemma backend_preserves_fetch_calls (O : Oracle) : backend_preserves O fetch_calls.
Proof.
  unfold backend_preserves, preserves, fetch_calls.
  repeat split; intros; crunch; rewrite ?List.filter_app; simpl; by rewrite ?app_nil_r.
Qed.

Lemma preserves_print_filter (p : string -> bool) (line : string) :
  p line = false -> preserves (fun w => List.filter p (stdout w)) (print line).
Proof.
  intros Hp w. unfold print. simpl. rewrite List.filter_app. simpl. rewrite Hp.
  by rewrite app_nil_r.
Qed.

Lemma preserves_print_calls {X} (g : list Call -> X) (line : string) :
  preserves (fun w => g (calls w)) (print line).
Proof. done. Qed.

Lemma preserves_print_repo {X} (g : Repo -> X) (line : string) :
  preserves (fun w => g (repo w)) (print line).
Proof. done. Qed.

Ltac backend_keeps H :=
  let H' := fresh "Hkeeps" in
  pose proof H as H'; unfold backend_preserves in H';
  repeat (let H1 := fresh "Hk" in destruct H' as [H1 H']).

(** Proof search for computations that leave an observation alone; [tac]
    settles the prints. *)
Ltac keeps tac :=
  repeat first
    [ apply preserves_ret | apply preserves_raise | apply preserves_get_repo
    | apply preserves_ask | apply preserves_of_option
    | solve [ auto ]
    | tac
    | apply preserves_bind; [ | intros ? ]
    | apply preserves_try_except; [ | intros ? ? ? ]
    | apply preserves_for_each; intros ?
    | match goal with
      | H : (if ?b then _ else _) = Some _ |- _ => destruct b; [|try discriminate H]
      | H : None = Some _ |- _ => discriminate H
      | H : Some _ = Some _ |- _ => injection H as <-
      | |- preserves _ (match ?x with _ => _ end) => destruct x
      end ].

Lemma fetch_loop_stdout {X} (O : Oracle) (g : list string -> X) stable rs :
  preserves (fun w => g (stdout w)) (fetch_loop O stable rs).
Proof.
  rewrite fetch_loop_find. destruct (find_origin rs); [apply remote_fetch_stdout | done].
Qed.

Lemma preserves_on_raise_of_preserves {X A} (obs : World -> X) (m : M A) :
  preserves obs m -> preserves_on_raise obs m.
Proof. intros H w e _. apply H. Qed.

Lemma preserves_on_raise_bind {X A B} (obs : World -> X) (m : M A) (k : A -> M B) :
  preserves obs m -> (forall x, preserves_on_raise obs (k x)) ->
  preserves_on_raise obs (m ≫= k).
Proof.
  intros Hm Hk w e. specialize (Hm w). unfold mbind, M_bind.
  destruct (m w) as [[x|e1] w1]; simpl in *; [|done].
  intros He. by rewrite (Hk x w1 e He).
Qed.

Lemma preserves_on_raise_print {X} (obs : World -> X) (line : string) :
  preserves_on_raise obs (print line).
Proof. intros w e. discriminate. Qed.

Ltac lines_with O p :=
  backend_keeps (backend_preserves_stdout O (List.filter p));
  pose proof (fetch_loop_stdout O (List.filter p));
  pose proof (remote_fetch_stdout O (List.filter p));
  keeps ltac:(apply preserves_print_filter; reflexivity).

(** A run that raises printed no [Done!]. *)
Lemma main_raise_no_done (O : Oracle) (int_max_str_digits : nat) (unicode : Py.Unicode) (argv : list string) :
  preserves_on_raise (lines_equal "Done!") (main O int_max_str_digits unicode argv).
Proof.
  unfold lines_equal, main. destruct (length argv <? 2)%nat.
  - apply preserves_on_raise_of_preserves. lines_with O (String.eqb "Done!").
  - unfold update_steps.
    repeat (apply preserves_on_raise_bind; [|intros ?]);
      [..|apply preserves_on_raise_print].
    all: unfold emit_pre_update_head, stash_changes, create_backup_branch, fetch_from_origin,
      checkout_master, pull, checkout_stable_tag, find_latest_stable_tag, emit_post_update_head.
    all: lines_with O (String.eqb "Done!").
Qed.

Lemma emit_post_update_head_run (w : World) :
  match head_oid (repo w) with
  | Some post =>
      emit_post_update_head w =
      (Ok tt, {| repo := repo w; stdout := (stdout w ++ ["[POST_UPDATE_HEAD] " +:+ post])%list;
                 calls := calls w |})
  | None => exists e, emit_post_update_head w = (Raise e, w)
  end.
Proof.
  unfold emit_post_update_head, head_oid.
  destruct (HEAD (repo w)) as [b|d] eqn:HH; run_M; rewrite ?HH; run_M.
  - destruct (refs (repo w) !! branch_ref b) eqn:Hb; run_M; rewrite ?Hb; run_M; eauto.
  - reflexivity.
Qed.

Lemma step_output {A} lo hi (m : M A) (w w' : World) (a : Result A) :
  emits lo hi m -> m w = (a, w') -> exists new, stdout w' = (stdout w ++ new)%list.
Proof.
  intros [_ H] Hrun. destruct (H w) as (new & Hnew & _). rewrite Hrun in Hnew. eauto.
Qed.

(** X14: the output of a run of [main] that returns.  It opens with
    [PRE_UPDATE_HEAD] and the commit HEAD resolved to at the start, and
    its last two lines are [POST_UPDATE_HEAD] with the commit HEAD
    resolves to in the final repository, and [Done!]. *)
Theorem main_output_frame (O : Oracle) (int_max_str_digits : nat) (unicode : Py.Unicode) (argv : list string)
    (w w' : World) :
  main O int_max_str_digits unicode argv w = (Ok tt, w') ->
  exists pre post middle,
    head_oid (repo w) = Some pre /\
    head_oid (repo w') = Some post /\
    stdout w' =
    (stdout w ++ ["[PRE_UPDATE_HEAD] " +:+ pre] ++ middle
       ++ ["[POST_UPDATE_HEAD] " +:+ post; "Done!"])%list.
Proof.
  intros Hmain.
  apply main_Ok_inv in Hmain
    as (w0 & w1 & w2 & w3 & w4 & w5 & w6 & w7 & w8 & Hrepo & Hout & H1 & H2 & H3 & H4 & H5
        & H6 & H7 & H8 & ->).
  pose proof (emit_pre_update_head_run w0) as Hpre. rewrite Hrepo in Hpre.
  destruct (head_oid (repo w)) as [pre|]; [|destruct Hpre as [e He]; congruence].
  rewrite H1 in Hpre. injection Hpre as ->.
  pose proof (emit_post_update_head_run w7) as Hpost.
  destruct (head_oid (repo w7)) as [post|] eqn:Hhead; [|destruct Hpost as [e He]; congruence].
  rewrite H8 in Hpost. injection Hpost as ->.
  destruct (step_output 0 0 _ _ _ _ ltac:(apply stash_changes_quiet) H2) as [n2 E2].
  destruct (step_output 1 2 _ _ _ _ ltac:(apply create_backup_branch_emits) H3) as [n3 E3].
  destruct (step_output 0 0 _ _ _ _ ltac:(apply fetch_from_origin_quiet) H4) as [n4 E4].
  destruct (step_output 0 0 _ _ _ _ ltac:(apply checkout_master_quiet; exact O) H5) as [n5 E5].
  destruct (step_output 0 0 _ _ _ _ ltac:(apply pull_quiet) H6) as [n6 E6].
  destruct (step_output 2 3 _ _ _ _ ltac:(apply checkout_stable_tag_emits; exact O) H7)
    as [n7 E7].
  simpl in *.
  exists pre, post, (n2 ++ n3 ++ n4 ++ n5 ++ ["Pulling latest changes…"] ++ n6 ++ n7)%list.
  split; [done|]. split; [done|].
  rewrite E7, E6, E5, E4, E3, E2, Hout. by rewrite <- !app_assoc.
Qed.

(** X15: a run of [main] that raises, at whatever step, prints no
    [Done!]: together with the last line of a run that returns, the line
    tells the two apart. *)
Theorem main_failed_no_done (O : Oracle) (int_max_str_digits : nat) (unicode : Py.Unicode) (argv : list string)
    (w w' : World) (e : Exn) :
  main O int_max_str_digits unicode argv w = (Raise e, w') ->
  exists new, stdout w' = (stdout w ++ new)%list /\ "Done!" ∉ new.
Proof.
  intros Hmain.
  destruct (step_output 0 4 _ _ _ _ ltac:(apply main_emits) Hmain) as [new Hnew].
  exists new. split; [done|].
  pose proof (main_raise_no_done O int_max_str_digits unicode argv w e) as Hkeep.
  rewrite Hmain in Hkeep. specialize (Hkeep eq_refl). unfold lines_equal in Hkeep.
  simpl in Hkeep. rewrite Hnew, List.filter_app in Hkeep.
  assert (Hnil : List.filter (String.eqb "Done!") new = []).
  { apply (app_inv_head (List.filter (String.eqb "Done!") (stdout w))). by rewrite app_nil_r. }
  intros Hin. apply list_elem_of_In in Hin.
  assert (Hf : In "Done!" (List.filter (String.eqb "Done!") new)).
  { apply List.filter_In. split; [done|reflexivity]. }
  rewrite Hnil in Hf. destruct Hf.
Qed.

(** *** Fetching *)

Lemma may_add_of_preserves {X A} (obs : World -> list X) (x : X) (m : M A) :
  preserves obs m -> may_add obs x m.
Proof. intros H w. left. apply H. Qed.

Lemma may_add_bind_l {X A B} (obs : World -> list X) (x : X) (m : M A) (k : A -> M B) :
  preserves obs m -> (forall a, may_add obs x (k a)) -> may_add obs x (m ≫= k).
Proof.
  intros Hm Hk w. specialize (Hm w). unfold mbind, M_bind.
  destruct (m w) as [[a|e] w1]; simpl in *; [|by left].
  rewrite <- Hm. apply Hk.
Qed.

Lemma may_add_bind_r {X A B} (obs : World -> list X) (x : X) (m : M A) (k : A -> M B) :
  may_add obs x m -> (forall a, preserves obs (k a)) -> may_add obs x (m ≫= k).
Proof.
  intros Hm Hk w. specialize (Hm w). unfold mbind, M_bind.
  destruct (m w) as [[a|e] w1]; simpl in *; [|done].
  by rewrite (Hk a w1).
Qed.

Lemma fetch_from_origin_may_add (O : Oracle) (stable : bool) :
  may_add fetch_calls (CallFetch "origin" (fetch_refspecs stable)) (fetch_from_origin O stable).
Proof.
  intros w. unfold fetch_from_origin, fetch_calls. run_M. rewrite fetch_loop_find.
  destruct (find_origin (remotes (repo w))) as [remote|] eqn:Hfind; [|by left].
  right. rewrite <- (find_origin_name _ _ Hfind). crunch; by rewrite List.filter_app.
Qed.

Ltac calls_with O :=
  backend_keeps (backend_preserves_fetch_calls O);
  keeps ltac:(apply (preserves_print_calls (List.filter is_fetch_call))).

(** X16: a run of [main] fetches at most once, and only from the remote
    named origin, with the refspec of master and, with [--stable], that of
    the tags: no other remote is ever contacted and no step fetches
    again. *)
Theorem main_fetches_once (O : Oracle) (int_max_str_digits : nat) (unicode : Py.Unicode) (argv : list string)
    (w : World) :
  fetch_calls (main O int_max_str_digits unicode argv w).2 = fetch_calls w \/
  fetch_calls (main O int_max_str_digits unicode argv w).2 =
  (fetch_calls w ++ [CallFetch "origin" (fetch_refspecs (stable_flag argv))])%list.
Proof.
  revert w. change (may_add fetch_calls (CallFetch "origin" (fetch_refspecs (stable_flag argv)))
                      (main O int_max_str_digits unicode argv)).
  unfold main. destruct (length argv <? 2)%nat.
  - apply may_add_of_preserves. calls_with O.
  - fold (stable_flag argv). unfold update_steps.
    apply may_add_bind_l; [calls_with O | intros _].
    apply may_add_bind_l; [calls_with O | intros _].
    apply may_add_bind_l; [unfold emit_pre_update_head; calls_with O | intros _].
    apply may_add_bind_l; [unfold stash_changes; calls_with O | intros _].
    apply may_add_bind_l; [unfold create_backup_branch; calls_with O | intros _].
    apply may_add_bind_r; [apply fetch_from_origin_may_add | intros _].
    unfold checkout_master, pull, checkout_stable_tag, find_latest_stable_tag,
      emit_post_update_head.
    calls_with O.
Qed.

(** *** References *)

Lemma not_branch_ref (name : string) :
  Py.startswith name "refs/heads/" = false -> forall b, name <> branch_ref b.
Proof.
  intros Hname b ->. unfold branch_ref in Hname.
  by rewrite (proj2 (startswith_app _ _)) in Hname by eauto.
Qed.

Section Frame.

Variable O : Oracle.
Variable int_max_str_digits : nat.
Variable unicode : Py.Unicode.
Variable name : string.

Hypothesis not_heads : Py.startswith name "refs/heads/" = false.

Lemma emit_pre_update_head_refs : preserves (reference_at name) emit_pre_update_head.
Proof. intros w. unfold reference_at, emit_pre_update_head. crunch. Qed.

Lemma emit_post_update_head_refs : preserves (reference_at name) emit_post_update_head.
Proof. intros w. unfold reference_at, emit_post_update_head. crunch. Qed.

Lemma checkout_stable_tag_refs stable :
  preserves (reference_at name) (checkout_stable_tag O int_max_str_digits unicode stable).
Proof. intros w. unfold reference_at, checkout_stable_tag. crunch. Qed.

Lemma create_backup_branch_refs : preserves (reference_at name) (create_backup_branch O).
Proof.
  intros w. unfold reference_at, create_backup_branch.
  crunch; rewrite ?lookup_insert_ne by (apply not_eq_sym, not_branch_ref, not_heads); reflexivity.
Qed.

Lemma checkout_master_refs : preserves (reference_at name) (checkout_master O).
Proof.
  intros w. unfold reference_at, checkout_master.
  crunch; rewrite ?lookup_insert_ne by (apply not_eq_sym, not_branch_ref, not_heads); reflexivity.
Qed.

Lemma pull_refs_heads remote_name branch : preserves (reference_at name) (pull O remote_name branch).
Proof.
  intros w. apply pull_refs; [by apply not_branch_ref|]. intros b _. by apply not_branch_ref.
Qed.

Hypothesis not_stash : name <> "refs/stash".

Lemma stash_changes_refs ident : preserves (reference_at name) (stash_changes O ident).
Proof. intros w. by apply stash_changes_frame. Qed.

Hypothesis not_tracking : name <> "refs/remotes/origin/master".

Hypothesis not_tags : Py.startswith name "refs/tags/" = false.

Lemma fetch_from_origin_refs stable : preserves (reference_at name) (fetch_from_origin O stable).
Proof. intros w. by apply fetch_from_origin_untouched. Qed.

End Frame.

(** X17: the references a run of [main] may write are the branches
    under [refs/heads/], [refs/stash], [refs/remotes/origin/master] and
    the tags under [refs/tags/] (those fetched with [--stable] and those
    the library follows in either mode).  Every other reference points
    where it did, whether the run returns or raises; in particular no
    run changes the tracking reference of another remote or branch. *)
Theorem main_reference_frame (O : Oracle) (int_max_str_digits : nat) (unicode : Py.Unicode)
    (argv : list string) (w : World) (name : string) :
  Py.startswith name "refs/heads/" = false ->
  name <> "refs/stash" ->
  name <> "refs/remotes/origin/master" ->
  Py.startswith name "refs/tags/" = false ->
  refs (repo (main O int_max_str_digits unicode argv w).2) !! name = refs (repo w) !! name.
Proof.
  intros Hheads Hstash Htracking Htags. revert w.
  change (preserves (reference_at name) (main O int_max_str_digits unicode argv)).
  unfold main. destruct (length argv <? 2)%nat; [done|].
  fold (stable_flag argv). unfold update_steps.
  apply preserves_bind; [done | intros _].
  apply preserves_bind; [done | intros _].
  apply preserves_bind; [by apply emit_pre_update_head_refs | intros _].
  apply preserves_bind; [by apply stash_changes_refs | intros _].
  apply preserves_bind; [by apply create_backup_branch_refs | intros _].
  apply preserves_bind; [by apply fetch_from_origin_refs | intros _].
  apply preserves_bind; [by apply checkout_master_refs | intros _].
  apply preserves_bind; [done | intros _].
  apply preserves_bind; [by apply pull_refs_heads | intros _].
  apply preserves_bind; [by apply checkout_stable_tag_refs | intros _].
  apply preserves_bind; [by apply emit_post_update_head_refs | intros _].
  done.
Qed.

(** *** Where a run leaves HEAD *)

Lemma checkout_stable_tag_Ok (O : Oracle) (int_max_str_digits : nat) (unicode : Py.Unicode)
    (w w' : World) :
  checkout_stable_tag O int_max_str_digits unicode true w = (Ok tt, w') ->
  match find_latest_stable_tag int_max_str_digits unicode (repo w') with
  | Some tag =>
      exists oid commit_oid c,
        refs (repo w') !! tag = Some oid /\
        peel_commit (repo w') oid = Some (commit_oid, c) /\
        HEAD (repo w') = Detached commit_oid
  | None => HEAD (repo w') = HEAD (repo w)
  end.
Proof.
  unfold checkout_stable_tag. run_M.
  destruct (find_latest_stable_tag int_max_str_digits unicode (repo w)) as [tag|] eqn:Hfind.
  - destruct (find_latest_stable_tag_form _ _ _ _ Hfind) as (suffix & -> & _ & _ & _).
    run_M. change (String.eqb ("refs/tags/v" +:+ suffix) "HEAD") with false. run_M.
    destruct (refs (repo w) !! ("refs/tags/v" +:+ suffix)) as [oid|] eqn:Href; run_M;
      [|discriminate].
    destruct (peel_commit (repo w) oid) as [[commit_oid c]|] eqn:Hpeel; run_M; [|discriminate].
    destruct (checkout_conflict O _ _); run_M; [discriminate|].
    change (Py.startswith ("refs/tags/v" +:+ suffix) "refs/heads/") with false. run_M.
    intros [= <-]. cbn [repo].
    change (find_latest_stable_tag int_max_str_digits unicode
              (with_HEAD (Detached commit_oid) (checked_out (commit_tree c) (repo w))))
      with (find_latest_stable_tag int_max_str_digits unicode (repo w)).
    rewrite Hfind. exists oid, commit_oid, c. split; [exact Href|]. split; [exact Hpeel|done].
  - intros [= <-]. simpl. by rewrite Hfind.
Qed.

(** X18: where a run of [main] that returns leaves HEAD.  Without
    [--stable], and with it when the final repository has no version tag,
    HEAD is on master.  With [--stable] and a version tag, HEAD is
    detached at the commit that the latest stable tag of the final
    repository peels to: the commit the tag points to when it is
    lightweight, the tagged commit when it is annotated. *)
Theorem main_final_HEAD (O : Oracle) (int_max_str_digits : nat) (unicode : Py.Unicode)
    (argv : list string) (w w' : World) :
  main O int_max_str_digits unicode argv w = (Ok tt, w') ->
  if stable_flag argv then
    match find_latest_stable_tag int_max_str_digits unicode (repo w') with
    | Some tag =>
        exists oid commit_oid c,
          refs (repo w') !! tag = Some oid /\
          peel_commit (repo w') oid = Some (commit_oid, c) /\
          HEAD (repo w') = Detached commit_oid
    | None => HEAD (repo w') = OnBranch "master"
    end
  else HEAD (repo w') = OnBranch "master".
Proof.
  intros Hmain.
  apply main_Ok_inv in Hmain
    as (w0 & w1 & w2 & w3 & w4 & w5 & w6 & w7 & w8 & _ & _ & _ & _ & _ & _ & H5
        & H6 & H7 & H8 & ->).
  pose proof (checkout_master_HEAD O w4) as Hmaster. rewrite H5 in Hmaster.
  destruct Hmaster as [Hmaster _].
  pose proof (pull_HEAD_attached O "origin" "master" "master"
                {| repo := repo w5; stdout := (stdout w5 ++ ["Pulling latest changes…"])%list;
                   calls := calls w5 |} Hmaster) as Hpull.
  rewrite H6 in Hpull. simpl in Hpull.
  pose proof (emit_post_update_head_run w7) as Hpost.
  destruct (head_oid (repo w7)) as [post|]; [|destruct Hpost as [e He]; congruence].
  rewrite H8 in Hpost. injection Hpost as ->. simpl.
  destruct (stable_flag argv).
  - apply checkout_stable_tag_Ok in H7.
    destruct (find_latest_stable_tag int_max_str_digits unicode (repo w7)); [done|congruence].
  - injection H7 as <-. done.
Qed.

(** X19: without [--stable] no [CHECKED_OUT_TAG] line is printed, at
    any step and whether the run returns or raises. *)
Theorem main_without_stable_no_tag_marker (O : Oracle) (int_max_str_digits : nat) (unicode : Py.Unicode)
    (argv : list string) (w : World) :
  stable_flag argv = false ->
  tag_marker_lines (main O int_max_str_digits unicode argv w).2 = tag_marker_lines w.
Proof.
  intros Hflag. revert w.
  change (preserves tag_marker_lines (main O int_max_str_digits unicode argv)).
  unfold tag_marker_lines, main. fold (stable_flag argv). rewrite Hflag.
  unfold update_steps, emit_pre_update_head, stash_changes, create_backup_branch,
    fetch_from_origin, checkout_master, pull, checkout_stable_tag, emit_post_update_head.
  lines_with O (fun line => Py.startswith line "[CHECKED_OUT_TAG] ").
Qed.

(** *** Opening the repository *)

Lemma rstrip_spec (chars s : string) :
  exists trail,
    s = Py.rstrip chars s +:+ trail /\
    all_chars (fun c => Py.mem_char c chars) trail = true /\
    Py.rstrip chars (Py.rstrip chars s) = Py.rstrip chars s.
Proof.
  induction s as [|c s (trail & Heq & Hall & Hidem)]; [by exists EmptyString|].
  simpl. destruct (Py.rstrip chars s) as [|d r] eqn:Hr.
  - change (EmptyString +:+ trail) with trail in Heq. subst trail. destruct (Py.mem_char c chars) eqn:Hc.
    + exists (String c s). simpl. by rewrite Hc.
    + exists s. simpl. by rewrite Hc.
  - exists trail. split; [change (String c s = String c (String d r +:+ trail)); by f_equal|].
    split; [done|].
    change (Py.rstrip chars (String c (String d r)))
      with (match Py.rstrip chars (String d r) with
            | EmptyString => if Py.mem_char c chars then EmptyString else String c EmptyString
            | String a b => String c (String a b)
            end).
    by rewrite Hidem.
Qed.

Lemma works_nothing {A} (m : M A) : preserves calls m -> works m.
Proof. intros H w. exists []. rewrite H. by rewrite app_nil_r. Qed.

Lemma works_bind {A B} (m : M A) (k : A -> M B) :
  works m -> (forall x, works (k x)) -> works (m ≫= k).
Proof.
  intros Hm Hk w. destruct (Hm w) as (n1 & E1 & F1). unfold mbind, M_bind.
  destruct (m w) as [[x|e] w1]; simpl in *; [|eauto].
  destruct (Hk x w1) as (n2 & E2 & F2). exists (n1 ++ n2)%list.
  rewrite E2, E1, app_assoc. split; [done|]. by apply Forall_app.
Qed.

Lemma works_try_except {A} (body : M A) (handler : Exn -> option (M A)) :
  works body -> (forall e h, handler e = Some h -> works h) -> works (try_except body handler).
Proof.
  intros Hm Hh w. destruct (Hm w) as (n1 & E1 & F1). unfold try_except.
  destruct (body w) as [[x|e] w1]; simpl in *; [eauto|].
  destruct (handler e) as [h|] eqn:He; [|eauto].
  destruct (Hh e h He w1) as (n2 & E2 & F2). exists (n1 ++ n2)%list.
  rewrite E2, E1, app_assoc. split; [done|]. by apply Forall_app.
Qed.

Lemma works_for_each {A} (l : list A) (body : A -> M unit) :
  (forall x, works (body x)) -> works (for_each l body).
Proof.
  intros Hb. induction l as [|x l IH]; simpl; [by apply works_nothing|].
  apply works_bind; [apply Hb | intros _; apply IH].
Qed.

Ltac one_call :=
  intros ?; crunch;
  first [ exists []; split; [by rewrite app_nil_r | constructor]
        | eexists [_]; split; [reflexivity | by repeat constructor]
        | eexists [_; _]; split; [by rewrite <- ?app_assoc | by repeat constructor] ].

Lemma backend_works (O : Oracle) :
  (forall ref oid, works (set_target ref oid)) /\
  (forall name c, works (create_branch name c)) /\
  (forall c, works (checkout_tree O c)) /\
  (forall name, works (checkout O name)) /\
  works state_cleanup /\
  (forall t, works (index_read_tree t)) /\
  works index_write /\
  works index_write_tree /\
  (forall oid, works (merge O oid)) /\
  (forall a c msg t ps, works (create_commit_HEAD O a c msg t ps)) /\
  (forall ident, works (stash O ident)) /\
  (forall r specs, works (remote_fetch O r specs)).
Proof. repeat split; intros; one_call. Qed.

Ltac working O :=
  let H := fresh "Hworks" in
  pose proof (backend_works O) as H;
  repeat (let H1 := fresh "Hw" in destruct H as [H1 H]);
  repeat first
    [ solve [ auto ]
    | apply works_nothing; solve [ done | apply preserves_of_option ]
    | apply works_bind; [ | intros ? ]
    | apply works_try_except; [ | intros ? ? ? ]
    | apply works_for_each; intros ?
    | match goal with
      | H : (if ?b then _ else _) = Some _ |- _ => destruct b; [|try discriminate H]
      | H : None = Some _ |- _ => discriminate H
      | H : Some _ = Some _ |- _ => injection H as <-
      | |- works (match ?x with _ => _ end) => destruct x
      end ].

Lemma update_works (O : Oracle) (int_max_str_digits : nat) (unicode : Py.Unicode) (stable : bool) :
  works (emit_pre_update_head;;
         stash_changes O updater_ident;;
         create_backup_branch O;;
         update_steps O int_max_str_digits unicode stable).
Proof.
  assert (Hloop : forall rs, works (fetch_loop O stable rs)).
  { intros rs. rewrite fetch_loop_find. destruct (find_origin rs); [|by apply works_nothing].
    apply backend_works. }
  unfold update_steps, emit_pre_update_head, stash_changes, create_backup_branch,
    fetch_from_origin, checkout_master, pull, checkout_stable_tag, emit_post_update_head,
    lookup_reference, lookup_branch, repo_head, reference_target, repo_get, peel,
    index_get_conflicts, default_signature, merge_analysis, today_stamp.
  working O.
Qed.

(** X20: with a path argument, [main] first switches the owner
    validation off, then opens the repository at [sys.argv[1]] without
    its trailing slashes and backslashes; every later call works on that
    repository: none opens another or changes an option. *)
Theorem main_opens_repository (O : Oracle) (int_max_str_digits : nat) (unicode : Py.Unicode) (argv : list string)
    (w : World) (arg : string) :
  argv !! 1%nat = Some arg ->
  exists path trail rest,
    arg = path +:+ trail /\
    all_chars is_separator trail = true /\
    Py.rstrip "/\" path = path /\
    calls (main O int_max_str_digits unicode argv w).2 =
    (calls w ++ [CallOption GIT_OPT_SET_OWNER_VALIDATION 0; CallOpen path] ++ rest)%list /\
    Forall (fun c => is_setup_call c = false) rest.
Proof.
  intros Harg.
  destruct (rstrip_spec "/\" arg) as (trail & Heq & Hall & Hidem).
  assert (Hlen : (length argv <? 2)%nat = false).
  { apply Nat.ltb_ge. apply lookup_lt_Some in Harg. lia. }
  assert (Hnth : nth 1 argv "" = arg).
  { destruct argv as [|a0 [|a1 argv]]; simplify_eq/=; done. }
  set (w0 := {| repo := repo w; stdout := stdout w;
                calls := (calls w ++ [CallOption GIT_OPT_SET_OWNER_VALIDATION 0;
                                      CallOpen (Py.rstrip "/\" arg)])%list |}).
  destruct (update_works O int_max_str_digits unicode (stable_flag argv) w0) as (rest & Hrest & Hok).
  exists (Py.rstrip "/\" arg), trail, rest.
  split; [done|]. split; [done|]. split; [done|]. split; [|done].
  unfold main. rewrite Hlen, Hnth. fold (stable_flag argv).
  transitivity (calls ((emit_pre_update_head;;
                        stash_changes O updater_ident;;
                        create_backup_branch O;;
                        update_steps O int_max_str_digits unicode (stable_flag argv)) w0).2).
  - unfold w0. unfold mbind at 1 2, M_bind at 1 2. unfold pygit2_option, Repository, called.
    cbn [repo stdout calls]. by rewrite <- app_assoc.
  - rewrite Hrest. unfold w0. cbn [calls]. by rewrite <- app_assoc.
Qed.

(** ** The further properties on concrete runs *)

Lemma find_latest_stable_tag_order_independent_witness :
  ["refs/tags/v1.2.3"; "refs/tags/v1.10.0"] ≡ₚ ["refs/tags/v1.10.0"; "refs/tags/v1.2.3"] /\
  latest_of (collect_versions 4300 Py.unicode_14 ["refs/tags/v1.2.3"; "refs/tags/v1.10.0"]) =
  latest_of (collect_versions 4300 Py.unicode_14 ["refs/tags/v1.10.0"; "refs/tags/v1.2.3"]).
Proof.
  assert (H : ["refs/tags/v1.2.3"; "refs/tags/v1.10.0"]
              ≡ₚ ["refs/tags/v1.10.0"; "refs/tags/v1.2.3"]) by apply perm_swap.
  split; [exact H|].
  exact (proj1 (find_latest_stable_tag_order_independent 4300 Py.unicode_14) _ _ H).
Defined.

Lemma find_latest_stable_tag_tie_break_witness :
  find_latest_stable_tag 4300 Py.unicode_14 sample_repo_tied_tags = Some "refs/tags/v1.0" /\
  exists parts,
    (parts, "refs/tags/v1.0") ∈ collect_versions 4300 Py.unicode_14 (references sample_repo_tied_tags) /\
    forall parts' name',
      (parts', name') ∈ collect_versions 4300 Py.unicode_14 (references sample_repo_tied_tags) ->
      Py.tuple_compare parts' parts = Lt \/
      (parts' = parts /\ String.compare name' "refs/tags/v1.0" <> Gt).
Proof.
  assert (H : find_latest_stable_tag 4300 Py.unicode_14 sample_repo_tied_tags = Some "refs/tags/v1.0")
    by (vm_compute; reflexivity).
  split; [exact H|].
  exact (find_latest_stable_tag_tie_break 4300 Py.unicode_14 sample_repo_tied_tags "refs/tags/v1.0" H).
Defined.

Lemma find_latest_stable_tag_short_name_witness :
  find_latest_stable_tag 4300 Py.unicode_14 sample_repo_two_tags = Some "refs/tags/v1.10.0" /\
  exists suffix,
    "refs/tags/v1.10.0" = "refs/tags/v" +:+ suffix /\
    is_Some (refs sample_repo_two_tags !! "refs/tags/v1.10.0") /\
    all_chars version_char suffix = true /\
    Py.remove_all "refs/tags/" "refs/tags/v1.10.0" = "v" +:+ suffix.
Proof.
  assert (H : find_latest_stable_tag 4300 Py.unicode_14 sample_repo_two_tags = Some "refs/tags/v1.10.0")
    by (vm_compute; reflexivity).
  split; [exact H|].
  exact (find_latest_stable_tag_short_name 4300 Py.unicode_14 sample_repo_two_tags "refs/tags/v1.10.0" H).
Defined.

Lemma pull_missing_remote_reference_witness :
  refs (repo sample_world) !! ("refs/remotes/" +:+ "upstream" +:+ "/" +:+ "master") = None /\
  pull oracle_fast_forward "upstream" "master" sample_world = (Raise KeyError, sample_world).
Proof.
  assert (H : refs (repo sample_world) !! ("refs/remotes/" +:+ "upstream" +:+ "/" +:+ "master")
              = None) by (vm_compute; reflexivity).
  split; [exact H|].
  exact (pull_missing_remote_reference oracle_fast_forward "upstream" "master" sample_world H).
Defined.

Lemma pull_unknown_analysis_witness :
  refs (repo sample_world) !! ("refs/remotes/" +:+ "origin" +:+ "/" +:+ "master") = Some "b2" /\
  merge_analysis_result oracle_unborn sample_world "b2" = GIT_MERGE_ANALYSIS_UNBORN /\
  pull oracle_unborn "origin" "master" sample_world =
  (Raise (RuntimeError "Unknown merge analysis result"), sample_world).
Proof.
  assert (H : refs (repo sample_world) !! ("refs/remotes/" +:+ "origin" +:+ "/" +:+ "master")
              = Some "b2") by (vm_compute; reflexivity).
  split; [exact H|]. split; [reflexivity|].
  apply (pull_unknown_analysis oracle_unborn "origin" "master" sample_world "b2" H);
    vm_compute; reflexivity.
Defined.

Lemma pull_merge_needs_signature_witness :
  refs (repo sample_world_no_identity) !! ("refs/remotes/" +:+ "origin" +:+ "/" +:+ "master")
    = Some "b2" /\
  merge_outcome oracle_merge sample_world_no_identity "b2" = (sample_merged_clean, "tree-m") /\
  config_user (repo sample_world_no_identity) = None /\
  pull oracle_merge "origin" "master" sample_world_no_identity =
  (Raise KeyError,
   {| repo := with_state STATE_MERGE
                (with_workdir "tree-m" (with_index sample_merged_clean
                                          (repo sample_world_no_identity)));
      stdout := stdout sample_world_no_identity;
      calls := (calls sample_world_no_identity ++ [CallMerge "b2"])%list |}).
Proof.
  assert (H : refs (repo sample_world_no_identity)
                !! ("refs/remotes/" +:+ "origin" +:+ "/" +:+ "master") = Some "b2")
    by (vm_compute; reflexivity).
  split; [exact H|]. split; [reflexivity|]. split; [reflexivity|].
  apply (pull_merge_needs_signature oracle_merge "origin" "master" sample_world_no_identity
           "b2" sample_merged_clean "tree-m" H);
    solve [ vm_compute; reflexivity | vm_compute; discriminate ].
Defined.

Lemma pull_writes_only_its_branches_witness :
  "refs/tags/v1.2.3" <> branch_ref "master" /\
  refs (repo (pull oracle_fast_forward "origin" "master" sample_world_tagged).2)
    !! "refs/tags/v1.2.3" = refs (repo sample_world_tagged) !! "refs/tags/v1.2.3" /\
  HEAD (repo (pull oracle_fast_forward "origin" "master" sample_world_tagged).2)
    = OnBranch "master".
Proof.
  assert (H1 : "refs/tags/v1.2.3" <> branch_ref "master") by (vm_compute; discriminate).
  assert (H2 : forall b, HEAD (repo sample_world_tagged) = OnBranch b ->
                         "refs/tags/v1.2.3" <> branch_ref b).
  { intros b Hb. injection Hb as <-. vm_compute. discriminate. }
  destruct (pull_writes_only_its_branches oracle_fast_forward "origin" "master"
              sample_world_tagged "refs/tags/v1.2.3" H1 H2) as (Hrefs & Hhead & _).
  split; [exact H1|]. split; [exact Hrefs|]. apply Hhead. reflexivity.
Defined.

Lemma main_usage_witness :
  (length ["update_comfyui.py"] < 2)%nat /\
  main oracle_fast_forward 4300 Py.unicode_14 ["update_comfyui.py"] sample_world =
  (Raise (SystemExit 1),
   {| repo := repo sample_world;
      stdout := (stdout sample_world
                 ++ ["Usage: python update_comfyui.py <repo_path> [--stable]"])%list;
      calls := calls sample_world |}).
Proof.
  assert (H : (length ["update_comfyui.py"] < 2)%nat) by (simpl; lia).
  split; [exact H|].
  exact (main_usage oracle_fast_forward 4300 Py.unicode_14 ["update_comfyui.py"] sample_world H).
Defined.

Lemma stash_changes_keeps_references_witness :
  "refs/heads/master" <> "refs/stash" /\
  HEAD (repo (stash_changes oracle_fast_forward updater_ident sample_world).2)
    = HEAD (repo sample_world) /\
  refs (repo (stash_changes oracle_fast_forward updater_ident sample_world).2)
    !! "refs/heads/master" = refs (repo sample_world) !! "refs/heads/master".
Proof.
  assert (H : "refs/heads/master" <> "refs/stash") by discriminate.
  split; [exact H|].
  exact (stash_changes_keeps_references oracle_fast_forward updater_ident sample_world
           "refs/heads/master" H).
Defined.

Lemma fetch_failure_is_fatal_witness :
  find_origin (remotes (repo sample_world)) = Some sample_origin /\
  fetch_outcome oracle_offline (fetching_world sample_world) sample_origin (fetch_refspecs true)
    = inl GitError /\
  fetch_from_origin oracle_offline true sample_world
    = (Raise GitError, fetch_failed_world true sample_world) /\
  update_steps oracle_offline 4300 Py.unicode_14 true sample_world
    = (Raise GitError, fetch_failed_world true sample_world).
Proof.
  assert (H1 : find_origin (remotes (repo sample_world)) = Some sample_origin)
    by (vm_compute; reflexivity).
  assert (H2 : fetch_outcome oracle_offline (fetching_world sample_world) sample_origin
                 (fetch_refspecs true) = inl GitError) by reflexivity.
  split; [exact H1|]. split; [exact H2|].
  exact (fetch_failure_is_fatal oracle_offline 4300 Py.unicode_14 true sample_world sample_origin GitError
           H1 H2).
Defined.

Lemma fetch_from_origin_frame_witness :
  "refs/heads/master" <> "refs/remotes/origin/master" /\
  Py.startswith "refs/heads/master" "refs/tags/" = false /\
  refs (repo (fetch_from_origin oracle_fast_forward false sample_world).2) !! "refs/heads/master"
    = refs (repo sample_world) !! "refs/heads/master" /\
  HEAD (repo (fetch_from_origin oracle_fast_forward false sample_world).2)
    = HEAD (repo sample_world).
Proof.
  assert (H1 : "refs/heads/master" <> "refs/remotes/origin/master") by discriminate.
  assert (H2 : Py.startswith "refs/heads/master" "refs/tags/" = false) by reflexivity.
  destruct (fetch_from_origin_frame oracle_fast_forward false sample_world "refs/heads/master"
              H1 H2) as (Hrefs & Hhead & _).
  split; [exact H1|]. split; [exact H2|]. split; [exact Hrefs | exact Hhead].
Defined.

Lemma checkout_master_cases_witness :
  refs (repo sample_world) !! "refs/heads/master" = Some "a1" /\
  peel_commit (repo sample_world) "a1" = Some ("a1", sample_commit_A) /\
  checkout_conflict oracle_fast_forward (master_wanted sample_world)
    (commit_tree sample_commit_A) = false /\
  checkout_master oracle_fast_forward sample_world =
  (Ok tt,
   {| repo := with_HEAD (OnBranch "master")
                (checked_out (commit_tree sample_commit_A) (repo sample_world));
      stdout := stdout (master_wanted sample_world);
      calls := (calls sample_world ++ [CallCheckout "refs/heads/master"])%list |}).
Proof.
  assert (H1 : refs (repo sample_world) !! "refs/heads/master" = Some "a1")
    by (vm_compute; reflexivity).
  assert (H2 : peel_commit (repo sample_world) "a1" = Some ("a1", sample_commit_A))
    by (vm_compute; reflexivity).
  assert (H3 : checkout_conflict oracle_fast_forward (master_wanted sample_world)
                 (commit_tree sample_commit_A) = false) by reflexivity.
  split; [exact H1|]. split; [exact H2|]. split; [exact H3|].
  exact (proj1 (proj1 (checkout_master_cases oracle_fast_forward sample_world)
                  "a1" "a1" sample_commit_A H1 H2) H3).
Defined.

Lemma checkout_stable_tag_cases_witness :
  find_latest_stable_tag 4300 Py.unicode_14 (repo sample_world_annotated)
    = Some "refs/tags/v1.10.0" /\
  refs (repo sample_world_annotated) !! "refs/tags/v1.10.0" = Some "t9" /\
  peel_commit (repo sample_world_annotated) "t9" = Some ("b2", sample_commit_B) /\
  checkout_conflict oracle_fast_forward (tag_wanted "refs/tags/v1.10.0" sample_world_annotated)
    (commit_tree sample_commit_B) = false /\
  exists suffix,
    "refs/tags/v1.10.0" = "refs/tags/v" +:+ suffix /\
    checkout_stable_tag oracle_fast_forward 4300 Py.unicode_14 true sample_world_annotated =
    (Ok tt,
     {| repo := with_HEAD (Detached "b2")
                  (checked_out (commit_tree sample_commit_B) (repo sample_world_annotated));
        stdout := (stdout sample_world_annotated
                   ++ ["Checking out stable tag: " +:+ "refs/tags/v1.10.0";
                       "[CHECKED_OUT_TAG] v" +:+ suffix])%list;
        calls := (calls sample_world_annotated ++ [CallCheckout "refs/tags/v1.10.0"])%list |}).
Proof.
  assert (H1 : find_latest_stable_tag 4300 Py.unicode_14 (repo sample_world_annotated)
               = Some "refs/tags/v1.10.0") by (vm_compute; reflexivity).
  assert (H2 : refs (repo sample_world_annotated) !! "refs/tags/v1.10.0" = Some "t9")
    by (vm_compute; reflexivity).
  assert (H3 : peel_commit (repo sample_world_annotated) "t9" = Some ("b2", sample_commit_B))
    by (vm_compute; reflexivity).
  assert (H4 : checkout_conflict oracle_fast_forward
                 (tag_wanted "refs/tags/v1.10.0" sample_world_annotated)
                 (commit_tree sample_commit_B) = false) by reflexivity.
  split; [exact H1|]. split; [exact H2|]. split; [exact H3|]. split; [exact H4|].
  exact (proj1 (proj1 (checkout_stable_tag_cases oracle_fast_forward 4300 Py.unicode_14
                         sample_world_annotated)
                  "refs/tags/v1.10.0" "t9" "b2" sample_commit_B H1 H2 H3) H4).
Defined.

Lemma main_output_frame_witness :
  main oracle_fast_forward 4300 Py.unicode_14 sample_argv sample_world = (Ok tt, sample_final) /\
  exists pre post middle,
    head_oid (repo sample_world) = Some pre /\
    head_oid (repo sample_final) = Some post /\
    stdout sample_final =
    (stdout sample_world ++ ["[PRE_UPDATE_HEAD] " +:+ pre] ++ middle
       ++ ["[POST_UPDATE_HEAD] " +:+ post; "Done!"])%list.
Proof.
  assert (H : main oracle_fast_forward 4300 Py.unicode_14 sample_argv sample_world = (Ok tt, sample_final))
    by (vm_compute; reflexivity).
  split; [exact H|].
  exact (main_output_frame oracle_fast_forward 4300 Py.unicode_14 sample_argv sample_world sample_final H).
Defined.

Lemma main_failed_no_done_witness :
  main oracle_conflict 4300 Py.unicode_14 sample_argv sample_world =
  (Raise (RuntimeError "Merge conflicts detected. Aborting."), sample_final_conflict) /\
  exists new,
    stdout sample_final_conflict = (stdout sample_world ++ new)%list /\ "Done!" ∉ new.
Proof.
  assert (H : main oracle_conflict 4300 Py.unicode_14 sample_argv sample_world =
              (Raise (RuntimeError "Merge conflicts detected. Aborting."),
               sample_final_conflict)) by (vm_compute; reflexivity).
  split; [exact H|].
  exact (main_failed_no_done oracle_conflict 4300 Py.unicode_14 sample_argv sample_world
           sample_final_conflict _ H).
Defined.

Lemma main_reference_frame_witness :
  Py.startswith "refs/remotes/upstream/master" "refs/heads/" = false /\
  Py.startswith "refs/remotes/upstream/master" "refs/tags/" = false /\
  refs (repo (main oracle_fast_forward 4300 Py.unicode_14 sample_argv sample_world).2)
    !! "refs/remotes/upstream/master"
  = refs (repo sample_world) !! "refs/remotes/upstream/master".
Proof.
  assert (H1 : Py.startswith "refs/remotes/upstream/master" "refs/heads/" = false)
    by reflexivity.
  assert (H2 : "refs/remotes/upstream/master" <> "refs/stash") by discriminate.
  assert (H3 : "refs/remotes/upstream/master" <> "refs/remotes/origin/master") by discriminate.
  assert (H4 : Py.startswith "refs/remotes/upstream/master" "refs/tags/" = false)
    by reflexivity.
  split; [exact H1|]. split; [exact H4|].
  exact (main_reference_frame oracle_fast_forward 4300 Py.unicode_14 sample_argv sample_world
           "refs/remotes/upstream/master" H1 H2 H3 H4).
Defined.

Lemma main_final_HEAD_witness :
  main oracle_fast_forward 4300 Py.unicode_14 sample_argv sample_world = (Ok tt, sample_final) /\
  stable_flag sample_argv = true /\
  find_latest_stable_tag 4300 Py.unicode_14 (repo sample_final) = Some "refs/tags/v1.10.0" /\
  exists oid commit_oid c,
    refs (repo sample_final) !! "refs/tags/v1.10.0" = Some oid /\
    peel_commit (repo sample_final) oid = Some (commit_oid, c) /\
    HEAD (repo sample_final) = Detached commit_oid.
Proof.
  assert (H : main oracle_fast_forward 4300 Py.unicode_14 sample_argv sample_world
              = (Ok tt, sample_final)) by (vm_compute; reflexivity).
  assert (Hflag : stable_flag sample_argv = true) by reflexivity.
  assert (Hfind : find_latest_stable_tag 4300 Py.unicode_14 (repo sample_final)
                  = Some "refs/tags/v1.10.0") by (vm_compute; reflexivity).
  split; [exact H|]. split; [exact Hflag|]. split; [exact Hfind|].
  pose proof (main_final_HEAD oracle_fast_forward 4300 Py.unicode_14 sample_argv sample_world
                sample_final H) as Hhead.
  rewrite Hflag, Hfind in Hhead. exact Hhead.
Defined.

Lemma main_without_stable_no_tag_marker_witness :
  stable_flag sample_argv_plain = false /\
  tag_marker_lines (main oracle_fast_forward 4300 Py.unicode_14 sample_argv_plain sample_world).2
  = tag_marker_lines sample_world.
Proof.
  assert (H : stable_flag sample_argv_plain = false) by reflexivity.
  split; [exact H|].
  exact (main_without_stable_no_tag_marker oracle_fast_forward 4300 Py.unicode_14 sample_argv_plain
           sample_world H).
Defined.

Lemma main_opens_repository_witness :
  sample_argv !! 1%nat = Some "/srv/ComfyUI/" /\
  exists path trail rest,
    "/srv/ComfyUI/" = path +:+ trail /\
    all_chars is_separator trail = true /\
    Py.rstrip "/\" path = path /\
    calls (main oracle_fast_forward 4300 Py.unicode_14 sample_argv sample_world).2 =
    (calls sample_world
     ++ [CallOption GIT_OPT_SET_OWNER_VALIDATION 0; CallOpen path] ++ rest)%list /\
    Forall (fun c => is_setup_call c = false) rest.
Proof.
  assert (H : sample_argv !! 1%nat = Some "/srv/ComfyUI/") by reflexivity.
  split; [exact H|].
  exact (main_opens_repository oracle_fast_forward 4300 Py.unicode_14 sample_argv sample_world
           "/srv/ComfyUI/" H).
Defined.

(** A run without [--stable] still gets the tags the fetch follows, and
    stays on master. *)
Example main_plain_run_follows_tags :
  (main oracle_fast_forward 4300 Py.unicode_14 sample_argv_plain sample_world).1 = Ok tt /\
  refs (repo sample_world) !! "refs/tags/v1.2.3" = None /\
  refs (repo sample_final_plain) !! "refs/tags/v1.2.3" = Some "a1" /\
  refs (repo sample_final_plain) !! "refs/tags/v1.10.0" = Some "b2" /\
  HEAD (repo sample_final_plain) = OnBranch "master" /\
  calls sample_final_plain =
  [CallOption 36 0; CallOpen "/srv/ComfyUI"; CallStash updater_ident; CallStateCleanup;
   CallIndexReadTree "tree-a"; CallIndexWrite; CallStash updater_ident;
   CallCreateBranch "backup_branch_2026-03-07_09_05_00" "a1";
   CallFetch "origin" ["+refs/heads/master:refs/remotes/origin/master"];
   CallCheckout "refs/heads/master"; CallCheckoutTree "b2";
   CallSetTarget "refs/heads/master" "b2"; CallSetTarget "refs/heads/master" "b2"].
Proof. vm_compute. repeat split; reflexivity. Qed.

(** A run with [--stable] on an annotated tag: the tag reference points
    to the tag object, and HEAD ends detached at the tagged commit. *)
Example main_annotated_tag_run :
  (main oracle_annotated 4300 Py.unicode_14 sample_argv sample_world).1 = Ok tt /\
  refs (repo (main oracle_annotated 4300 Py.unicode_14 sample_argv sample_world).2)
    !! "refs/tags/v1.10.0" = Some "t9" /\
  HEAD (repo (main oracle_annotated 4300 Py.unicode_14 sample_argv sample_world).2)
    = Detached "b2" /\
  stdout (main oracle_annotated 4300 Py.unicode_14 sample_argv sample_world).2 =
  [ "[PRE_UPDATE_HEAD] a1";
    "Stashing current changes…";
    "Could not stash, cleaning index and trying again.";
    "Nothing to stash.";
    "Creating backup branch: backup_branch_2026-03-07_09_05_00";
    "[BACKUP_BRANCH] backup_branch_2026-03-07_09_05_00";
    "Fetching from origin…";
    "Checking out master branch…";
    "Pulling latest changes…";
    "Checking out stable tag: refs/tags/v1.10.0";
    "[CHECKED_OUT_TAG] v1.10.0";
    "[POST_UPDATE_HEAD] b2";
    "Done!" ].
Proof. vm_compute. repeat split; reflexivity. Qed.

(** A run in which a file of the working directory stops the checkouts:
    the checkout of master raises [GitError], and neither the pull nor
    the later steps run. *)
Example main_checkout_stopped_run :
  (main oracle_checkout_stopped 4300 Py.unicode_14 sample_argv sample_world).1
    = Raise GitError /\
  HEAD (repo (main oracle_checkout_stopped 4300 Py.unicode_14 sample_argv sample_world).2)
    = OnBranch "master" /\
  refs (repo (main oracle_checkout_stopped 4300 Py.unicode_14 sample_argv sample_world).2)
    !! "refs/heads/master" = Some "a1" /\
  workdir (repo (main oracle_checkout_stopped 4300 Py.unicode_14 sample_argv sample_world).2)
    = "tree-a" /\
  last (stdout (main oracle_checkout_stopped 4300 Py.unicode_14 sample_argv sample_world).2)
    = Some "Checking out master branch…".
Proof. vm_compute. repeat split; reflexivity. Qed.
